(** * bilibili-online worker: a shallow embedding of [apps/worker/worker.py]

    The worker polls the popular-video catalog, enriches every entry with a
    detail call and an online-viewer call, ranks the results and replaces
    the snapshot file.  This development embeds the pipeline as executable
    Rocq functions and settles the specification's claims against them.

    Conventions
    - Python values decoded from JSON are the inductive [pyval]; a [dict]
      is a [gmap string pyval] and [d.get(k)] is [d !! k] with [None] read
      as Python's [None].
    - A Python [str] is a Rocq [string] whose characters are the code
      points U+0000..U+00FF; the [str.isspace] and [str.isdigit] tables are
      written out for exactly this range.
    - A Python [float] is a [spec_float] (IEEE-754 binary64 value); only
      [int(float)] is ever applied to it.
    - Fallible code lives in the [result] monad; awaited network calls are
      driven by an explicit description of what the network answers. *)

From Stdlib Require Import ZArith QArith Lqa Floats.SpecFloat.
From stdpp Require Import gmap strings list fin_maps sorting.

Local Open Scope string_scope.
Local Open Scope Z_scope.
Local Open Scope list_scope.
Local Set Warnings "-register-all".

(** ** Python values *)

Inductive pyval : Type :=
| PNone
| PBool (b : bool)
| PInt (n : Z)
| PFloat (f : spec_float)
| PStr (s : string)
| PList (l : list pyval)
| PDict (d : gmap string pyval).

Abbreviation pydict := (gmap string pyval).

(** [d.get(k)] *)
Definition py_get (d : pydict) (k : string) : pyval :=
  default PNone (d !! k).

(** [bool(v)] *)
Definition py_truthy (v : pyval) : bool :=
  match v with
  | PNone => false
  | PBool b => b
  | PInt n => negb (n =? 0)
  | PFloat (S754_zero _) => false
  | PFloat _ => true
  | PStr s => negb (String.eqb s "")
  | PList l => negb (Nat.eqb (length l) 0)
  | PDict d => negb (Nat.eqb (size d) 0)
  end.

(** [v == 0] *)
Definition py_eq_zero (v : pyval) : bool :=
  match v with
  | PBool b => negb b
  | PInt n => n =? 0
  | PFloat (S754_zero _) => true
  | _ => false
  end.

(** [isinstance(v, int)]: [bool] is a subclass of [int]. *)
Definition as_int (v : pyval) : option Z :=
  match v with
  | PInt n => Some n
  | PBool b => Some (Z.b2z b)
  | _ => None
  end.

(** [isinstance(v, str)] *)
Definition as_str (v : pyval) : option string :=
  match v with PStr s => Some s | _ => None end.

(** [isinstance(v, dict)] *)
Definition as_dict (v : pyval) : option pydict :=
  match v with PDict d => Some d | _ => None end.

(** ** Exceptions and the error monad *)

Inductive exn : Type :=
| ValueError (msg : string)
| OverflowError (msg : string)
| AttributeError (msg : string)
| UnboundLocalError (var : string)
| TransportError (msg : string)          (* raised by [client.get] *)
| HTTPStatusError (status : Z)            (* raised by [raise_for_status] *)
| JSONDecodeError                         (* raised by [resp.json()] *)
| OSError (msg : string)
| GetFailed (url : string) (retries : Z) (last_err : exn)
    (* RuntimeError("GET {url} failed after {retries} retries: {last_err}") *)
| MissingBvid                             (* RuntimeError("missing bvid") *)
| PopularApiError (code message : pyval)  (* RuntimeError("popular api error: ...") *)
| PopularNotList                          (* RuntimeError("popular api: data.list is not a list") *)
| UnicodeDecodeError                      (* raised by the read of a file that is no UTF-8 *)
| NotImplementedError.                    (* raised by [add_signal_handler] without signal support *)

Inductive result (A : Type) : Type :=
| Ok (a : A)
| Raise (e : exn).
Arguments Ok {A} a.
Arguments Raise {A} e.

#[export] Instance result_ret : MRet result := fun A a => Ok a.
#[export] Instance result_bind : MBind result := fun A B k r =>
  match r with
  | Ok a => k a
  | Raise e => Raise e
  end.

Definition is_ok {A} (r : result A) : bool :=
  match r with Ok _ => true | Raise _ => false end.

(** ** Strings: [strip], [isdigit], [int]

    The strings inside values hold the code points U+0000..U+00FF, and the
    tables of this section say what the interpreter's Unicode database
    says of those.  Text of any code points, over the whole database, is
    in the module [Unicode] further down; the two are proved to be one on
    U+0000..U+00FF. *)

Definition code_point (c : Ascii.ascii) : N := Ascii.N_of_ascii c.

(** [str.isspace] on U+0000..U+00FF *)
Definition isspace (c : Ascii.ascii) : bool :=
  let n := code_point c in
  ((9 <=? n) && (n <=? 13) || (28 <=? n) && (n <=? 32)
   || (n =? 133) || (n =? 160))%N.

(** ['0'..'9'] *)
Definition isdecimal (c : Ascii.ascii) : bool :=
  let n := code_point c in ((48 <=? n) && (n <=? 57))%N.

(** [str.isdigit] on one character of U+0000..U+00FF: the decimal digits
    and the superscripts U+00B2, U+00B3, U+00B9. *)
Definition isdigit_char (c : Ascii.ascii) : bool :=
  let n := code_point c in
  (isdecimal c || (n =? 178) || (n =? 179) || (n =? 185))%N.

Fixpoint lstrip (s : string) : string :=
  match s with
  | EmptyString => EmptyString
  | String c r => if isspace c then lstrip r else s
  end.

Fixpoint rstrip (s : string) : string :=
  match s with
  | EmptyString => EmptyString
  | String c r =>
      match rstrip r with
      | EmptyString => if isspace c then EmptyString else String c EmptyString
      | r' => String c r'
      end
  end.

(** [s.strip()] *)
Definition strip (s : string) : string := rstrip (lstrip s).

Fixpoint forall_chars (p : Ascii.ascii -> bool) (s : string) : bool :=
  match s with
  | EmptyString => true
  | String c r => p c && forall_chars p r
  end.

(** [s.isdigit()]: at least one character, all of them digits. *)
Definition isdigit (s : string) : bool :=
  match s with
  | EmptyString => false
  | _ => forall_chars isdigit_char s
  end.

Fixpoint parse_decimal (acc : Z) (s : string) : Z :=
  match s with
  | EmptyString => acc
  | String c r => parse_decimal (10 * acc + (Z.of_N (code_point c) - 48)) r
  end.

(** CPython's default [sys.int_info.default_max_str_digits]. *)
Definition int_max_str_digits : nat := 4300.

(** [int(s)] for a string [s] that passed [isdigit]: the superscript digits
    are no decimal literals, and a literal longer than the interpreter's
    limit is refused. *)
Definition int_of_str (s : string) : result Z :=
  if negb (forall_chars isdecimal s) then
    Raise (ValueError "invalid literal for int() with base 10")
  else if (int_max_str_digits <? String.length s)%nat then
    Raise (ValueError "Exceeds the limit for integer string conversion")
  else Ok (parse_decimal 0 s).

(** [int(f)] for a float: truncation toward zero. *)
Definition int_of_float (f : spec_float) : result Z :=
  match f with
  | S754_zero _ => Ok 0
  | S754_infinity _ => Raise (OverflowError "cannot convert float infinity to integer")
  | S754_nan => Raise (ValueError "cannot convert float NaN to integer")
  | S754_finite sgn m e =>
      let mag := if 0 <=? e then Z.pos m * 2 ^ e else Z.pos m / 2 ^ (- e) in
      Ok (if sgn then - mag else mag)
  end.

(** ** [_safe_int] *)

Definition _safe_int (v : pyval) : result (option Z) :=
  match v with
  | PNone => Ok None
  | PBool b => Ok (Some (Z.b2z b))
  | PInt n => Ok (Some n)
  | PFloat f => n ← int_of_float f; Ok (Some n)
  | PStr v =>
      let s := strip v in
      if isdigit s then n ← int_of_str s; Ok (Some n) else Ok None
  | _ => Ok None
  end.

(** [Optional[int]] back as a Python value *)
Definition of_opt_int (o : option Z) : pyval :=
  match o with Some n => PInt n | None => PNone end.

(** ** Observable effects

    Awaited calls leave a trace.  Effectful code returns its result together
    with the events it caused, in program order. *)

Inductive event : Type :=
| EvLimiterWait                                   (* [await limiter.wait()] *)
| EvGet (url : string) (params : pydict)          (* [await client.get(url, params=params)] *)
| EvRetryLog (attempt retries : Z) (wait_sec : Q) (e : exn)
    (* "[worker] request failed (attempt {attempt + 1}/{retries}), retrying in ..." *)
| EvSleep (sec : Q)                               (* [await asyncio.sleep(sec)] *)
| EvAcquire                                       (* entering [async with sem] *)
| EvRelease                                       (* leaving [async with sem] *)
| EvFetched (n : nat)                             (* "[worker] fetched {n} popular videos" *)
| EvProgress (i total : nat)                      (* "[worker] progress: {i}/{total} ..." *)
| EvItemFailed (e : exn)                          (* "[worker] single video failed: {e}" *)
| EvUpdated (path : string) (n : nat)             (* "[worker] updated {path} items={n} ..." *)
| EvCycleFailed (e : exn)                         (* "[worker] fetch failed, ..." *)
| EvStarting                                      (* "[worker] starting interval=..." *)
| EvSleeping (sec : Z)                            (* "[worker] sleeping {sec}s ..." *)
| EvShutdown.                                     (* "[worker] shutting down gracefully" *)

Definition M (A : Type) : Type := (result A * list event)%type.

Definition raise {A} (e : exn) : M A := (Raise e, []).
Definition lift {A} (r : result A) : M A := (r, []).
Definition emit (ev : event) : M unit := (Ok tt, [ev]).

#[export] Instance M_ret : MRet M := fun A a => (Ok a, []).
#[export] Instance M_bind : MBind M := fun A B k m =>
  match m with
  | (Ok a, t) => let '(r, t') := k a in (r, t ++ t')
  | (Raise e, t) => (Raise e, t)
  end.

(** ** The network as seen by one logical GET

    [answer k] is what the [k]-th attempt of the call meets and [rand53 k]
    the 53 random bits [random.random()] draws after that attempt. *)

Inductive http_outcome : Type :=
| NetFail (e : exn)                            (* [client.get] raises *)
| NetResp (status : Z) (body : option pyval).  (* a response; [None]: the body is no JSON *)

Record call_env : Type := {
  answer : nat -> http_outcome;
  rand53 : nat -> N
}.

(** [random.random()]: uniform on the multiples of 2^-53 in [0, 1). *)
Definition random_random (bits : N) : Q :=
  Z.of_N (bits mod 2 ^ 53) # (2 ^ 53).

(** [resp.raise_for_status()] accepts the 2xx codes. *)
Definition is_success (status : Z) : bool :=
  (200 <=? status) && (status <=? 299).

(** The body of the [try] block in [_get_json_with_retry], after the GET
    has been issued. *)
Definition attempt_once (o : http_outcome) : result pydict :=
  match o with
  | NetFail e => Raise e
  | NetResp status body =>
      if negb (is_success status) then Raise (HTTPStatusError status)
      else match body with
           | None => Raise JSONDecodeError
           | Some (PDict data) => Ok data
           | Some _ => Raise (ValueError "response is not a json object")
           end
  end.

(** [base_backoff_sec * (2 ** attempt) + random.random() * 0.2], over the
    rationals. *)
Definition backoff (base_backoff_sec : Q) (attempt : nat) (bits : N) : Q :=
  (base_backoff_sec * inject_Z (2 ^ Z.of_nat attempt)
   + random_random bits * (2 # 10))%Q.

(** The [for attempt in range(retries)] loop with [todo] iterations left.
    [last_err] is [None] while the variable is unbound. *)
Fixpoint retry_loop (url : string) (params : pydict) (limiter : bool)
    (retries : Z) (base_backoff_sec : Q) (env : call_env)
    (todo attempt : nat) (last_err : option exn) : M pydict :=
  match todo with
  | O =>
      match last_err with
      | Some e => raise (GetFailed url retries e)
      | None => raise (UnboundLocalError "last_err")
      end
  | S todo' =>
      (if limiter then emit EvLimiterWait else mret tt);;
      emit (EvGet url params);;
      match attempt_once (answer env attempt) with
      | Ok data => mret data
      | Raise e =>
          let wait_sec := backoff base_backoff_sec attempt (rand53 env attempt) in
          emit (EvRetryLog (Z.of_nat attempt) retries wait_sec e);;
          emit (EvSleep wait_sec);;
          retry_loop url params limiter retries base_backoff_sec env
                     todo' (S attempt) (Some e)
      end
  end.

Definition _get_json_with_retry (url : string) (params : pydict)
    (limiter : bool) (retries : Z) (base_backoff_sec : Q)
    (env : call_env) : M pydict :=
  retry_loop url params limiter retries base_backoff_sec env
             (Z.to_nat retries) 0 None.

(** The keyword defaults [retries=3], [base_backoff_sec=0.6]. *)
Definition default_retries : Z := 3.
Definition default_backoff : Q := 6 # 10.

Definition POPULAR_API : string := "https://api.bilibili.com/x/web-interface/popular".
Definition VIEW_API : string := "https://api.bilibili.com/x/web-interface/view".
Definition ONLINE_API : string := "https://api.bilibili.com/x/player/online/total".

Definition always (o : http_outcome) : call_env :=
  {| answer := fun _ => o; rand53 := fun _ => 0%N |}.

(** ** The host: library behaviour the worker relies on *)

Record host : Type := {
  (** [datetime.fromtimestamp(t).strftime("%Y-%m-%d %H:%M:%S")] in the
      host's time zone; raises outside the platform's range. *)
  strftime_local : Z -> result string;
  (** the text [json.dump(payload, f, ensure_ascii=False, indent=2)] writes *)
  json_dump : pydict -> string;
  (** [json.load]; [None] stands for [json.JSONDecodeError] *)
  json_load : string -> option pyval;
  (** [open(path, "r", encoding="utf-8")] followed by [json.load(f)],
      given what the disk holds at the path: the error they raise, if it is
      neither [FileNotFoundError] nor [json.JSONDecodeError]
      ([PermissionError], [IsADirectoryError], [UnicodeDecodeError],
      [RecursionError], ...) *)
  read_error : string -> option string -> option exn;
  (** [loop.add_signal_handler(sig, stop_event.set)]: the error it raises
      on this platform's event loop ([NotImplementedError] where the loop
      has no signal support), if any *)
  add_signal_handler : option exn
}.

(** [async with sem: m]: the permit is released on every exit. *)
Definition with_sem {A} (m : M A) : M A :=
  let '(r, t) := m in (r, [EvAcquire] ++ t ++ [EvRelease]).

(** [v or {}] *)
Definition or_empty_dict (v : pyval) : pyval :=
  if py_truthy v then v else PDict ∅.

(** [v.get]: an attribute error unless [v] is a dict. *)
Definition get_attr (v : pyval) : result pydict :=
  match v with
  | PDict d => Ok d
  | _ => Raise (AttributeError "object has no attribute 'get'")
  end.

(** What the network answers to one enrichment. *)
Record enrich_env : Type := {
  view_call : call_env;
  online_call : call_env
}.

Section Enrich.
Context (h : host).

Definition enrich_video (env : enrich_env) (raw_item : pydict) : M pydict :=
  let bvid := py_get raw_item "bvid" in
  match as_str bvid with
  | None => raise MissingBvid
  | Some bvid =>
  if String.eqb bvid "" then raise MissingBvid else
  (* the detail call, which carries cid *)
  view_raw ← with_sem (_get_json_with_retry VIEW_API {["bvid" := PStr bvid]}
                          true default_retries default_backoff (view_call env));
  let view_data := or_empty_dict (py_get view_raw "data") in
  view_data ← lift (get_attr view_data);
  cid ← lift (_safe_int (py_get view_data "cid"));
  (* title *)
  let title :=
    match as_str (py_get raw_item "title") with
    | Some _ => py_get raw_item "title"
    | None => py_get view_data "title"
    end in
  let title :=
    match as_str title with
    | Some t => t
    | None => "(untitled) " +:+ bvid
    end in
  (* owner *)
  let owner :=
    match as_dict (py_get view_data "owner") with
    | Some _ => py_get view_data "owner"
    | None => py_get raw_item "owner"
    end in
  (* views and danmaku *)
  let stat :=
    match as_dict (py_get view_data "stat") with
    | Some _ => py_get view_data "stat"
    | None => py_get raw_item "stat"
    end in
  '(view, danmaku) ←
    match as_dict stat with
    | Some stat =>
        view ← lift (_safe_int (py_get stat "view"));
        danmaku ← lift (_safe_int (py_get stat "danmaku"));
        mret (view, danmaku)
    | None => mret (None, None)
    end;
  (* cover *)
  let pic := py_get raw_item "pic" in
  let pic :=
    match as_str pic with
    | Some p => if String.eqb p "" then py_get view_data "pic" else pic
    | None => py_get view_data "pic"
    end in
  let pic := match as_str pic with Some p => p | None => "" end in
  (* publication time *)
  let pubdate := py_get view_data "pubdate" in
  let pubdate :=
    match as_int pubdate with
    | Some _ => pubdate
    | None => py_get raw_item "pubdate"
    end in
  let pubdate := match as_int pubdate with Some t => t | None => 0 end in
  pubdate ← lift (strftime_local h pubdate);
  (* online viewers *)
  '(online_total, online_count) ←
    match cid with
    | Some c =>
        if c =? 0 then mret (PNone, None) else
        online_raw ← with_sem (_get_json_with_retry ONLINE_API
                                  (<["bvid" := PStr bvid]> {["cid" := PInt c]})
                                  true default_retries default_backoff
                                  (online_call env));
        if py_eq_zero (py_get online_raw "code") then
          match or_empty_dict (py_get online_raw "data") with
          | PDict d =>
              online_count ← lift (_safe_int (py_get d "count"));
              mret (py_get d "total", online_count)
          | _ => mret (PNone, None)
          end
        else mret (PNone, None)
    | None => mret (PNone, None)
    end;
  mret (<["bvid" := PStr bvid]>
       (<["title" := PStr title]>
       (<["pic" := PStr pic]>
       (<["owner" := owner]>
       (<["online_total" := online_total]>
       (<["online_count" := of_opt_int online_count]>
       (<["view" := of_opt_int view]>
       (<["danmaku" := of_opt_int danmaku]>
       {["pubdate" := PStr pubdate]}))))))))
  end.

End Enrich.

(** ** [fetch_popular_videos] *)

Record Config : Type := {
  update_interval_sec : Z;
  output_path : string;
  user_agent : string;
  sessdata : string;
  http_proxy : string;
  max_items : Z;
  max_concurrency : Z
}.

Definition fetch_popular_videos (cfg : Config) (env : call_env) : M (list pyval) :=
  raw ← _get_json_with_retry POPULAR_API
          (<["pn" := PInt 1]> {["ps" := PInt (max_items cfg)]})
          true default_retries default_backoff env;
  if negb (py_eq_zero (py_get raw "code")) then
    raise (PopularApiError (py_get raw "code") (py_get raw "message"))
  else
  data ← lift (get_attr (or_empty_dict (py_get raw "data")));
  let items := py_get data "list" in
  let items := if py_truthy items then items else PList [] in
  match items with
  | PList items => emit (EvFetched (length items));; mret items
  | _ => raise PopularNotList
  end.

(** ** [build_payload] *)

(** [asyncio.as_completed]: the tasks in the order they finish.  [choices]
    names, among the tasks still pending, the one that finishes next; when
    it runs out the rest finish in submission order. *)
Fixpoint as_completed {A} (choices : list nat) (pending : list A) : list A :=
  match choices with
  | [] => pending
  | c :: choices' =>
      let i := (c mod length pending)%nat in
      match pending !! i with
      | Some x => x :: as_completed choices' (delete i pending)
      | None => pending
      end
  end.

(** The [sort_key] closure of [build_payload]. *)
Definition sort_key (x : pydict) : Z * Z :=
  let online := py_get x "online_count" in
  let o := match as_int online with Some n => n | None => -1 end in
  (if 0 <=? o then 0 else 1, - (if 0 <=? o then o else 0)).

(** [<] on the key tuples *)
Definition key_lt (a b : Z * Z) : bool :=
  (a.1 <? b.1) || ((a.1 =? b.1) && (a.2 <? b.2)).

(** [list.sort(key=...)] is a stable sort; it is embedded as the stable
    insertion sort. *)
Fixpoint insert_by {A} (key : A -> Z * Z) (x : A) (l : list A) : list A :=
  match l with
  | [] => [x]
  | y :: l' => if key_lt (key y) (key x) then y :: insert_by key x l' else x :: l
  end.

Fixpoint list_sort {A} (key : A -> Z * Z) (l : list A) : list A :=
  match l with
  | [] => []
  | x :: l' => insert_by key x (list_sort key l')
  end.

(** The collecting loop [for i, coro in enumerate(..., start=1)]. *)
Fixpoint collect_loop (total i : nat) (coros : list (M pydict))
    (enriched : list pydict) : list pydict * list event :=
  match coros with
  | [] => (enriched, [])
  | (Ok item, t) :: coros' =>
      let progress :=
        if ((i mod 10 =? 0) || (i =? total))%nat then [EvProgress i total] else [] in
      let '(out, t') := collect_loop total (S i) coros' (enriched ++ [item]) in
      (out, t ++ progress ++ t')
  | (Raise e, t) :: coros' =>
      let '(out, t') := collect_loop total (S i) coros' enriched in
      (out, t ++ [EvItemFailed e] ++ t')
  end.

(** What one cycle meets. *)
Record cycle_env : Type := {
  popular_call : call_env;          (* the catalog call *)
  item_env : nat -> enrich_env;     (* the calls of the i-th task *)
  completion : list nat;            (* the choices driving [as_completed] *)
  now : string;                     (* [_now_formatted()] when the payload is built *)
  write_fault : option nat;         (* the write raises [OSError] at this step *)
  stop_after : bool                 (* the stop event is set by the end of this cycle's sleep *)
}.

(** ** The snapshot file *)

(** The file system is the text stored at each path; these are the
    operations the writer performs on it. *)
Inductive fs_op : Type :=
| MakeParentDirs (path : string)          (* [os.makedirs(dirname(path) or ".", exist_ok=True)] *)
| OpenTrunc (path : string)               (* [open(path, "w")] *)
| WriteChar (path : string) (c : Ascii.ascii)
| Flush (path : string)
| Fsync (path : string)
| Close (path : string)
| Replace (src dst : string).             (* [os.replace(src, dst)], atomic *)

Definition fs_step (op : fs_op) (fs : gmap string string) : gmap string string :=
  match op with
  | MakeParentDirs _ | Flush _ | Fsync _ | Close _ => fs
  | OpenTrunc p => <[p := ""]> fs
  | WriteChar p c => alter (fun s => s +:+ String c "") p fs
  | Replace src dst =>
      match fs !! src with
      | Some s => <[dst := s]> (delete src fs)
      | None => fs
      end
  end.

(** State after the operations [ops], in order. *)
Definition fs_run (ops : list fs_op) (fs : gmap string string) : gmap string string :=
  foldl (fun fs op => fs_step op fs) fs ops.

Fixpoint chars (s : string) : list Ascii.ascii :=
  match s with
  | EmptyString => []
  | String c r => c :: chars r
  end.

Section Pipeline.
Context (h : host).

Definition build_payload (cfg : Config) (w : cycle_env) : M pydict :=
  popular_items ← fetch_popular_videos cfg (popular_call w);
  let tasks := imap (fun i it => enrich_video h (item_env w i) it)
                    (omap as_dict popular_items) in
  let total := length tasks in
  let '(enriched, t) := collect_loop total 1 (as_completed (completion w) tasks) [] in
  let enriched := list_sort sort_key enriched in
  (Ok (<["updated_at" := PStr (now w)]> {["items" := PList (PDict <$> enriched)]}), t).

(** The operations of [_atomic_write_json], one per character written. *)
Definition atomic_write_ops (path : string) (payload : pydict) : list fs_op :=
  let tmp_path := path +:+ ".tmp" in
  [MakeParentDirs path; OpenTrunc tmp_path]
  ++ (WriteChar tmp_path <$> chars (json_dump h payload))
  ++ [Flush tmp_path; Fsync tmp_path; Close tmp_path; Replace tmp_path path].

(** [_atomic_write_json]; with [fault = Some k] step [k] raises and the
    steps before it have taken effect. *)
Definition _atomic_write_json (fault : option nat) (path : string)
    (payload : pydict) (fs : gmap string string)
    : result () * gmap string string :=
  let ops := atomic_write_ops path payload in
  match fault with
  | Some k =>
      if (k <? length ops)%nat
      then (Raise (OSError "write failed"), fs_run (take k ops) fs)
      else (Ok (), fs_run ops fs)
  | None => (Ok (), fs_run ops fs)
  end.

(** [_read_existing]: a missing file and text that is no JSON give
    [None]; the [except] clause names no other error, so every other one
    leaves the function. *)
Definition _read_existing (path : string) (fs : gmap string string)
    : result (option pyval) :=
  match read_error h path (fs !! path) with
  | Some e => Raise e
  | None =>
      match fs !! path with
      | Some text => Ok (json_load h text)   (* [None]: [json.JSONDecodeError] *)
      | None => Ok None                      (* [FileNotFoundError] *)
      end
  end.

(** ** [run_once] and [scheduler] *)

Definition run_once (cfg : Config) (w : cycle_env) (fs : gmap string string)
    : M () * gmap string string :=
  let out_path := output_path cfg in
  match
    existing ← _read_existing out_path fs;
    get_attr (or_empty_dict (default PNone existing))
  with
  | Raise e => (raise e, fs)
  | Ok existing =>
      let existing_items :=
        match py_get existing "items" with PList l => Some l | _ => None end in
      let '(r, t) := build_payload cfg w in
      match r with
      | Raise e => ((Ok (), t ++ [EvCycleFailed e]), fs)
      | Ok payload =>
          let payload := delete "error" payload in
          let '(wr, fs') := _atomic_write_json (write_fault w) out_path payload fs in
          match wr with
          | Raise e => ((Ok (), t ++ [EvCycleFailed e]), fs')
          | Ok _ =>
              let n := match or_empty_dict (py_get payload "items") with
                       | PList l => length l
                       | _ => 0%nat
                       end in
              ((Ok (), t ++ [EvUpdated out_path n]), fs')
          end
      end
  end.

(** The [while not stop_event.is_set()] loop over the cycles the worker
    lives through; the list is the horizon of the run. *)
Fixpoint scheduler_loop (cfg : Config) (cycles : list cycle_env)
    (fs : gmap string string) : M () * gmap string string :=
  match cycles with
  | [] => (mret (), fs)
  | w :: cycles' =>
      let '((r, t), fs') := run_once cfg w fs in
      match r with
      | Raise e => ((Raise e, t), fs')
      | Ok _ =>
          let t := t ++ [EvSleeping (update_interval_sec cfg)] in
          if stop_after w then ((Ok (), t ++ [EvShutdown]), fs')
          else
            let '((r', t'), fs'') := scheduler_loop cfg cycles' fs' in
            ((r', t ++ t'), fs'')
      end
  end.

(** [scheduler]: the signal handlers are installed first, before the
    start is logged. *)
Definition scheduler (cfg : Config) (cycles : list cycle_env)
    (fs : gmap string string) : M () * gmap string string :=
  match add_signal_handler h with
  | Some e => ((Raise e, []), fs)
  | None =>
      let '((r, t), fs') := scheduler_loop cfg cycles fs in
      ((r, EvStarting :: t), fs')
  end.

End Pipeline.

(** ** Observers used to state the properties *)

(** The durations slept, in order. *)
Definition sleeps (t : list event) : list Q :=
  omap (fun ev => match ev with EvSleep d => Some d | _ => None end) t.

(** The GETs issued, in order. *)
Definition gets (t : list event) : list (string * pydict) :=
  omap (fun ev => match ev with EvGet url params => Some (url, params) | _ => None end) t.

(** The cause attempt [k] of a call fails with, if it fails. *)
Definition cause (env : call_env) (k : nat) : option exn :=
  match attempt_once (answer env k) with
  | Raise e => Some e
  | Ok _ => None
  end.

(** The items the awaited enrichments returned, failures dropped. *)
Definition successes (coros : list (M pydict)) : list pydict :=
  omap (fun m : M pydict => match m.1 with Ok d => Some d | Raise _ => None end) coros.

(** Field [k] of the item an enrichment returned ([None] if it raised). *)
Definition field_of (m : M pydict) (k : string) : option pyval :=
  match m.1 with Ok d => d !! k | Raise _ => None end.

(** The [items] list of a payload. *)
Definition items_of (payload : pydict) : list pyval :=
  match payload !! "items" with Some (PList l) => l | _ => [] end.

(** [isinstance(bvid, str) and bvid] *)
Definition valid_bvid (raw_item : pydict) : bool :=
  match py_get raw_item "bvid" with
  | PStr s => negb (String.eqb s "")
  | _ => false
  end.

(** The acceptance rule in the specification's words: an integer, a boolean,
    a float, or a string consisting solely of decimal digits. *)
Definition spec_accepts (v : pyval) : bool :=
  match v with
  | PInt _ | PBool _ | PFloat _ => true
  | PStr s => negb (String.eqb s "") && forall_chars isdecimal s
  | _ => false
  end.

(** A decimal literal [int] parses: a non-empty run of ['0'..'9'] within
    the interpreter's length limit. *)
Definition decimal_literal (s : string) : bool :=
  negb (String.eqb s "") && forall_chars isdecimal s
  && (String.length s <=? int_max_str_digits)%nat.

Definition finite (f : spec_float) : bool :=
  match f with
  | S754_zero _ | S754_finite _ _ _ => true
  | S754_infinity _ | S754_nan => false
  end.

(** The inputs [_safe_int] turns into an integer. *)
Definition accepted (v : pyval) : bool :=
  match v with
  | PInt _ | PBool _ => true
  | PFloat f => finite f
  | PStr s => decimal_literal (strip s)
  | _ => false
  end.

(** The inputs [_safe_int] answers [None] for: [None], lists, dicts, and
    strings whose stripped form is empty or holds a non-digit. *)
Definition declined (v : pyval) : bool :=
  match v with
  | PNone | PList _ | PDict _ => true
  | PStr s => negb (isdigit (strip s))
  | _ => false
  end.

(** [n] is [f] truncated toward zero: the sign of [f] and the integer part
    of its magnitude [m * 2^e]. *)
Definition is_truncation (f : spec_float) (n : Z) : Prop :=
  match f with
  | S754_zero _ => n = 0
  | S754_finite sgn m e =>
      (if sgn then n <= 0 else 0 <= n) /\
      (0 <= e -> Z.abs n = Z.pos m * 2 ^ e) /\
      (e < 0 -> Z.abs n * 2 ^ (- e) <= Z.pos m < (Z.abs n + 1) * 2 ^ (- e))
  | _ => False
  end.

(** The events of attempt [k] when it fails with [e]. *)
Definition failed_round (url : string) (params : pydict) (limiter : bool)
    (retries : Z) (base_backoff_sec : Q) (env : call_env) (k : nat) (e : exn)
    : list event :=
  let wait_sec := backoff base_backoff_sec k (rand53 env k) in
  (if limiter then [EvLimiterWait] else [])
  ++ [EvGet url params; EvRetryLog (Z.of_nat k) retries wait_sec e; EvSleep wait_sec].

(** The events of an attempt that succeeds. *)
Definition good_round (url : string) (params : pydict) (limiter : bool) : list event :=
  (if limiter then [EvLimiterWait] else []) ++ [EvGet url params].

(** The value of [last_err] after the attempts [a .. a+k-1] have failed. *)
Definition last_cause (env : call_env) (a k : nat) (last_err : option exn) : option exn :=
  match k with
  | O => last_err
  | S k' => cause env (a + k')
  end.

(** The specification's reading of exhaustion: no sleep follows the last
    GET of a trace. *)
Fixpoint no_sleep_after_last_get (t : list event) : bool :=
  match t with
  | [] => true
  | EvSleep _ :: t' => negb (Nat.eqb (length (gets t')) 0) && no_sleep_after_last_get t'
  | _ :: t' => no_sleep_after_last_get t'
  end.

(** [a] may stand before [b] in a list sorted by [key]: its key is not
    greater. *)
Definition key_le {A} (key : A -> Z * Z) (a b : A) : Prop :=
  key_lt (key b) (key a) = false.

(** *** The field resolutions of [enrich_video], named

    [raw] is the catalog entry and [vd] the data object of the detail
    response. *)

Definition resolved_title (raw vd : pydict) (bvid : string) : string :=
  match
    as_str match as_str (py_get raw "title") with
           | Some _ => py_get raw "title"
           | None => py_get vd "title"
           end
  with
  | Some t => t
  | None => "(untitled) " +:+ bvid
  end.

Definition resolved_owner (raw vd : pydict) : pyval :=
  match as_dict (py_get vd "owner") with
  | Some _ => py_get vd "owner"
  | None => py_get raw "owner"
  end.

Definition resolved_stat (raw vd : pydict) : pyval :=
  match as_dict (py_get vd "stat") with
  | Some _ => py_get vd "stat"
  | None => py_get raw "stat"
  end.

Definition resolved_pic (raw vd : pydict) : string :=
  match
    as_str match as_str (py_get raw "pic") with
           | Some p => if String.eqb p "" then py_get vd "pic" else py_get raw "pic"
           | None => py_get vd "pic"
           end
  with
  | Some p => p
  | None => ""
  end.

Definition resolved_pubdate (raw vd : pydict) : Z :=
  match
    as_int match as_int (py_get vd "pubdate") with
           | Some _ => py_get vd "pubdate"
           | None => py_get raw "pubdate"
           end
  with
  | Some t => t
  | None => 0
  end.

(** [view] and [danmaku] out of the resolved stat block. *)
Definition counts_of (stat : pyval) : result (option Z * option Z) :=
  match as_dict stat with
  | Some stat =>
      view ← _safe_int (py_get stat "view");
      danmaku ← _safe_int (py_get stat "danmaku");
      Ok (view, danmaku)
  | None => Ok (None, None)
  end.

(** [online_total] and [online_count] for the channel id [cid]. *)
Definition online_result (env : enrich_env) (bvid : string) (cid : option Z)
    : result (pyval * option Z) :=
  match cid with
  | Some c =>
      if c =? 0 then Ok (PNone, None) else
      online_raw ← (_get_json_with_retry ONLINE_API
                      (<["bvid" := PStr bvid]> {["cid" := PInt c]})
                      true default_retries default_backoff (online_call env)).1;
      if py_eq_zero (py_get online_raw "code") then
        match or_empty_dict (py_get online_raw "data") with
        | PDict d =>
            online_count ← _safe_int (py_get d "count");
            Ok (py_get d "total", online_count)
        | _ => Ok (PNone, None)
        end
      else Ok (PNone, None)
  | None => Ok (PNone, None)
  end.

(** The dict [enrich_video] returns. *)
Definition item_of (bvid title pic : string) (owner online_total : pyval)
    (online_count view danmaku : option Z) (pubdate : string) : pydict :=
  <["bvid" := PStr bvid]>
  (<["title" := PStr title]>
  (<["pic" := PStr pic]>
  (<["owner" := owner]>
  (<["online_total" := online_total]>
  (<["online_count" := of_opt_int online_count]>
  (<["view" := of_opt_int view]>
  (<["danmaku" := of_opt_int danmaku]>
  {["pubdate" := PStr pubdate]}))))))).

(** The detail call of the entry [bvid]. *)
Definition view_result (env : enrich_env) (bvid : string) : result pydict :=
  (_get_json_with_retry VIEW_API {["bvid" := PStr bvid]}
     true default_retries default_backoff (view_call env)).1.

(** The result of [enrich_video] for an entry with the valid identifier
    [bvid], the trace forgotten. *)
Definition enrich_result (h : host) (env : enrich_env) (raw : pydict)
    (bvid : string) : result pydict :=
  view_raw ← view_result env bvid;
  vd ← get_attr (or_empty_dict (py_get view_raw "data"));
  cid ← _safe_int (py_get vd "cid");
  counts ← counts_of (resolved_stat raw vd);
  pubdate ← strftime_local h (resolved_pubdate raw vd);
  online ← online_result env bvid cid;
  Ok (item_of bvid (resolved_title raw vd bvid) (resolved_pic raw vd)
        (resolved_owner raw vd) online.1 online.2 counts.1 counts.2 pubdate).

(** The layered fallback: the first candidate that passes [ok], else the
    default. *)
Fixpoint first_of (ok : pyval -> bool) (candidates : list pyval)
    (default : pyval) : pyval :=
  match candidates with
  | [] => default
  | c :: candidates' => if ok c then c else first_of ok candidates' default
  end.

Definition is_str (v : pyval) : bool :=
  match v with PStr _ => true | _ => false end.
Definition is_dict (v : pyval) : bool :=
  match v with PDict _ => true | _ => false end.
Definition is_int (v : pyval) : bool :=
  match v with PInt _ | PBool _ => true | _ => false end.
Definition is_filled_str (v : pyval) : bool :=
  match v with PStr s => negb (String.eqb s "") | _ => false end.

(** The title in the specification's words: the detail's, then the raw
    entry's, then the placeholder. *)
Definition spec_title (raw vd : pydict) (bvid : string) : pyval :=
  first_of is_str [py_get vd "title"; py_get raw "title"]
           (PStr ("(untitled) " +:+ bvid)).

(** The awaited enrichments of one cycle, in submission order. *)
Definition tasks_of (h : host) (w : cycle_env) (popular_items : list pyval)
    : list (M pydict) :=
  imap (fun i it => enrich_video h (item_env w i) it)
       (omap as_dict popular_items).

(** A call whose first two attempts fail. *)
Definition flaky : call_env :=
  {| answer := fun k => if (k <? 2)%nat then NetResp 502 None
                        else NetResp 200 (Some (PDict ∅));
     rand53 := fun k => (2 ^ 52)%N |}.

(** [op] may change the file at [p]. *)
Definition touches (op : fs_op) (p : string) : Prop :=
  match op with
  | OpenTrunc q | WriteChar q _ => q = p
  | Replace src dst => src = p \/ dst = p
  | _ => False
  end.

(** The cycle reaches its [try] block: reading the existing file raises
    nothing, and the file is absent, no JSON, falsy, or a JSON object. *)
Definition readable (h : host) (cfg : Config) (fs : gmap string string) : bool :=
  is_ok (existing ← _read_existing h (output_path cfg) fs;
         get_attr (or_empty_dict (default PNone existing))).

(** The cycle fails at the catalog fetch, in the enrichment phase, or in
    the write. *)
Definition cycle_fails (h : host) (cfg : Config) (w : cycle_env) : bool :=
  match (build_payload h cfg w).1 with
  | Raise _ => true
  | Ok payload =>
      match write_fault w with
      | Some k =>
          (k <? length (atomic_write_ops h (output_path cfg) (delete "error" payload)))%nat
      | None => false
      end
  end.

(** ** A concrete host and concrete network answers *)

Definition digit (n : Z) : string :=
  String (Ascii.ascii_of_N (Z.to_N (48 + n mod 10))) "".
Definition pad2 (n : Z) : string := digit (n / 10) +:+ digit n.
Definition pad4 (n : Z) : string := pad2 (n / 100) +:+ pad2 n.

(** Days since the epoch to (year, month, day) of the proleptic Gregorian
    calendar. *)
Definition civil_from_days (z : Z) : Z * Z * Z :=
  let z := z + 719468 in
  let era := z / 146097 in
  let doe := z - era * 146097 in
  let yoe := (doe - doe / 1460 + doe / 36524 - doe / 146096) / 365 in
  let doy := doe - (365 * yoe + yoe / 4 - yoe / 100) in
  let mp := (5 * doy + 2) / 153 in
  let d := doy - (153 * mp + 2) / 5 + 1 in
  let m := if mp <? 10 then mp + 3 else mp - 9 in
  (if m <=? 2 then yoe + era * 400 + 1 else yoe + era * 400, m, d).

(** [strftime_local] of a host at a fixed offset from UTC. *)
Definition strftime_fixed (offset_sec t : Z) : result string :=
  let t := t + offset_sec in
  let '(y, m, d) := civil_from_days (t / 86400) in
  if (y <? 1) || (9999 <? y) then Raise (ValueError "year is out of range")
  else
    let s := t mod 86400 in
    Ok (pad4 y +:+ "-" +:+ pad2 m +:+ "-" +:+ pad2 d +:+ " "
        +:+ pad2 (s / 3600) +:+ ":" +:+ pad2 (s / 60 mod 60) +:+ ":" +:+ pad2 (s mod 60)).

(** A host at UTC+8 whose serializer keeps the update time only. *)
Definition demo_host : host :=
  {| strftime_local := strftime_fixed (8 * 3600);
     json_dump := fun payload =>
       match payload !! "updated_at" with
       | Some (PStr s) => "updated_at=" +:+ s
       | _ => "?"
       end;
     json_load := fun text =>
       if String.prefix "updated_at=" text
       then Some (PDict {["updated_at" := PStr text]})
       else None;
     read_error := fun _ _ => None;
     add_signal_handler := None |}.

(** The same host with a snapshot file it may not read, with a snapshot
    file that is no UTF-8, and with an event loop without signal support. *)
Definition locked_host : host :=
  {| strftime_local := strftime_local demo_host;
     json_dump := json_dump demo_host;
     json_load := json_load demo_host;
     read_error := fun _ held =>
       match held with Some _ => Some (OSError "Permission denied") | None => None end;
     add_signal_handler := None |}.

Definition strict_host : host :=
  {| strftime_local := strftime_local demo_host;
     json_dump := json_dump demo_host;
     json_load := json_load demo_host;
     read_error := fun _ held =>
       match held with
       | Some (String c _) =>
           if (128 <=? Ascii.N_of_ascii c)%N then Some UnicodeDecodeError else None
       | _ => None
       end;
     add_signal_handler := None |}.

Definition signalless_host : host :=
  {| strftime_local := strftime_local demo_host;
     json_dump := json_dump demo_host;
     json_load := json_load demo_host;
     read_error := read_error demo_host;
     add_signal_handler := Some NotImplementedError |}.

Definition ok_json (d : pydict) : call_env := always (NetResp 200 (Some (PDict d))).
Definition down : call_env := always (NetResp 500 None).

Definition demo_cfg : Config :=
  {| update_interval_sec := 600; output_path := "data.json";
     user_agent := "Mozilla/5.0"; sessdata := ""; http_proxy := "";
     max_items := 50; max_concurrency := 6 |}.

(** Catalog entries and endpoint answers. *)
Definition raw_full : pydict :=
  <["bvid" := PStr "BV1"]>
  (<["title" := PStr "A"]>
  (<["pic" := PStr "a.jpg"]>
  (<["owner" := PDict {["name" := PStr "up"]}]>
  (<["stat" := PDict (<["view" := PInt 100]> {["danmaku" := PInt 7]})]>
  {["pubdate" := PInt 1770641792]})))).

Definition raw_bare (bvid : string) : pydict := {["bvid" := PStr bvid]}.
Definition raw_no_bvid : pydict := {["title" := PStr "lost"]}.

(** A catalog entry whose title and cover are both the empty string. *)
Definition raw_blank : pydict :=
  <["bvid" := PStr "BV1"]> (<["title" := PStr ""]> {["pic" := PStr ""]}).

Definition view_data (cid : Z) (title : string) (view danmaku : Z) : pydict :=
  <["cid" := PInt cid]>
  (<["title" := PStr title]>
  {["stat" := PDict (<["view" := PInt view]> {["danmaku" := PInt danmaku]})]}).

Definition view_json (cid : Z) (title : string) (view danmaku : Z) : pydict :=
  <["code" := PInt 0]> {["data" := PDict (view_data cid title view danmaku)]}.

Definition online_json (total : string) (count : Z) : pydict :=
  <["code" := PInt 0]>
  {["data" := PDict (<["total" := PStr total]> {["count" := PInt count]})]}.

Definition online_refused : pydict :=
  <["code" := PInt (-400)]> {["message" := PStr "refused"]}.

Definition env_ok (cid : Z) (title : string) (view danmaku : Z)
    (total : string) (count : Z) : enrich_env :=
  {| view_call := ok_json (view_json cid title view danmaku);
     online_call := ok_json (online_json total count) |}.

Definition env_refused : enrich_env :=
  {| view_call := ok_json (view_json 7 "B" 100 7);
     online_call := ok_json online_refused |}.

Definition env_down : enrich_env := {| view_call := down; online_call := down |}.

(** A detail call that answers a title and a cover. *)
Definition env_titled : enrich_env :=
  {| view_call :=
       ok_json (<["code" := PInt 0]>
                {["data" := PDict (<["cid" := PInt 7]>
                                  (<["title" := PStr "B"]> {["pic" := PStr "b.jpg"]}))]});
     online_call := ok_json (online_json "5" 5) |}.

Definition catalog_json (entries : list pyval) : pydict :=
  <["code" := PInt 0]> {["data" := PDict {["list" := PList entries]}]}.

(** Three catalog entries, the second without identifier; the third
    enrichment finishes first. *)
Definition demo_cycle : cycle_env :=
  {| popular_call :=
       ok_json (catalog_json [PDict (raw_bare "BV1"); PDict raw_no_bvid;
                              PDict (raw_bare "BV3")]);
     item_env := fun i =>
       match i with
       | O => env_ok 7 "one" 100 7 "5" 5
       | S O => env_down
       | _ => env_ok 9 "three" 300 9 "12" 12
       end;
     completion := [2; 0]%nat;
     now := "2026-02-09 20:56:32";
     write_fault := None;
     stop_after := false |}.


(** The dict a computation returned, the empty one if it raised. *)
Definition ok_of (m : M pydict) : pydict :=
  match m.1 with Ok d => d | Raise _ => ∅ end.

(** The catalog endpoint is down for the whole cycle. *)
Definition blackout_cycle : cycle_env :=
  {| popular_call := down;
     item_env := fun _ => env_down;
     completion := [];
     now := "2026-02-09 21:06:32";
     write_fault := None;
     stop_after := false |}.

(** The write of the three-entry cycle breaks at its sixth step. *)
Definition faulty_cycle : cycle_env :=
  {| popular_call := popular_call demo_cycle;
     item_env := item_env demo_cycle;
     completion := completion demo_cycle;
     now := now demo_cycle;
     write_fault := Some 5%nat;
     stop_after := false |}.

(** A disk that holds the snapshot of an earlier cycle. *)
Definition old_disk : gmap string string :=
  {["data.json" := "updated_at=2026-02-09 20:46:32"]}.

(** ** Configuration: [_env_int], [load_config], [build_headers], [build_cookies] *)

Import (notations) Stdlib.Strings.Ascii.

(** The process environment. *)
Abbreviation environ := (gmap string string).

(** [os.getenv(name, default)] *)
Definition getenv (env : environ) (name default : string) : string :=
  match env !! name with
  | Some value => value
  | None => default
  end.

(** The digits of an integer literal after its sign: decimal digits, a
    single underscore allowed between two of them. *)
Fixpoint literal_digits (after_digit : bool) (s : string) : option string :=
  match s with
  | EmptyString => if after_digit then Some EmptyString else None
  | String c r =>
      if isdecimal c then String c <$> literal_digits true r
      else if Ascii.eqb c "_"%char then
        (if after_digit then literal_digits false r else None)
      else None
  end.

(** [int(s)] for text that [str.strip] has trimmed: an optional sign and
    the digits; anything else, or more digits than the interpreter's
    limit, is a [ValueError]. *)
Definition int_of_literal (s : string) : result Z :=
  let '(negative, body) :=
    match s with
    | String c r =>
        if Ascii.eqb c "-"%char then (true, r)
        else if Ascii.eqb c "+"%char then (false, r)
        else (false, s)
    | EmptyString => (false, s)
    end in
  match literal_digits false body with
  | None => Raise (ValueError "invalid literal for int() with base 10")
  | Some ds =>
      if (int_max_str_digits <? String.length ds)%nat then
        Raise (ValueError "Exceeds the limit for integer string conversion")
      else Ok (if negative then - parse_decimal 0 ds else parse_decimal 0 ds)
  end.

Definition _env_int (env : environ) (name : string) (default : Z) : result Z :=
  let raw := strip (getenv env name "") in
  if String.eqb raw "" then Ok default
  else
    match int_of_literal raw with
    | Ok n => Ok n
    | Raise (ValueError _) => Ok default
    | Raise e => Raise e
    end.

Definition default_user_agent : string :=
  "Mozilla/5.0 (Windows NT 10.0; Win64; x64) AppleWebKit/537.36 (KHTML, like Gecko) Chrome/121.0.0.0 Safari/537.36".

Definition load_config (env : environ) : result Config :=
  interval ← _env_int env "UPDATE_INTERVAL_SEC" 600;
  let output := getenv env "OUTPUT_PATH" "../data/data.json" in
  let agent := getenv env "USER_AGENT" default_user_agent in
  let sess := strip (getenv env "SESSDATA" "") in
  let proxy := strip (getenv env "HTTP_PROXY" "") in
  items ← _env_int env "MAX_ITEMS" 50;
  concurrency ← _env_int env "MAX_CONCURRENCY" 6;
  Ok {| update_interval_sec := Z.max 5 interval;
        output_path := output;
        user_agent := agent;
        sessdata := sess;
        http_proxy := proxy;
        max_items := Z.max 1 items;
        max_concurrency := Z.max 1 concurrency |}.

Definition build_headers (cfg : Config) : gmap string string :=
  <["User-Agent" := user_agent cfg]>
  (<["Accept" := "application/json, text/plain, */*"]>
  (<["Referer" := "https://www.bilibili.com/"]>
  {["Origin" := "https://www.bilibili.com"]})).

Definition build_cookies (cfg : Config) : gmap string string :=
  let cookies : gmap string string := ∅ in
  if negb (String.eqb (sessdata cfg) "") then <["SESSDATA" := sessdata cfg]> cookies
  else cookies.

(** ** [RateLimiter]

    Times are rationals.  The lock serializes the callers, so a run of the
    limiter is the sequence of its [wait] calls in the order they take the
    lock; [wake now d] is what [time.monotonic()] reads once
    [asyncio.sleep(d)], started at [now], has returned. *)

Record RateLimiter : Type := {
  _min_interval_sec : Q;
  _next_at : Q
}.

(** [RateLimiter.__init__] *)
Definition RateLimiter_init (min_interval_sec : Q) : RateLimiter :=
  {| _min_interval_sec := if Qle_bool 0 min_interval_sec then min_interval_sec else 0%Q;
     _next_at := 0%Q |}.

(** [RateLimiter.wait], entered when the clock reads [now]: the limiter
    afterwards, the sleeps made, and the clock reading at which the caller
    is let through. *)
Definition RateLimiter_wait (wake : Q -> Q -> Q) (self : RateLimiter) (now : Q)
    : RateLimiter * list event * Q :=
  if Qle_bool (_min_interval_sec self) 0 then (self, [], now)
  else
    let '(slept, now) :=
      if negb (Qle_bool (_next_at self) now)
      then ([EvSleep (_next_at self - now)%Q], wake now (_next_at self - now)%Q)
      else ([], now) in
    ({| _min_interval_sec := _min_interval_sec self;
        _next_at := (now + _min_interval_sec self)%Q |}, slept, now).

(** The callers of one limiter, by the clock reading at which each takes
    the lock: the readings at which they are let through. *)
Fixpoint RateLimiter_run (wake : Q -> Q -> Q) (self : RateLimiter)
    (arrivals : list Q) : list Q :=
  match arrivals with
  | [] => []
  | now :: arrivals' =>
      let '(self', _, granted) := RateLimiter_wait wake self now in
      granted :: RateLimiter_run wake self' arrivals'
  end.

(** ** [main] *)

(** The configuration is read from the environment, then the scheduler
    runs on it. *)
Definition main (h : host) (env : environ) (cycles : list cycle_env)
    (fs : gmap string string) : M () * gmap string string :=
  match load_config env with
  | Ok cfg => scheduler h cfg cycles fs
  | Raise e => ((Raise e, []), fs)
  end.

(** ** Further observers *)

(** The limiter waits of a trace. *)
Definition limiter_waits (t : list event) : nat :=
  length (omap (fun ev => match ev with EvLimiterWait => Some () | _ => None end) t).

(** Sum of a list of durations. *)
Definition total (ds : list Q) : Q := foldr Qplus 0%Q ds.

(** The permit discipline of a trace: permits are taken and given back in
    turn, none is held at the end, and every GET, limiter wait and backoff
    sleep happens while one is held. *)
Fixpoint under_permit (held : bool) (t : list event) : bool :=
  match t with
  | [] => negb held
  | EvAcquire :: t' => negb held && under_permit true t'
  | EvRelease :: t' => held && under_permit false t'
  | EvGet _ _ :: t' | EvLimiterWait :: t' | EvSleep _ :: t' => held && under_permit held t'
  | _ :: t' => under_permit held t'
  end.

(** Limiter waits and GETs come in pairs, the wait first: every GET is the
    event right after a limiter wait, and every limiter wait is followed at
    once by a GET. *)
Fixpoint waits_before_gets (t : list event) : bool :=
  match t with
  | [] => true
  | EvLimiterWait :: EvGet _ _ :: t' => waits_before_gets t'
  | EvLimiterWait :: _ => false
  | EvGet _ _ :: _ => false
  | _ :: t' => waits_before_gets t'
  end.

(** The channel id [enrich_video] asks the online endpoint about for the
    entry [raw] with the valid identifier [bvid]: the coerced [cid] of the
    detail data when the steps before the online call went through and it
    is not zero. *)
Definition online_cid (h : host) (env : enrich_env) (raw : pydict)
    (bvid : string) : option Z :=
  match
    view_raw ← view_result env bvid;
    vd ← get_attr (or_empty_dict (py_get view_raw "data"));
    cid ← _safe_int (py_get vd "cid");
    _ ← counts_of (resolved_stat raw vd);
    _ ← strftime_local h (resolved_pubdate raw vd);
    Ok cid
  with
  | Ok (Some c) => if c =? 0 then None else Some c
  | _ => None
  end.

(** The events of the detail call and of the online call for [c]. *)
Definition view_trace (env : enrich_env) (bvid : string) : list event :=
  (_get_json_with_retry VIEW_API {["bvid" := PStr bvid]}
     true default_retries default_backoff (view_call env)).2.

Definition online_trace (env : enrich_env) (bvid : string) (c : Z) : list event :=
  (_get_json_with_retry ONLINE_API (<["bvid" := PStr bvid]> {["cid" := PInt c]})
     true default_retries default_backoff (online_call env)).2.


(** A catalog answer that names no entries. *)
Definition empty_catalog : cycle_env :=
  {| popular_call := ok_json {["code" := PInt 0]};
     item_env := fun _ => env_down;
     completion := [];
     now := "2026-02-09 21:16:32";
     write_fault := None;
     stop_after := true |}.

(** A catalog answer that carries an error code. *)
Definition refused_catalog : cycle_env :=
  {| popular_call := ok_json (<["code" := PInt (-352)]> {["message" := PStr "risk control"]});
     item_env := fun _ => env_down;
     completion := [];
     now := "2026-02-09 21:26:32";
     write_fault := None;
     stop_after := false |}.

(** The three-entry cycle with the enrichments finishing in submission
    order. *)
Definition demo_cycle_in_order : cycle_env :=
  {| popular_call := popular_call demo_cycle;
     item_env := item_env demo_cycle;
     completion := [];
     now := "2026-02-09 20:57:00";
     write_fault := None;
     stop_after := false |}.

(** An environment as an operator might set it. *)
Definition demo_environ : environ :=
  <["UPDATE_INTERVAL_SEC" := " 2 "]>
  (<["MAX_ITEMS" := "1_00"]>
  (<["MAX_CONCURRENCY" := "-3"]>
  {["SESSDATA" := "   "]})).

(** ** Text of any code points

    The strings of the values above hold the code points up to U+00FF.
    The text [_safe_int] is given comes from the network and may hold any
    code point.  This is the string branch of [_safe_int] on such text.
    What the interpreter's Unicode database says of a code point depends on
    the interpreter's version and is a parameter. *)

Module Unicode.

Record database : Type := {
  db_isspace : N -> bool;           (* [Py_UNICODE_ISSPACE]: what [str.strip] removes *)
  db_todecimal : N -> option Z;     (* [Py_UNICODE_TODECIMAL]: the value of a decimal digit *)
  db_isdigit : N -> bool            (* [Py_UNICODE_ISDIGIT]: what [str.isdigit] accepts *)
}.

(** A [str], by its code points. *)
Definition text : Type := list N.

Section Text.
Context (db : database).

Fixpoint lstrip (s : text) : text :=
  match s with
  | [] => []
  | c :: r => if db_isspace db c then lstrip r else s
  end.

Fixpoint rstrip (s : text) : text :=
  match s with
  | [] => []
  | c :: r =>
      match rstrip r with
      | [] => if db_isspace db c then [] else [c]
      | r' => c :: r'
      end
  end.

(** [s.strip()] *)
Definition strip (s : text) : text := rstrip (lstrip s).

(** [s.isdigit()]: at least one character, all of them digits. *)
Definition isdigit (s : text) : bool :=
  match s with
  | [] => false
  | _ => forallb (db_isdigit db) s
  end.

(** The character is a decimal digit: [int] can read it. *)
Definition is_decimal (c : N) : bool :=
  match db_todecimal db c with Some _ => true | None => false end.

(** The number a run of decimal digits spells. *)
Fixpoint number (acc : Z) (s : text) : Z :=
  match s with
  | [] => acc
  | c :: r => number (10 * acc + default 0 (db_todecimal db c)) r
  end.

(** [int(s)] for a string [s] that passed [isdigit]: every character is
    turned into its decimal value, a character that has none makes the
    literal invalid, and a literal longer than the interpreter's limit is
    refused. *)
Definition int (s : text) : result Z :=
  if negb (forallb is_decimal s) then
    Raise (ValueError "invalid literal for int() with base 10")
  else if (int_max_str_digits <? length s)%nat then
    Raise (ValueError "Exceeds the limit for integer string conversion")
  else Ok (number 0 s).

(** The branch [isinstance(v, str)] of [_safe_int]. *)
Definition _safe_int (v : text) : result (option Z) :=
  let s := strip v in
  if isdigit s then n ← int s; Ok (Some n) else Ok None.

(** A decimal literal [int] parses: a non-empty run of decimal digits
    within the interpreter's length limit. *)
Definition decimal_literal (s : text) : bool :=
  negb (Nat.eqb (length s) 0) && forallb is_decimal s
  && (length s <=? int_max_str_digits)%nat.

End Text.

(** In every version of the database a decimal digit is a digit. *)
Definition decimals_are_digits (db : database) : Prop :=
  forall c, is_decimal db c = true -> db_isdigit db c = true.

End Unicode.

(** The code points of a string of the values above. *)
Definition codes (s : string) : Unicode.text := code_point <$> chars s.

(** The database agrees, up to U+00FF, with the tables above. *)
Definition agrees_up_to_U00FF (db : Unicode.database) : Prop :=
  forall c : Ascii.ascii,
    Unicode.db_isspace db (code_point c) = isspace c /\
    Unicode.db_isdigit db (code_point c) = isdigit_char c /\
    Unicode.db_todecimal db (code_point c)
    = (if isdecimal c then Some (Z.of_N (code_point c) - 48) else None).

(** An excerpt of the database: the code points up to U+00FF, the
    ideographic space U+3000, the Arabic-Indic digits U+0660..U+0669
    (decimal digits) and the circled digits U+2460..U+2468 (digits that
    are no decimal digits). *)
Definition demo_database : Unicode.database :=
  {| Unicode.db_isspace := fun n =>
       if (n <? 256)%N then isspace (Ascii.ascii_of_N n) else (n =? 12288)%N;
     Unicode.db_todecimal := fun n =>
       if (n <? 256)%N then
         (if isdecimal (Ascii.ascii_of_N n) then Some (Z.of_N n - 48) else None)
       else if ((1632 <=? n) && (n <=? 1641))%N then Some (Z.of_N n - 1632)
       else None;
     Unicode.db_isdigit := fun n =>
       if (n <? 256)%N then isdigit_char (Ascii.ascii_of_N n)
       else ((1632 <=? n) && (n <=? 1641) || (9312 <=? n) && (n <=? 9320))%N |}.

(** * Properties *)

(** ** The embedding at work *)

Example safe_int_ex1 : _safe_int (PStr " 12 ") = Ok (Some 12).
Proof. reflexivity. Qed.

Example retry_ex1 :
  _get_json_with_retry "u" ∅ true 1 default_backoff (always (NetResp 500 None))
  = (Raise (GetFailed "u" 1 (HTTPStatusError 500)),
     [EvLimiterWait; EvGet "u" ∅;
      EvRetryLog 0 1 (backoff default_backoff 0 0) (HTTPStatusError 500);
      EvSleep (backoff default_backoff 0 0)]).
Proof. reflexivity. Qed.

Example strftime_ex : strftime_local demo_host 1770641792 = Ok "2026-02-09 20:56:32".
Proof. reflexivity. Qed.

Example strftime_epoch : strftime_local demo_host 0 = Ok "1970-01-01 08:00:00".
Proof. reflexivity. Qed.

(** ** Numeric coercion *)

Lemma forall_chars_impl (p q : Ascii.ascii -> bool) (s : string) :
  (forall c, p c = true -> q c = true) ->
  forall_chars p s = true -> forall_chars q s = true.
Proof.
  intros Hpq. induction s as [|c s IH]; simpl; [done|].
  rewrite !andb_true_iff. intros [Hc Hs]. split; [by apply Hpq | by apply IH].
Qed.

Lemma isdecimal_isdigit_char (c : Ascii.ascii) :
  isdecimal c = true -> isdigit_char c = true.
Proof. unfold isdigit_char. intros ->. reflexivity. Qed.

Lemma decimal_literal_isdigit (s : string) :
  decimal_literal s = true -> isdigit s = true.
Proof.
  unfold decimal_literal, isdigit. rewrite !andb_true_iff. intros [[Hne Hall] _].
  destruct s as [|c s]; [discriminate|].
  revert Hall. apply forall_chars_impl, isdecimal_isdigit_char.
Qed.

Lemma int_of_str_literal (s : string) :
  decimal_literal s = true -> int_of_str s = Ok (parse_decimal 0 s).
Proof.
  unfold decimal_literal, int_of_str. rewrite !andb_true_iff. intros [[_ Hall] Hlen].
  rewrite Hall. simpl.
  apply Nat.leb_le in Hlen.
  destruct (Nat.ltb_spec int_max_str_digits (String.length s)); [lia | reflexivity].
Qed.

Lemma int_of_str_inv (s : string) (n : Z) :
  isdigit s = true -> int_of_str s = Ok n -> decimal_literal s = true.
Proof.
  unfold int_of_str, decimal_literal. intros Hd.
  destruct (forall_chars isdecimal s) eqn:Hall; simpl; [|discriminate].
  destruct (Nat.ltb_spec int_max_str_digits (String.length s)); [discriminate|].
  intros _. rewrite !andb_true_iff. repeat split.
  - destruct s; [discriminate | reflexivity].
  - by apply Nat.leb_le.
Qed.

Lemma int_of_float_truncates (f : spec_float) :
  finite f = true -> exists n, int_of_float f = Ok n /\ is_truncation f n.
Proof.
  destruct f as [s|s| |sgn m e]; try discriminate; intros _; simpl.
  - by exists 0.
  - eexists; split; [reflexivity|].
    set (mag := if 0 <=? e then Z.pos m * 2 ^ e else Z.pos m / 2 ^ (- e)).
    assert (Hmag : 0 <= mag).
    { unfold mag. destruct (Z.leb_spec 0 e).
      - apply Z.mul_nonneg_nonneg; [lia | apply Z.pow_nonneg; lia].
      - apply Z.div_pos; [lia | apply Z.pow_pos_nonneg; lia]. }
    assert (Habs : Z.abs (if sgn then - mag else mag) = mag).
    { destruct sgn; lia. }
    rewrite Habs. split; [destruct sgn; lia|]. split.
    + intros He. unfold mag. destruct (Z.leb_spec 0 e); [done | lia].
    + intros He. unfold mag. destruct (Z.leb_spec 0 e); [lia|].
      assert (Hp : 0 < 2 ^ (- e)) by (apply Z.pow_pos_nonneg; lia).
      pose proof (Z.div_mod (Z.pos m) (2 ^ (- e)) ltac:(lia)) as Hdm.
      pose proof (Z.mod_pos_bound (Z.pos m) (2 ^ (- e)) Hp) as Hb.
      nia.
Qed.

Lemma safe_int_some_iff (v : pyval) :
  (exists n, _safe_int v = Ok (Some n)) <-> accepted v = true.
Proof.
  split.
  - intros [n Hn]. destruct v as [|b|z|f|s|l|d]; simpl in *; try done.
    + destruct f; simpl in *; done.
    + destruct (isdigit (strip s)) eqn:Hd; [|done].
      destruct (int_of_str (strip s)) as [k|e] eqn:Hk; [|done].
      by eapply int_of_str_inv.
  - intros Ha. destruct v as [|b|z|f|s|l|d]; simpl in *; try done; eauto.
    + destruct (int_of_float_truncates f Ha) as (n & -> & _). simpl. eauto.
    + rewrite (decimal_literal_isdigit _ Ha), (int_of_str_literal _ Ha). simpl. eauto.
Qed.

(** The slips the rule leaves open: a float that is no number, and a
    superscript digit, make [_safe_int] raise. *)
Example safe_int_nan : _safe_int (PFloat S754_nan)
  = Raise (ValueError "cannot convert float NaN to integer").
Proof. reflexivity. Qed.

Example safe_int_superscript :
  _safe_int (PStr (String (Ascii.ascii_of_N 178) ""))
  = Raise (ValueError "invalid literal for int() with base 10").
Proof. reflexivity. Qed.

(** *** Text of any code points *)

Section UnicodeFacts.
Context (db : Unicode.database).
Hypothesis decimals_are_digits : Unicode.decimals_are_digits db.

Lemma unicode_literal_isdigit (s : Unicode.text) :
  Unicode.decimal_literal db s = true -> Unicode.isdigit db s = true.
Proof.
  unfold Unicode.decimal_literal, Unicode.isdigit.
  rewrite !andb_true_iff. intros [[Hne Hall] _].
  destruct s as [|c s]; [discriminate|].
  rewrite forallb_forall in *. intros x Hx. by apply decimals_are_digits, Hall.
Qed.

Lemma unicode_int_literal (s : Unicode.text) :
  Unicode.decimal_literal db s = true ->
  Unicode.int db s = Ok (Unicode.number db 0 s).
Proof.
  unfold Unicode.decimal_literal, Unicode.int.
  rewrite !andb_true_iff. intros [[_ Hall] Hlen].
  rewrite Hall. cbn [negb]. apply Nat.leb_le in Hlen.
  destruct (Nat.ltb_spec int_max_str_digits (length s)); [lia | reflexivity].
Qed.

Lemma unicode_int_inv (s : Unicode.text) (n : Z) :
  Unicode.isdigit db s = true -> Unicode.int db s = Ok n ->
  Unicode.decimal_literal db s = true.
Proof.
  unfold Unicode.int, Unicode.decimal_literal. intros Hd.
  destruct (forallb (Unicode.is_decimal db) s) eqn:Hall; cbn [negb]; [|discriminate].
  destruct (Nat.ltb_spec int_max_str_digits (length s)); [discriminate|].
  intros _. rewrite !andb_true_iff. repeat split.
  - destruct s; [discriminate | reflexivity].
  - by apply Nat.leb_le.
Qed.

Lemma unicode_safe_int_some_iff (t : Unicode.text) :
  (exists n, Unicode._safe_int db t = Ok (Some n))
  <-> Unicode.decimal_literal db (Unicode.strip db t) = true.
Proof.
  unfold Unicode._safe_int. split.
  - intros [n Hn].
    destruct (Unicode.isdigit db (Unicode.strip db t)) eqn:Hd; [|done].
    destruct (Unicode.int db (Unicode.strip db t)) as [k|e] eqn:Hk; [|done].
    by eapply unicode_int_inv.
  - intros Hl.
    rewrite (unicode_literal_isdigit _ Hl), (unicode_int_literal _ Hl). eauto.
Qed.

End UnicodeFacts.

(** On text of the code points up to U+00FF the two readings of the
    string branch are one. *)
Section Latin1.
Context (db : Unicode.database).
Hypothesis agrees : agrees_up_to_U00FF db.

Lemma codes_cons (c : Ascii.ascii) (s : string) :
  codes (String c s) = code_point c :: codes s.
Proof. reflexivity. Qed.

Lemma codes_lstrip (s : string) : codes (lstrip s) = Unicode.lstrip db (codes s).
Proof.
  induction s as [|c s IH]; [done|].
  rewrite codes_cons. cbn [lstrip Unicode.lstrip].
  destruct (agrees c) as (-> & _). by destruct (isspace c).
Qed.

Lemma codes_rstrip (s : string) : codes (rstrip s) = Unicode.rstrip db (codes s).
Proof.
  induction s as [|c s IH]; [done|].
  rewrite codes_cons. cbn [rstrip Unicode.rstrip]. rewrite <-IH.
  destruct (agrees c) as (-> & _).
  destruct (rstrip s) as [|c' r']; [by destruct (isspace c) | done].
Qed.

Lemma codes_strip (s : string) : codes (strip s) = Unicode.strip db (codes s).
Proof. unfold strip, Unicode.strip. by rewrite codes_rstrip, codes_lstrip. Qed.

Lemma forallb_isdigit_codes (s : string) :
  forallb (Unicode.db_isdigit db) (codes s) = forall_chars isdigit_char s.
Proof.
  induction s as [|c s IH]; [done|].
  rewrite codes_cons. cbn [forallb forall_chars]. rewrite IH.
  by destruct (agrees c) as (_ & -> & _).
Qed.

Lemma isdigit_codes (s : string) : Unicode.isdigit db (codes s) = isdigit s.
Proof.
  destruct s as [|c s]; [done|].
  unfold Unicode.isdigit, isdigit. rewrite codes_cons, <-codes_cons.
  apply forallb_isdigit_codes.
Qed.

Lemma is_decimal_code (c : Ascii.ascii) :
  Unicode.is_decimal db (code_point c) = isdecimal c.
Proof.
  unfold Unicode.is_decimal. destruct (agrees c) as (_ & _ & ->).
  by destruct (isdecimal c).
Qed.

Lemma forallb_decimal_codes (s : string) :
  forallb (Unicode.is_decimal db) (codes s) = forall_chars isdecimal s.
Proof.
  induction s as [|c s IH]; [done|].
  rewrite codes_cons. cbn [forallb forall_chars]. by rewrite IH, is_decimal_code.
Qed.

Lemma number_codes (s : string) : forall acc,
  forall_chars isdecimal s = true ->
  Unicode.number db acc (codes s) = parse_decimal acc s.
Proof.
  induction s as [|c s IH]; intros acc; [done|].
  rewrite codes_cons. cbn [forall_chars Unicode.number parse_decimal].
  rewrite andb_true_iff. intros [Hc Hs].
  destruct (agrees c) as (_ & _ & ->). rewrite Hc. cbn [default]. by apply IH.
Qed.

Lemma length_codes (s : string) : length (codes s) = String.length s.
Proof. induction s as [|c s IH]; [done|]. rewrite codes_cons. simpl. by rewrite IH. Qed.

Lemma int_codes (s : string) : Unicode.int db (codes s) = int_of_str s.
Proof.
  unfold Unicode.int, int_of_str. rewrite forallb_decimal_codes, length_codes.
  destruct (forall_chars isdecimal s) eqn:Hall; cbn [negb]; [|done].
  destruct (_ <? _)%nat; [done|]. by rewrite number_codes.
Qed.

Lemma safe_int_codes (s : string) :
  _safe_int (PStr s) = Unicode._safe_int db (codes s).
Proof.
  unfold Unicode._safe_int. cbn [_safe_int].
  by rewrite <-codes_strip, isdigit_codes, int_codes.
Qed.

End Latin1.

Lemma demo_database_digits : Unicode.decimals_are_digits demo_database.
Proof.
  intros n. unfold Unicode.is_decimal. cbn [demo_database Unicode.db_todecimal
    Unicode.db_isdigit].
  destruct (n <? 256)%N.
  - destruct (isdecimal (Ascii.ascii_of_N n)) eqn:Hd; [|done].
    intros _. by apply isdecimal_isdigit_char.
  - by destruct ((1632 <=? n) && (n <=? 1641))%N.
Qed.

Lemma demo_database_agrees : agrees_up_to_U00FF demo_database.
Proof.
  intros c. cbn [demo_database Unicode.db_isspace Unicode.db_todecimal
    Unicode.db_isdigit]. unfold code_point.
  pose proof (Ascii.N_ascii_bounded c) as Hb. apply N.ltb_lt in Hb.
  by rewrite Hb, Ascii.ascii_N_embedding.
Qed.

(** What the rule leaves open on text: a digit that is no decimal digit
    makes [_safe_int] raise, in any script. *)
Example safe_int_circled :
  Unicode._safe_int demo_database [49; 9312]%N
  = Raise (ValueError "invalid literal for int() with base 10").
Proof. reflexivity. Qed.

(** C8 (as stated, refuted): the string [" 12"] does not consist solely of
    decimal digits, yet the coercion strips it and returns the integer 12. *)
Lemma C8_counterexample :
  spec_accepts (PStr " 12") = false /\ _safe_int (PStr " 12") = Ok (Some 12).
Proof. split; reflexivity. Qed.

(** C8 (amended): [_safe_int] returns an integer exactly when the input is
    an integer, a boolean (0/1), a finite float (truncated toward zero), or
    a string that, once surrounding whitespace is stripped, is a non-empty
    run of decimal digits within the interpreter's length limit, which it
    parses as the number the digits spell; the decimal digits are those of
    the Unicode database, of which ['0'..'9'] are the only ones up to
    U+00FF.  For [None], lists, dicts and strings whose stripped form is
    empty or holds a character that [str.isdigit] rejects it returns [None]
    without raising.  [v] is any value with text up to U+00FF and [t] any
    text; where both apply they are the same function. *)
Theorem C8_safe_int_amended (db : Unicode.database) (v : pyval) (t : Unicode.text) :
  Unicode.decimals_are_digits db ->
  agrees_up_to_U00FF db ->
  (((exists n, _safe_int v = Ok (Some n)) <-> accepted v = true) /\
   (declined v = true -> _safe_int v = Ok None) /\
   (forall n, v = PInt n -> _safe_int v = Ok (Some n)) /\
   (forall b, v = PBool b -> _safe_int v = Ok (Some (if b then 1 else 0))) /\
   (forall f, v = PFloat f -> finite f = true ->
      exists n, _safe_int v = Ok (Some n) /\ is_truncation f n) /\
   (forall s, v = PStr s -> decimal_literal (strip s) = true ->
      _safe_int v = Ok (Some (parse_decimal 0 (strip s))))) /\
  (((exists n, Unicode._safe_int db t = Ok (Some n))
    <-> Unicode.decimal_literal db (Unicode.strip db t) = true) /\
   (Unicode.decimal_literal db (Unicode.strip db t) = true ->
    Unicode._safe_int db t
    = Ok (Some (Unicode.number db 0 (Unicode.strip db t)))) /\
   (Unicode.isdigit db (Unicode.strip db t) = false ->
    Unicode._safe_int db t = Ok None)) /\
  (forall s, _safe_int (PStr s) = Unicode._safe_int db (codes s)) /\
  (forall s, Unicode.decimal_literal db (codes s) = decimal_literal s).
Proof.
  intros Hwf Hag. split; [|split; [|split]].
  - split; [apply safe_int_some_iff|]. repeat split.
    + destruct v as [|b|z|f|s|l|d]; simpl; try done.
      destruct (isdigit (strip s)); done.
    + by intros n ->.
    + intros b ->. by destruct b.
    + intros f -> Hf. destruct (int_of_float_truncates f Hf) as (n & Hn & Ht).
      exists n. simpl. by rewrite Hn.
    + intros s -> Hs. simpl.
      by rewrite (decimal_literal_isdigit _ Hs), (int_of_str_literal _ Hs).
  - split; [by apply unicode_safe_int_some_iff|]. split.
    + intros Hl. unfold Unicode._safe_int.
      by rewrite (unicode_literal_isdigit db Hwf _ Hl), (unicode_int_literal db _ Hl).
    + intros Hd. unfold Unicode._safe_int. by rewrite Hd.
  - intros s. by apply safe_int_codes.
  - intros s. unfold Unicode.decimal_literal, decimal_literal.
    rewrite (forallb_decimal_codes db Hag), (length_codes s).
    by destruct s.
Qed.

(** The amended rule at work on a padded literal, a float and a list, and
    on text beyond U+00FF: Arabic-Indic digits after an ideographic space,
    and a letter. *)
Lemma C8_safe_int_amended_witness :
  _safe_int (PStr " 0042 ") = Ok (Some 42) /\
  (exists n, _safe_int (PFloat (S754_finite true 7 (-1))) = Ok (Some n)
             /\ is_truncation (S754_finite true 7 (-1)) n) /\
  _safe_int (PList [PInt 1]) = Ok None /\
  Unicode._safe_int demo_database [12288; 1633; 1634; 1635]%N = Ok (Some 123) /\
  Unicode._safe_int demo_database [1633; 20154]%N = Ok None.
Proof.
  pose proof (C8_safe_int_amended demo_database (PStr " 0042 ") []
                demo_database_digits demo_database_agrees)
    as ((_ & _ & _ & _ & _ & Hs) & _).
  pose proof (C8_safe_int_amended demo_database (PFloat (S754_finite true 7 (-1))) []
                demo_database_digits demo_database_agrees)
    as ((_ & _ & _ & _ & Hf & _) & _).
  pose proof (C8_safe_int_amended demo_database (PList [PInt 1])
                [12288; 1633; 1634; 1635]%N
                demo_database_digits demo_database_agrees)
    as ((_ & Hl & _) & (_ & Ht & _) & _).
  pose proof (C8_safe_int_amended demo_database PNone [1633; 20154]%N
                demo_database_digits demo_database_agrees)
    as (_ & (_ & _ & Hn) & _).
  split; [exact (Hs _ eq_refl eq_refl)|].
  split; [exact (Hf _ eq_refl eq_refl)|].
  split; [exact (Hl eq_refl)|].
  split; [exact (Ht eq_refl) | exact (Hn eq_refl)].
Defined.

(** ** The retrying fetcher *)

Section Retry.
Context (url : string) (params : pydict) (limiter : bool) (retries : Z)
        (base : Q) (env : call_env).

Local Abbreviation loop := (retry_loop url params limiter retries base env).
Local Abbreviation bo := (fun i => backoff base i (rand53 env i)).

Lemma retry_loop_ok (todo a : nat) (last : option exn) (d : pydict) :
  attempt_once (answer env a) = Ok d ->
  loop (S todo) a last = (Ok d, good_round url params limiter).
Proof.
  intros H. unfold good_round. destruct limiter; simpl; rewrite H; reflexivity.
Qed.

Lemma retry_loop_fail (todo a : nat) (last : option exn) (e : exn) :
  attempt_once (answer env a) = Raise e ->
  loop (S todo) a last
  = ((loop todo (S a) (Some e)).1,
     failed_round url params limiter retries base env a e
     ++ (loop todo (S a) (Some e)).2).
Proof.
  intros H. unfold failed_round.
  destruct limiter; simpl; rewrite H; simpl;
    destruct (retry_loop _ _ _ _ _ _ todo (S a) (Some e)) as [r t]; reflexivity.
Qed.

Lemma cause_Some (a : nat) (e : exn) :
  cause env a = Some e <-> attempt_once (answer env a) = Raise e.
Proof. unfold cause. destruct (attempt_once _); split; congruence. Qed.

Lemma sleeps_app (t1 t2 : list event) : sleeps (t1 ++ t2) = sleeps t1 ++ sleeps t2.
Proof. apply omap_app. Qed.

Lemma gets_app (t1 t2 : list event) : gets (t1 ++ t2) = gets t1 ++ gets t2.
Proof. apply omap_app. Qed.

Lemma sleeps_failed_round (k : nat) (e : exn) :
  sleeps (failed_round url params limiter retries base env k e) = [bo k].
Proof. unfold failed_round. by destruct limiter. Qed.

Lemma gets_failed_round (k : nat) (e : exn) :
  gets (failed_round url params limiter retries base env k e) = [(url, params)].
Proof. unfold failed_round. by destruct limiter. Qed.

(** After [k] failures the loop has slept [k] times and goes on with what
    is left. *)
Lemma retry_loop_failures (k : nat) : forall (m a : nat) (last : option exn),
  (forall i, (a <= i < a + k)%nat -> is_Some (cause env i)) ->
  (loop (k + m) a last).1 = (loop m (a + k) (last_cause env a k last)).1 /\
  sleeps (loop (k + m) a last).2
  = (bo <$> seq a k) ++ sleeps (loop m (a + k) (last_cause env a k last)).2 /\
  gets (loop (k + m) a last).2
  = replicate k (url, params) ++ gets (loop m (a + k) (last_cause env a k last)).2.
Proof.
  induction k as [|k IH]; intros m a last Hfail.
  - simpl. by rewrite Nat.add_0_r.
  - destruct (Hfail a ltac:(lia)) as [e He].
    pose proof He as He'. apply cause_Some in He'.
    change (S k + m)%nat with (S (k + m)).
    rewrite (retry_loop_fail _ _ _ _ He'). cbn [fst snd].
    destruct (IH m (S a) (Some e)) as (H1 & H2 & H3).
    { intros i Hi. apply Hfail. lia. }
    assert (Hlast : last_cause env (S a) k (Some e) = last_cause env a (S k) last).
    { destruct k as [|k']; simpl.
      - by rewrite Nat.add_0_r.
      - f_equal. lia. }
    rewrite Hlast in H1, H2, H3.
    replace (S a + k)%nat with (a + S k)%nat in H1, H2, H3 by lia.
    rewrite H1, sleeps_app, gets_app, H2, H3, sleeps_failed_round, gets_failed_round.
    done.
Qed.

(** Once [last_err] is bound, or an attempt is still to come, the call
    ends in a decoded object or in the aggregated error. *)
Lemma retry_loop_result (todo : nat) : forall (a : nat) (last : option exn),
  (todo = 0%nat -> is_Some last) ->
  (exists d, (loop todo a last).1 = Ok d) \/
  (exists e, (loop todo a last).1 = Raise (GetFailed url retries e)).
Proof.
  induction todo as [|todo IH]; intros a last Hlast.
  - destruct (Hlast eq_refl) as [e ->]. right. by exists e.
  - destruct (attempt_once (answer env a)) as [d|e] eqn:Hat.
    + left. exists d. by rewrite (retry_loop_ok _ _ _ _ Hat).
    + rewrite (retry_loop_fail _ _ _ _ Hat). cbn [fst]. apply IH. eauto.
Qed.

End Retry.

Lemma random_random_range (bits : N) :
  (0 <= random_random bits)%Q /\ (random_random bits < 1)%Q.
Proof.
  unfold random_random, Qle, Qlt. cbn [Qnum Qden].
  pose proof (N.mod_lt bits (2 ^ 53) ltac:(done)) as H.
  assert (Hp : Z.pos (2 ^ 53) = Z.of_N (2 ^ 53)) by reflexivity.
  rewrite Hp. set (b := (bits mod 2 ^ 53)%N) in *. set (q := (2 ^ 53)%N) in *.
  lia.
Qed.

Lemma backoff_range (base : Q) (i : nat) (bits : N) :
  (base * inject_Z (2 ^ Z.of_nat i) <= backoff base i bits)%Q /\
  (backoff base i bits < base * inject_Z (2 ^ Z.of_nat i) + (2 # 10))%Q.
Proof.
  unfold backoff. destruct (random_random_range bits) as [H0 H1].
  split; lra.
Qed.

(** A call whose attempts before [k] fail and whose attempt [k] succeeds. *)
Lemma get_json_success (url : string) (params : pydict) (limiter : bool)
    (retries : Z) (base : Q) (env : call_env) (k : nat) (d : pydict) :
  (k < Z.to_nat retries)%nat ->
  (forall i, (i < k)%nat -> is_Some (cause env i)) ->
  attempt_once (answer env k) = Ok d ->
  (_get_json_with_retry url params limiter retries base env).1 = Ok d /\
  sleeps (_get_json_with_retry url params limiter retries base env).2
  = (fun i => backoff base i (rand53 env i)) <$> seq 0 k /\
  gets (_get_json_with_retry url params limiter retries base env).2
  = replicate (S k) (url, params).
Proof.
  unfold _get_json_with_retry. set (n := Z.to_nat retries). clearbody n.
  intros Hk Hfail Hok.
  destruct (retry_loop_failures url params limiter retries base env k
              (n - k) 0 None) as (H1 & H2 & H3).
  { intros i Hi. apply Hfail. lia. }
  replace (k + (n - k))%nat with n in H1, H2, H3 by lia.
  destruct (n - k)%nat as [|m'] eqn:Hm; [lia|].
  change (0 + k)%nat with k in H1, H2, H3.
  rewrite (retry_loop_ok _ _ _ _ _ _ _ _ _ _ Hok) in H1, H2, H3.
  rewrite H1, H2, H3. split; [done|]. split.
  - unfold good_round. destruct limiter; simpl; by rewrite app_nil_r.
  - unfold good_round. destruct limiter; simpl; by rewrite replicate_cons_app.
Qed.

(** A call all of whose attempts fail. *)
Lemma get_json_exhausted (url : string) (params : pydict) (limiter : bool)
    (retries : Z) (base : Q) (env : call_env) :
  (0 < Z.to_nat retries)%nat ->
  (forall i, (i < Z.to_nat retries)%nat -> is_Some (cause env i)) ->
  exists e, cause env (Z.to_nat retries - 1) = Some e /\
    (_get_json_with_retry url params limiter retries base env).1
    = Raise (GetFailed url retries e) /\
    sleeps (_get_json_with_retry url params limiter retries base env).2
    = (fun i => backoff base i (rand53 env i)) <$> seq 0 (Z.to_nat retries) /\
    gets (_get_json_with_retry url params limiter retries base env).2
    = replicate (Z.to_nat retries) (url, params).
Proof.
  unfold _get_json_with_retry. set (n := Z.to_nat retries). clearbody n.
  intros Hn Hfail.
  destruct (retry_loop_failures url params limiter retries base env n
              0 0 None) as (H1 & H2 & H3).
  { intros i Hi. apply Hfail. lia. }
  rewrite Nat.add_0_r in H1, H2, H3.
  assert (Hl : last_cause env 0 n None = cause env (n - 1)).
  { destruct n as [|n']; [lia|]. simpl. f_equal. lia. }
  rewrite Hl in H1, H2, H3.
  destruct (Hfail (n - 1)%nat ltac:(lia)) as [e He]. rewrite He in H1, H2, H3.
  exists e. split; [done|].
  rewrite H1, H2, H3. simpl. by rewrite !app_nil_r.
Qed.

(** C6 (as stated, refuted): with every attempt failing, the call sleeps a
    third time after its third and last GET, and only then raises. *)
Lemma C6_counterexample :
  let m := _get_json_with_retry VIEW_API ∅ true 3 default_backoff down in
  m.1 = Raise (GetFailed VIEW_API 3 (HTTPStatusError 500)) /\
  length (gets m.2) = 3%nat /\
  length (sleeps m.2) = 3%nat /\
  last m.2 = Some (EvSleep (backoff default_backoff 2 0)) /\
  no_sleep_after_last_get m.2 = false.
Proof. repeat split. Qed.

(** C6 (amended): a successful attempt returns the decoded JSON object at
    once; after every failed attempt, the last one included, the fetcher
    records the cause and sleeps [base * 2^attempt] plus a jitter in
    [0, 0.2); when all [retries >= 1] attempts have failed it then raises
    one aggregated error that carries the last cause; a body that is no
    JSON object makes the attempt fail. *)
Theorem C6_retry_amended (url : string) (params : pydict) (limiter : bool)
    (retries : Z) (base : Q) (env : call_env) :
  let m := _get_json_with_retry url params limiter retries base env in
  let n := Z.to_nat retries in
  (forall k d, (k < n)%nat ->
     (forall i, (i < k)%nat -> is_Some (cause env i)) ->
     attempt_once (answer env k) = Ok d ->
     m.1 = Ok d /\
     sleeps m.2 = (fun i => backoff base i (rand53 env i)) <$> seq 0 k /\
     gets m.2 = replicate (S k) (url, params)) /\
  ((0 < n)%nat ->
     (forall i, (i < n)%nat -> is_Some (cause env i)) ->
     exists e, cause env (n - 1) = Some e /\
       m.1 = Raise (GetFailed url retries e) /\
       sleeps m.2 = (fun i => backoff base i (rand53 env i)) <$> seq 0 n /\
       gets m.2 = replicate n (url, params)) /\
  (forall i bits,
     (base * inject_Z (2 ^ Z.of_nat i) <= backoff base i bits)%Q /\
     (backoff base i bits < base * inject_Z (2 ^ Z.of_nat i) + (2 # 10))%Q) /\
  (forall status v, as_dict v = None ->
     exists e, attempt_once (NetResp status (Some v)) = Raise e).
Proof.
  intros m n. subst m n. split; [|split; [|split]].
  - intros k d. apply get_json_success.
  - apply get_json_exhausted.
  - intros i bits. apply backoff_range.
  - intros status v Hv. simpl. destruct (is_success status); simpl; [|eauto].
    destruct v; simpl in *; try discriminate; eauto.
Qed.

(** The amended rule on a call whose first two attempts fail. *)
Lemma C6_retry_amended_witness :
  (_get_json_with_retry VIEW_API ∅ true 3 default_backoff flaky).1 = Ok ∅ /\
  sleeps (_get_json_with_retry VIEW_API ∅ true 3 default_backoff flaky).2
  = [backoff default_backoff 0 (2 ^ 52)%N; backoff default_backoff 1 (2 ^ 52)%N] /\
  gets (_get_json_with_retry VIEW_API ∅ true 3 default_backoff flaky).2
  = [(VIEW_API, ∅); (VIEW_API, ∅); (VIEW_API, ∅)].
Proof.
  pose proof (C6_retry_amended VIEW_API ∅ true 3 default_backoff flaky) as (H & _).
  apply (H 2%nat ∅).
  - vm_compute. lia.
  - intros i Hi. destruct i as [|[|i]]; [by eexists | by eexists | lia].
  - reflexivity.
Defined.

(** C10: with [retries <= 0] the loop body never runs and the final
    [raise] reads the unbound [last_err]: the call fails with an unbound
    variable error, issues no request, and never raises the aggregated
    fetch error; with [retries >= 1] it ends in a decoded object or in the
    aggregated error. *)
Theorem C10_retries_precondition (url : string) (params : pydict)
    (limiter : bool) (retries : Z) (base : Q) (env : call_env) :
  (retries <= 0 ->
     _get_json_with_retry url params limiter retries base env
     = (Raise (UnboundLocalError "last_err"), [])) /\
  (1 <= retries ->
     (exists d, (_get_json_with_retry url params limiter retries base env).1 = Ok d) \/
     (exists e, (_get_json_with_retry url params limiter retries base env).1
                = Raise (GetFailed url retries e))).
Proof.
  unfold _get_json_with_retry. split.
  - intros H. replace (Z.to_nat retries) with 0%nat by lia. reflexivity.
  - intros H. apply retry_loop_result. lia.
Qed.

Lemma C10_retries_precondition_witness :
  _get_json_with_retry VIEW_API ∅ true 0 default_backoff down
  = (Raise (UnboundLocalError "last_err"), []) /\
  ((exists d, (_get_json_with_retry VIEW_API ∅ true 3 default_backoff down).1 = Ok d) \/
   (exists e, (_get_json_with_retry VIEW_API ∅ true 3 default_backoff down).1
              = Raise (GetFailed VIEW_API 3 e))).
Proof.
  split.
  - apply (C10_retries_precondition VIEW_API ∅ true 0 default_backoff down). lia.
  - apply (C10_retries_precondition VIEW_API ∅ true 3 default_backoff down). lia.
Defined.

(** ** Ranking *)

Section Sorting.
Context {A : Type} (key : A -> Z * Z).
Local Abbreviation key_le := (key_le key).

Lemma key_lt_spec (p q : Z * Z) :
  key_lt p q = true <-> p.1 < q.1 \/ (p.1 = q.1 /\ p.2 < q.2).
Proof.
  unfold key_lt. rewrite orb_true_iff, andb_true_iff, !Z.ltb_lt, Z.eqb_eq. tauto.
Qed.

Lemma key_le_spec (a b : A) :
  key_le a b <-> (key a).1 < (key b).1 \/ ((key a).1 = (key b).1 /\ (key a).2 <= (key b).2).
Proof.
  unfold key_le. rewrite <-not_true_iff_false, key_lt_spec. lia.
Qed.

Lemma key_le_trans (a b c : A) : key_le a b -> key_le b c -> key_le a c.
Proof. rewrite !key_le_spec. lia. Qed.

Lemma key_lt_le (a b : A) : key_lt (key a) (key b) = true -> key_le a b.
Proof. rewrite key_lt_spec, key_le_spec. lia. Qed.

Lemma insert_by_Permutation (x : A) (l : list A) : insert_by key x l ≡ₚ x :: l.
Proof.
  induction l as [|y l IH]; simpl; [done|].
  destruct (key_lt (key y) (key x)); [|done].
  rewrite IH. apply Permutation_swap.
Qed.

Lemma list_sort_Permutation (l : list A) : list_sort key l ≡ₚ l.
Proof.
  induction l as [|x l IH]; simpl; [done|].
  by rewrite insert_by_Permutation, IH.
Qed.

Lemma insert_by_sorted (x : A) (l : list A) :
  StronglySorted key_le l -> StronglySorted key_le (insert_by key x l).
Proof.
  induction 1 as [|y l Hs IH Hy]; simpl.
  - repeat constructor.
  - destruct (key_lt (key y) (key x)) eqn:Hlt.
    + constructor; [done|].
      rewrite insert_by_Permutation. constructor; [by apply key_lt_le | done].
    + constructor; [by constructor|].
      constructor; [done|].
      eapply Forall_impl; [exact Hy|]. intros z Hz. by eapply key_le_trans.
Qed.

Lemma list_sort_sorted (l : list A) : StronglySorted key_le (list_sort key l).
Proof.
  induction l as [|x l IH]; simpl; [constructor | by apply insert_by_sorted].
Qed.

Lemma sorted_lookup_le (l : list A) : StronglySorted key_le l ->
  forall i j a b, (i < j)%nat -> l !! i = Some a -> l !! j = Some b -> key_le a b.
Proof.
  induction 1 as [|x l Hs IH Hx]; intros i j a b Hij Ha Hb; [done|].
  destruct j as [|j]; [lia|]. simpl in Hb.
  destruct i as [|i]; simpl in Ha.
  - injection Ha as <-. rewrite Forall_forall in Hx. apply Hx.
    by eapply list_elem_of_lookup_2.
  - eapply (IH i j); [lia | done | done].
Qed.

(** The sort is stable: items of equal key keep their order. *)
Lemma insert_by_filter (p : Z * Z) (x : A) (l : list A) :
  StronglySorted key_le l ->
  filter (fun y => key y = p) (insert_by key x l)
  = filter (fun y => key y = p) (x :: l).
Proof.
  induction 1 as [|y l Hs IH Hy]; simpl; [done|].
  destruct (key_lt (key y) (key x)) eqn:Hlt; [|done].
  rewrite filter_cons, IH, !filter_cons.
  apply key_lt_spec in Hlt.
  destruct (decide (key y = p)) as [Hyp|]; [|done].
  destruct (decide (key x = p)) as [Hxp|]; [|done].
  rewrite Hyp, Hxp in Hlt. lia.
Qed.

Lemma list_sort_stable (p : Z * Z) (l : list A) :
  filter (fun y => key y = p) (list_sort key l) = filter (fun y => key y = p) l.
Proof.
  induction l as [|x l IH]; simpl; [done|].
  rewrite insert_by_filter by apply list_sort_sorted.
  by rewrite !filter_cons, IH.
Qed.

End Sorting.

(** ** Enrichment *)

Lemma fst_bind {A B} (m : M A) (k : A -> M B) :
  (m ≫= k).1 = m.1 ≫= (fun a => (k a).1).
Proof. destruct m as [[a|e] t]; simpl; [destruct (k a) |]; done. Qed.

Lemma fst_with_sem {A} (m : M A) : (with_sem m).1 = m.1.
Proof. by destruct m. Qed.

Lemma fst_lift {A} (r : result A) : (lift r).1 = r.
Proof. done. Qed.

Lemma bind_ok {A B} (a : A) (k : A -> result B) : (Ok a ≫= k) = k a.
Proof. done. Qed.

Lemma bind_raise {A B} (e : exn) (k : A -> result B) : (Raise e ≫= k) = Raise e.
Proof. done. Qed.

(** Peel the scrutinee of the leading bind on both sides of the goal. *)
Ltac peel :=
  rewrite ?fst_bind, ?fst_with_sem, ?fst_lift;
  match goal with
  | |- (?r ≫= _) = (?r ≫= _) =>
      let a := fresh "a" in let e := fresh "e" in
      destruct r as [a|e]; [rewrite !bind_ok | reflexivity]
  end.

Section EnrichFacts.
Context (h : host).

Lemma enrich_video_invalid (env : enrich_env) (raw : pydict) :
  valid_bvid raw = false -> enrich_video h env raw = (Raise MissingBvid, []).
Proof.
  unfold valid_bvid, enrich_video.
  destruct (py_get raw "bvid") as [| | | |s| |]; simpl; try done.
  by destruct (String.eqb s "").
Qed.

Lemma enrich_video_fst (env : enrich_env) (raw : pydict) (bvid : string) :
  py_get raw "bvid" = PStr bvid -> bvid <> "" ->
  (enrich_video h env raw).1 = enrich_result h env raw bvid.
Proof.
  intros Hb Hne. unfold enrich_video, enrich_result, view_result.
  rewrite Hb. cbn [as_str]. destruct (String.eqb_spec bvid ""); [done|].
  peel. peel. peel.
  rewrite fst_bind.
  match goal with
  | |- (?m.1 ≫= _) = _ => assert (Hc : m.1 = counts_of (resolved_stat raw a0))
  end.
  { unfold counts_of, resolved_stat. destruct (as_dict _); [|done].
    peel. peel. done. }
  rewrite Hc. destruct (counts_of _) as [[view danmaku]|e]; [|done].
  rewrite !bind_ok. cbv beta iota. unfold resolved_pubdate. peel.
  rewrite fst_bind.
  match goal with
  | |- (?m.1 ≫= _) = _ => assert (Ho : m.1 = online_result env bvid a1)
  end.
  { unfold online_result. destruct a1 as [c|]; [|done].
    destruct (c =? 0); [done|]. peel.
    destruct (py_eq_zero _); [|done].
    destruct (or_empty_dict _); try done. peel. done. }
  rewrite Ho. destruct (online_result _ _ _) as [[online_total online_count]|e]; [|done].
  reflexivity.
Qed.

Lemma bind_ok_inv {A B} (r : result A) (k : A -> result B) (b : B) :
  (r ≫= k) = Ok b -> exists a, r = Ok a /\ k a = Ok b.
Proof. destruct r as [a|e]; [eauto | discriminate]. Qed.

Lemma get_attr_inv (v : pyval) (d : pydict) : get_attr v = Ok d -> v = PDict d.
Proof. destruct v; simpl; congruence. Qed.

Lemma valid_bvid_inv (raw : pydict) :
  valid_bvid raw = true -> exists bvid, py_get raw "bvid" = PStr bvid /\ bvid <> "".
Proof.
  unfold valid_bvid. destruct (py_get raw "bvid") as [| | | |s| |]; try done.
  destruct (String.eqb_spec s ""); [done|]. eauto.
Qed.

(** A successful enrichment, step by step. *)
Lemma enrich_video_ok_inv (env : enrich_env) (raw item : pydict) :
  (enrich_video h env raw).1 = Ok item ->
  exists bvid view_raw vd cid counts pubdate online,
    py_get raw "bvid" = PStr bvid /\ bvid <> "" /\
    view_result env bvid = Ok view_raw /\
    or_empty_dict (py_get view_raw "data") = PDict vd /\
    _safe_int (py_get vd "cid") = Ok cid /\
    counts_of (resolved_stat raw vd) = Ok counts /\
    strftime_local h (resolved_pubdate raw vd) = Ok pubdate /\
    online_result env bvid cid = Ok online /\
    item = item_of bvid (resolved_title raw vd bvid) (resolved_pic raw vd)
             (resolved_owner raw vd) online.1 online.2 counts.1 counts.2 pubdate.
Proof.
  intros Hok. destruct (valid_bvid raw) eqn:Hv.
  - destruct (valid_bvid_inv _ Hv) as (bvid & Hb & Hne).
    rewrite (enrich_video_fst env raw bvid Hb Hne) in Hok. unfold enrich_result in Hok.
    apply bind_ok_inv in Hok as (view_raw & H1 & Hok).
    apply bind_ok_inv in Hok as (vd & H2 & Hok).
    apply bind_ok_inv in Hok as (cid & H3 & Hok).
    apply bind_ok_inv in Hok as (counts & H4 & Hok).
    apply bind_ok_inv in Hok as (pubdate & H5 & Hok).
    apply bind_ok_inv in Hok as (online & H6 & Hok).
    apply get_attr_inv in H2. injection Hok as <-.
    by exists bvid, view_raw, vd, cid, counts, pubdate, online.
  - by rewrite (enrich_video_invalid env raw Hv) in Hok.
Qed.

Lemma item_of_lookup (bvid title pic : string) (owner online_total : pyval)
    (online_count view danmaku : option Z) (pubdate : string) :
  let item := item_of bvid title pic owner online_total online_count view danmaku pubdate in
  item !! "bvid" = Some (PStr bvid) /\
  item !! "title" = Some (PStr title) /\
  item !! "pic" = Some (PStr pic) /\
  item !! "owner" = Some owner /\
  item !! "online_total" = Some online_total /\
  item !! "online_count" = Some (of_opt_int online_count) /\
  item !! "view" = Some (of_opt_int view) /\
  item !! "danmaku" = Some (of_opt_int danmaku) /\
  item !! "pubdate" = Some (PStr pubdate).
Proof. intros item. subst item. unfold item_of. by simplify_map_eq. Qed.


(** ** Aggregation *)

Lemma collect_loop_fst (coros : list (M pydict)) :
  forall total i enriched,
    (collect_loop total i coros enriched).1 = enriched ++ successes coros.
Proof.
  induction coros as [|[[item|e] t] coros IH]; intros total i enriched; simpl.
  - by rewrite app_nil_r.
  - specialize (IH total (S i) (enriched ++ [item])).
    destruct (collect_loop _ _ _ _) as [out t']. simpl in *.
    by rewrite IH, <-app_assoc.
  - specialize (IH total (S i) enriched).
    by destruct (collect_loop _ _ _ _) as [out t'].
Qed.

Lemma as_completed_Permutation {B} (choices : list nat) :
  forall pending : list B, as_completed choices pending ≡ₚ pending.
Proof.
  induction choices as [|c choices IH]; intros pending; simpl; [done|].
  destruct (pending !! _) as [x|] eqn:Hx; [|done].
  rewrite IH. symmetry. by apply delete_Permutation.
Qed.

Lemma build_payload_fst (cfg : Config) (w : cycle_env) :
  (build_payload h cfg w).1
  = (entries ← (fetch_popular_videos cfg (popular_call w)).1;
     Ok (<["updated_at" := PStr (now w)]>
         {["items" := PList (PDict <$> list_sort sort_key
                      (successes (as_completed (completion w) (tasks_of h w entries))))]})).
Proof.
  unfold build_payload. rewrite fst_bind.
  destruct (fetch_popular_videos _ _).1 as [entries|e]; [|done].
  rewrite bind_ok. fold (tasks_of h w entries).
  pose proof (collect_loop_fst (as_completed (completion w) (tasks_of h w entries))
                (length (tasks_of h w entries)) 1 []) as Hc.
  destruct (collect_loop _ _ _ _) as [enriched t]. simpl in *. by rewrite Hc.
Qed.

(** Once the catalog is fetched the batch is never aborted: the payload
    holds, sorted, exactly the items of the enrichments that succeeded. *)
Lemma build_payload_items (cfg : Config) (w : cycle_env) (entries : list pyval) :
  (fetch_popular_videos cfg (popular_call w)).1 = Ok entries ->
  exists payload items,
    (build_payload h cfg w).1 = Ok payload /\
    items_of payload = PDict <$> items /\
    items ≡ₚ successes (tasks_of h w entries) /\
    StronglySorted (key_le sort_key) items.
Proof.
  intros Hf. rewrite build_payload_fst, Hf, bind_ok.
  eexists _, _. split; [reflexivity|]. split; [|split].
  - unfold items_of. by simplify_map_eq.
  - unfold successes. by rewrite list_sort_Permutation, as_completed_Permutation.
  - apply list_sort_sorted.
Qed.

Lemma build_payload_ok_inv (cfg : Config) (w : cycle_env) (payload : pydict) :
  (build_payload h cfg w).1 = Ok payload ->
  exists entries, (fetch_popular_videos cfg (popular_call w)).1 = Ok entries.
Proof.
  rewrite build_payload_fst. intros H.
  apply bind_ok_inv in H as (entries & H & _). eauto.
Qed.

Lemma tasks_of_lookup (w : cycle_env) (entries : list pyval) (i : nat) (raw : pydict) :
  omap as_dict entries !! i = Some raw ->
  tasks_of h w entries !! i = Some (enrich_video h (item_env w i) raw).
Proof. intros H. unfold tasks_of. by rewrite list_lookup_imap, H. Qed.

Lemma elem_of_successes (coros : list (M pydict)) (item : pydict) :
  item ∈ successes coros <-> exists m, m ∈ coros /\ m.1 = Ok item.
Proof.
  unfold successes. rewrite list_elem_of_omap. split.
  - intros (m & Hm & Hi). exists m. split; [done|].
    destruct m.1; congruence.
  - intros (m & Hm & Hi). exists m. split; [done|]. by rewrite Hi.
Qed.

End EnrichFacts.


Lemma successes_valid_bound (h : host) (l : list pydict) :
  forall g : nat -> enrich_env,
    (length (successes (imap (fun i it => enrich_video h (g i) it) l))
     <= length (filter (fun r => valid_bvid r = true) l))%nat.
Proof.
  induction l as [|raw l IH]; intros g; [done|].
  rewrite imap_cons, filter_cons. specialize (IH (g ∘ S)).
  change (imap ((fun i it => enrich_video h (g i) it) ∘ S) l)
    with (imap (fun i it => enrich_video h ((g ∘ S) i) it) l).
  set (rest := imap _ l) in *. unfold successes in *. cbn [omap list_omap].
  destruct (decide (valid_bvid raw = true)) as [Hv|Hv].
  - destruct (enrich_video h (g 0%nat) raw).1; simpl; lia.
  - apply not_true_is_false in Hv.
    rewrite (enrich_video_invalid h (g 0%nat) raw Hv). simpl. lia.
Qed.

(** C3: in every snapshot, of two items with non-negative online counts
    the earlier has the greater or equal count, and no item whose count is
    null or negative stands before an item with a non-negative count. *)
Theorem C3_ranking (h : host) (cfg : Config) (w : cycle_env) (payload : pydict) :
  (build_payload h cfg w).1 = Ok payload ->
  exists items, items_of payload = PDict <$> items /\
    forall i j a b, (i < j)%nat -> items !! i = Some a -> items !! j = Some b ->
      (forall ca cb,
         py_get a "online_count" = PInt ca -> py_get b "online_count" = PInt cb ->
         0 <= ca -> 0 <= cb -> cb <= ca) /\
      (py_get a "online_count" = PNone \/
       (exists ca, py_get a "online_count" = PInt ca /\ ca < 0) ->
       ~ exists cb, py_get b "online_count" = PInt cb /\ 0 <= cb).
Proof.
  intros Hp. destruct (build_payload_ok_inv h cfg w payload Hp) as [entries Hf].
  destruct (build_payload_items h cfg w entries Hf) as (payload' & items & Hp' & Hi & _ & Hs).
  rewrite Hp in Hp'. injection Hp' as <-.
  exists items. split; [done|]. intros i j a b Hij Ha Hb.
  pose proof (sorted_lookup_le sort_key items Hs i j a b Hij Ha Hb) as Hle.
  apply key_le_spec in Hle. unfold sort_key in Hle. split.
  - intros ca cb Hca Hcb H0a H0b. rewrite Hca, Hcb in Hle. cbn [as_int fst snd] in Hle.
    destruct (Z.leb_spec 0 ca), (Z.leb_spec 0 cb); lia.
  - intros Hnull (cb & Hcb & H0b). rewrite Hcb in Hle. cbn [as_int fst snd] in Hle.
    destruct (Z.leb_spec 0 cb); [|lia].
    destruct Hnull as [Hn|(ca & Hca & Hneg)].
    + rewrite Hn in Hle. cbn [as_int fst snd] in Hle.
      change (0 <=? -1) with false in Hle. cbv iota in Hle. lia.
    + rewrite Hca in Hle. cbn [as_int fst snd] in Hle.
      destruct (Z.leb_spec 0 ca); lia.
Qed.

Lemma ok_of_eq (m : M pydict) : is_ok m.1 = true -> m.1 = Ok (ok_of m).
Proof. unfold ok_of. by destruct m.1. Qed.

(** The ranking on the three-entry cycle: the snapshot lists BV3 (12
    viewers) before BV1 (5 viewers). *)
Lemma C3_ranking_witness :
  (omap (fun v => match v with PDict d => d !! "bvid" | _ => None end)
        (items_of (ok_of (build_payload demo_host demo_cfg demo_cycle)))
   = [PStr "BV3"; PStr "BV1"]) /\
  exists items,
    items_of (ok_of (build_payload demo_host demo_cfg demo_cycle)) = PDict <$> items /\
    forall i j a b, (i < j)%nat -> items !! i = Some a -> items !! j = Some b ->
      (forall ca cb,
         py_get a "online_count" = PInt ca -> py_get b "online_count" = PInt cb ->
         0 <= ca -> 0 <= cb -> cb <= ca) /\
      (py_get a "online_count" = PNone \/
       (exists ca, py_get a "online_count" = PInt ca /\ ca < 0) ->
       ~ exists cb, py_get b "online_count" = PInt cb /\ 0 <= cb).
Proof.
  split; [vm_compute; reflexivity|].
  apply (C3_ranking demo_host demo_cfg demo_cycle), ok_of_eq.
  vm_compute. reflexivity.
Defined.

(** C9: a catalog entry whose identifier is missing, empty or no string is
    rejected before any effect (no network call, no sleep, no retry), and
    every item of the snapshot is the enrichment of another entry, one
    with a valid identifier; so the snapshot has at most as many items as
    the catalog has valid entries. *)
Theorem C9_missing_identifier (h : host) (cfg : Config) (w : cycle_env) (raw : pydict) :
  valid_bvid raw = false ->
  (forall env, enrich_video h env raw = (Raise MissingBvid, [])) /\
  (forall entries payload,
     (fetch_popular_videos cfg (popular_call w)).1 = Ok entries ->
     (build_payload h cfg w).1 = Ok payload ->
     exists items, items_of payload = PDict <$> items /\
       (forall item, item ∈ items ->
          exists i raw', omap as_dict entries !! i = Some raw' /\
            raw' <> raw /\ valid_bvid raw' = true /\
            (enrich_video h (item_env w i) raw').1 = Ok item /\
            item !! "bvid" = Some (py_get raw' "bvid")) /\
       (length items
        <= length (filter (fun r => valid_bvid r = true) (omap as_dict entries)))%nat).
Proof.
  intros Hinv. split; [intros env; by apply enrich_video_invalid|].
  intros entries payload Hf Hp.
  destruct (build_payload_items h cfg w entries Hf) as (payload' & items & Hp' & Hi & Hperm & _).
  rewrite Hp in Hp'. injection Hp' as <-.
  exists items. split; [done|]. split.
  - intros item Hitem. rewrite Hperm in Hitem.
    apply elem_of_successes in Hitem as (m & Hm & Hok).
    apply list_elem_of_lookup in Hm as [i Hm].
    unfold tasks_of in Hm. rewrite list_lookup_imap in Hm.
    destruct (omap as_dict entries !! i) as [raw'|] eqn:Hraw; [|done].
    injection Hm as <-. exists i, raw'. split; [done|].
    destruct (enrich_video_ok_inv h _ _ _ Hok)
      as (bvid & ? & ? & ? & ? & ? & ? & Hb & Hne & _ & _ & _ & _ & _ & _ & ->).
    assert (Hv : valid_bvid raw' = true).
    { unfold valid_bvid. rewrite Hb. by destruct (String.eqb_spec bvid ""). }
    repeat split; [congruence | done | done |].
    rewrite Hb. apply item_of_lookup.
  - rewrite Hperm. apply successes_valid_bound.
Qed.

(** On the three-entry cycle the entry without identifier causes no event
    and the snapshot holds two items. *)
Lemma C9_missing_identifier_witness :
  enrich_video demo_host env_down raw_no_bvid = (Raise MissingBvid, []) /\
  length (items_of (ok_of (build_payload demo_host demo_cfg demo_cycle))) = 2%nat.
Proof.
  destruct (C9_missing_identifier demo_host demo_cfg demo_cycle raw_no_bvid eq_refl)
    as [H _].
  split; [apply H | vm_compute; reflexivity].
Defined.




(** ** Field resolution *)

Lemma resolved_title_layered (raw vd : pydict) (bvid : string) :
  PStr (resolved_title raw vd bvid)
  = first_of is_str [py_get raw "title"; py_get vd "title"]
             (PStr ("(untitled) " +:+ bvid)).
Proof.
  unfold resolved_title.
  destruct (py_get raw "title"), (py_get vd "title"); reflexivity.
Qed.

Lemma resolved_pic_layered (raw vd : pydict) :
  PStr (resolved_pic raw vd)
  = first_of is_str [first_of is_filled_str [py_get raw "pic"] (py_get vd "pic")]
             (PStr "").
Proof.
  unfold resolved_pic.
  destruct (py_get raw "pic") as [| | | |p| |]; simpl;
    try (destruct (py_get vd "pic"); reflexivity).
  destruct (String.eqb p ""); simpl; [|reflexivity].
  destruct (py_get vd "pic"); reflexivity.
Qed.

Lemma resolved_owner_layered (raw vd : pydict) :
  resolved_owner raw vd = first_of is_dict [py_get vd "owner"] (py_get raw "owner").
Proof. unfold resolved_owner. destruct (py_get vd "owner"); reflexivity. Qed.

Lemma resolved_stat_layered (raw vd : pydict) :
  resolved_stat raw vd = first_of is_dict [py_get vd "stat"] (py_get raw "stat").
Proof. unfold resolved_stat. destruct (py_get vd "stat"); reflexivity. Qed.

Lemma resolved_pubdate_layered (raw vd : pydict) :
  as_int (first_of is_int [py_get vd "pubdate"; py_get raw "pubdate"] (PInt 0))
  = Some (resolved_pubdate raw vd).
Proof.
  unfold resolved_pubdate.
  destruct (py_get vd "pubdate"), (py_get raw "pubdate"); reflexivity.
Qed.

Lemma placeholder_filled (bvid : string) : "(untitled) " +:+ bvid <> "".
Proof. discriminate. Qed.

Lemma as_str_None_or (v : pyval) : as_str v = None \/ exists s, v = PStr s.
Proof. destruct v; simpl; eauto. Qed.

Lemma resolved_title_raw (raw vd : pydict) (bvid s : string) :
  py_get raw "title" = PStr s -> resolved_title raw vd bvid = s.
Proof. unfold resolved_title. by intros ->. Qed.

Lemma resolved_title_detail (raw vd : pydict) (bvid s : string) :
  as_str (py_get raw "title") = None -> py_get vd "title" = PStr s ->
  resolved_title raw vd bvid = s.
Proof. unfold resolved_title. by intros -> ->. Qed.

Lemma resolved_title_placeholder (raw vd : pydict) (bvid : string) :
  as_str (py_get raw "title") = None -> as_str (py_get vd "title") = None ->
  resolved_title raw vd bvid = "(untitled) " +:+ bvid.
Proof. unfold resolved_title. by intros -> ->. Qed.

(** What holds of every successfully enriched item: the identifier is a
    non-empty copy of the entry's identifier; the title is the raw entry's
    title when that is a string, else the detail's title when that is a
    string, else the non-empty placeholder built from the identifier, so
    that it is empty exactly when the title it is taken from is the empty
    string; view, danmaku and online_count are each an integer or null. *)
Lemma enriched_item_fields (h : host) (env : enrich_env) (raw item : pydict) :
  (enrich_video h env raw).1 = Ok item ->
  exists bvid vd title,
    py_get raw "bvid" = PStr bvid /\ bvid <> "" /\
    item !! "bvid" = Some (PStr bvid) /\
    (exists view_raw, view_result env bvid = Ok view_raw /\
       or_empty_dict (py_get view_raw "data") = PDict vd) /\
    item !! "title" = Some (PStr title) /\
    PStr title = first_of is_str [py_get raw "title"; py_get vd "title"]
                   (PStr ("(untitled) " +:+ bvid)) /\
    (title = "" <->
       py_get raw "title" = PStr "" \/
       (as_str (py_get raw "title") = None /\ py_get vd "title" = PStr "")) /\
    (forall k, k ∈ ["view"; "danmaku"; "online_count"] ->
       item !! k = Some PNone \/ exists n, item !! k = Some (PInt n)).
Proof.
  intros Hok.
  destruct (enrich_video_ok_inv h _ _ _ Hok)
    as (bvid & view_raw & vd & cid & counts & pubdate & online
        & Hb & Hne & Hv & Hd & _ & _ & _ & _ & ->).
  exists bvid, vd, (resolved_title raw vd bvid).
  pose proof (item_of_lookup bvid (resolved_title raw vd bvid) (resolved_pic raw vd)
                (resolved_owner raw vd) online.1 online.2 counts.1 counts.2 pubdate)
    as (L1 & L2 & _ & _ & _ & L6 & L7 & L8 & _).
  split; [done|]. split; [done|]. split; [done|]. split; [eauto|]. split; [done|].
  split; [apply resolved_title_layered|]. split.
  - split.
    + intros Ht.
      destruct (as_str_None_or (py_get raw "title")) as [Hr|[s Hr]].
      * destruct (as_str_None_or (py_get vd "title")) as [Hd'|[s' Hd']].
        -- rewrite (resolved_title_placeholder _ _ _ Hr Hd') in Ht.
           by destruct (placeholder_filled bvid).
        -- rewrite (resolved_title_detail _ _ _ _ Hr Hd') in Ht. subst s'. auto.
      * rewrite (resolved_title_raw _ _ _ _ Hr) in Ht. subst s. auto.
    + intros [Hr|[Hr Hd']].
      * by apply resolved_title_raw.
      * by apply resolved_title_detail.
  - intros k Hk. rewrite !elem_of_cons, elem_of_nil in Hk.
    destruct Hk as [->|[->|[->|[]]]].
    + rewrite L7. destruct counts.1; simpl; eauto.
    + rewrite L8. destruct counts.2; simpl; eauto.
    + rewrite L6. destruct online.2; simpl; eauto.
Qed.

(** C4 (code bug): the catalog entry has a valid identifier and the empty
    string as its title and as its cover; the detail call answers the
    title B and the cover b.jpg.  The enrichment succeeds with an empty
    title: the test on the title looks at the type only, so neither the
    detail's title nor the placeholder is used, while the cover, whose
    test also looks for emptiness, falls back to the detail's. *)
Theorem C4_empty_title :
  valid_bvid raw_blank = true /\
  py_get raw_blank "title" = PStr "" /\
  field_of (enrich_video demo_host env_titled raw_blank) "bvid" = Some (PStr "BV1") /\
  field_of (enrich_video demo_host env_titled raw_blank) "title" = Some (PStr "") /\
  field_of (enrich_video demo_host env_titled raw_blank) "pic" = Some (PStr "b.jpg").
Proof. vm_compute. repeat split. Qed.

(** C5 (as stated, refuted): the raw entry's title is A and the detail's
    is B; detail first would give B, the enrichment gives A. *)
Lemma C5_counterexample :
  spec_title raw_full (view_data 7 "B" 100 7) "BV1" = PStr "B" /\
  field_of (enrich_video demo_host (env_ok 7 "B" 100 7 "5" 5) raw_full) "title"
  = Some (PStr "A").
Proof. vm_compute. split; reflexivity. Qed.

(** C5 (amended): every field is resolved by a layered fallback, but the
    order depends on the field: title and pic prefer the raw catalog
    entry's value (pic only a non-empty one), then the detail response's,
    then the synthesized default (placeholder title, empty pic); owner,
    stat (for view and danmaku) and pubdate prefer the detail response's
    value, then the raw entry's, pubdate last of all the epoch. *)
Theorem C5_field_resolution_amended (h : host) (env : enrich_env) (raw item : pydict) :
  (enrich_video h env raw).1 = Ok item ->
  exists bvid view_raw vd view danmaku t pubdate,
    py_get raw "bvid" = PStr bvid /\
    view_result env bvid = Ok view_raw /\
    or_empty_dict (py_get view_raw "data") = PDict vd /\
    item !! "title"
    = Some (first_of is_str [py_get raw "title"; py_get vd "title"]
                     (PStr ("(untitled) " +:+ bvid))) /\
    item !! "pic"
    = Some (first_of is_str
              [first_of is_filled_str [py_get raw "pic"] (py_get vd "pic")]
              (PStr "")) /\
    item !! "owner" = Some (first_of is_dict [py_get vd "owner"] (py_get raw "owner")) /\
    counts_of (first_of is_dict [py_get vd "stat"] (py_get raw "stat"))
    = Ok (view, danmaku) /\
    item !! "view" = Some (of_opt_int view) /\
    item !! "danmaku" = Some (of_opt_int danmaku) /\
    as_int (first_of is_int [py_get vd "pubdate"; py_get raw "pubdate"] (PInt 0))
    = Some t /\
    strftime_local h t = Ok pubdate /\
    item !! "pubdate" = Some (PStr pubdate).
Proof.
  intros Hok.
  destruct (enrich_video_ok_inv h _ _ _ Hok)
    as (bvid & view_raw & vd & cid & [view danmaku] & pubdate & online
        & Hb & Hne & Hv & Hd & _ & Hc & Hp & _ & ->).
  exists bvid, view_raw, vd, view, danmaku, (resolved_pubdate raw vd), pubdate.
  pose proof (item_of_lookup bvid (resolved_title raw vd bvid) (resolved_pic raw vd)
                (resolved_owner raw vd) online.1 online.2 view danmaku pubdate)
    as (_ & L2 & L3 & L4 & _ & _ & L7 & L8 & L9).
  rewrite <-resolved_title_layered, <-resolved_pic_layered, <-resolved_owner_layered,
    <-resolved_stat_layered, resolved_pubdate_layered.
  repeat split; done.
Qed.

Lemma C5_field_resolution_amended_witness :
  exists vd,
    ok_of (enrich_video demo_host (env_ok 7 "B" 100 7 "5" 5) raw_full) !! "title"
    = Some (first_of is_str [py_get raw_full "title"; py_get vd "title"]
                     (PStr ("(untitled) " +:+ "BV1"))).
Proof.
  destruct (C5_field_resolution_amended demo_host (env_ok 7 "B" 100 7 "5" 5) raw_full
              (ok_of (enrich_video demo_host (env_ok 7 "B" 100 7 "5" 5) raw_full)))
    as (bvid & view_raw & vd & view & danmaku & t & pubdate & Hb & _ & _ & Ht & _).
  - apply ok_of_eq. vm_compute. reflexivity.
  - exists vd. vm_compute in Hb. injection Hb as <-. exact Ht.
Defined.

(** ** The online-count call *)

(** C7 (as stated, refuted): the online-count endpoint answers with code
    -400, the detail call had answered the title B, and the raw entry
    carries the title A; the enrichment succeeds with null online fields,
    and the item's title is A, not the one obtained from the detail call. *)
Lemma C7_counterexample :
  py_eq_zero (py_get online_refused "code") = false /\
  py_get (view_data 7 "B" 100 7) "title" = PStr "B" /\
  field_of (enrich_video demo_host env_refused raw_full) "online_total" = Some PNone /\
  field_of (enrich_video demo_host env_refused raw_full) "online_count" = Some PNone /\
  field_of (enrich_video demo_host env_refused raw_full) "title" = Some (PStr "A").
Proof. vm_compute. repeat split. Qed.

(** C7 (amended): when the online-count endpoint answers with a
    non-success status code (its [code] field is not 0), the enrichment
    succeeds: the item has online_total and online_count null, carries the
    view and danmaku counts of the detail call and the title as it is
    resolved for every item (the raw entry's title when that is a string,
    otherwise the title of the detail call), and is part of the
    snapshot. *)
Theorem C7_online_refused_amended (h : host) (env : enrich_env) (raw : pydict)
    (bvid : string) (view_raw vd st online_raw : pydict) (c : Z)
    (v d : option Z) (t pubdate : string) :
  py_get raw "bvid" = PStr bvid -> bvid <> "" ->
  view_result env bvid = Ok view_raw ->
  or_empty_dict (py_get view_raw "data") = PDict vd ->
  _safe_int (py_get vd "cid") = Ok (Some c) -> c <> 0 ->
  py_get vd "stat" = PDict st ->
  _safe_int (py_get st "view") = Ok v ->
  _safe_int (py_get st "danmaku") = Ok d ->
  py_get vd "title" = PStr t ->
  strftime_local h (resolved_pubdate raw vd) = Ok pubdate ->
  (_get_json_with_retry ONLINE_API (<["bvid" := PStr bvid]> {["cid" := PInt c]})
     true default_retries default_backoff (online_call env)).1 = Ok online_raw ->
  py_eq_zero (py_get online_raw "code") = false ->
  exists item,
    (enrich_video h env raw).1 = Ok item /\
    item !! "online_total" = Some PNone /\
    item !! "online_count" = Some PNone /\
    item !! "view" = Some (of_opt_int v) /\
    item !! "danmaku" = Some (of_opt_int d) /\
    (forall s, py_get raw "title" = PStr s -> item !! "title" = Some (PStr s)) /\
    (as_str (py_get raw "title") = None -> item !! "title" = Some (PStr t)) /\
    forall cfg w entries i,
      (fetch_popular_videos cfg (popular_call w)).1 = Ok entries ->
      omap as_dict entries !! i = Some raw -> item_env w i = env ->
      exists payload items,
        (build_payload h cfg w).1 = Ok payload /\
        items_of payload = PDict <$> items /\
        item ∈ items.
Proof.
  intros Hb Hne Hv Hd Hc Hc0 Hst Hview Hdan Ht Hp Ho Hcode.
  assert (Hok : (enrich_video h env raw).1
                = Ok (item_of bvid (resolved_title raw vd bvid) (resolved_pic raw vd)
                        (resolved_owner raw vd) PNone None v d pubdate)).
  { rewrite (enrich_video_fst h env raw bvid Hb Hne). unfold enrich_result.
    rewrite Hv, bind_ok, Hd. cbn [get_attr]. rewrite bind_ok, Hc, bind_ok.
    unfold resolved_stat, counts_of. rewrite Hst. cbn [as_dict].
    rewrite Hview, bind_ok, Hdan, !bind_ok, Hp, bind_ok.
    unfold online_result. destruct (Z.eqb_spec c 0); [done|].
    by rewrite Ho, bind_ok, Hcode. }
  eexists. split; [exact Hok|].
  pose proof (item_of_lookup bvid (resolved_title raw vd bvid) (resolved_pic raw vd)
                (resolved_owner raw vd) PNone None v d pubdate)
    as (_ & L2 & _ & _ & L5 & L6 & L7 & L8 & _).
  split; [done|]. split; [done|]. split; [done|]. split; [done|].
  split; [intros s Hr; by rewrite L2, (resolved_title_raw raw vd bvid s Hr)|].
  split; [intros Hr; by rewrite L2, (resolved_title_detail raw vd bvid t Hr Ht)|].
  intros cfg w entries i Hf Hi Henv.
  destruct (build_payload_items h cfg w entries Hf) as (payload & items & Hpl & Hit & Hperm & _).
  exists payload, items. split; [done|]. split; [done|].
  rewrite Hperm. apply elem_of_successes.
  exists (enrich_video h env raw). split; [|exact Hok].
  apply (list_elem_of_lookup_2 _ i). rewrite <-Henv.
  exact (tasks_of_lookup h w entries i raw Hi).
Qed.

(** The refused online call for an entry without a title of its own: the
    item carries the detail call's title B. *)
Lemma C7_online_refused_amended_witness :
  exists item,
    (enrich_video demo_host env_refused (raw_bare "BV1")).1 = Ok item /\
    item !! "online_total" = Some PNone /\
    item !! "online_count" = Some PNone /\
    item !! "view" = Some (PInt 100) /\
    item !! "danmaku" = Some (PInt 7) /\
    item !! "title" = Some (PStr "B").
Proof.
  destruct (C7_online_refused_amended demo_host env_refused (raw_bare "BV1") "BV1"
              (view_json 7 "B" 100 7) (view_data 7 "B" 100 7)
              (<["view" := PInt 100]> {["danmaku" := PInt 7]}) online_refused
              7 (Some 100) (Some 7) "B" "1970-01-01 08:00:00")
    as (item & H1 & H2 & H3 & H4 & H5 & _ & H7 & _).
  1, 3-5, 7-13: reflexivity.
  1, 2: discriminate.
  exists item.
  exact (conj H1 (conj H2 (conj H3 (conj H4 (conj H5 (H7 eq_refl)))))).
Defined.

(** ** The snapshot file *)

Lemma append_cons (c : Ascii.ascii) (s t : string) :
  String c s +:+ t = String c (s +:+ t).
Proof. reflexivity. Qed.

Lemma append_neq (s t : string) : t <> "" -> s +:+ t <> s.
Proof.
  intros Ht. induction s as [|c s IH]; [done|].
  rewrite append_cons. intros H. injection H as H. by apply IH.
Qed.

Lemma append_assoc (s t u : string) : (s +:+ t) +:+ u = s +:+ (t +:+ u).
Proof. induction s as [|c s IH]; [done|]. by rewrite !append_cons, IH. Qed.

Lemma append_empty_r (s : string) : s +:+ "" = s.
Proof. induction s as [|c s IH]; [done|]. by rewrite append_cons, IH. Qed.

Lemma fs_run_app (ops1 ops2 : list fs_op) (fs : gmap string string) :
  fs_run (ops1 ++ ops2) fs = fs_run ops2 (fs_run ops1 fs).
Proof. apply foldl_app. Qed.

Lemma fs_step_untouched (op : fs_op) (p : string) (fs : gmap string string) :
  ~ touches op p -> fs_step op fs !! p = fs !! p.
Proof.
  destruct op as [q|q|q c|q|q|q|src dst]; simpl; intros Hn; try done.
  - by rewrite lookup_insert_ne.
  - by rewrite lookup_alter_ne.
  - destruct (fs !! src); [|done].
    rewrite lookup_insert_ne by tauto. rewrite lookup_delete_ne by tauto. done.
Qed.

Lemma fs_run_untouched (ops : list fs_op) (p : string) :
  Forall (fun op => ~ touches op p) ops ->
  forall fs, fs_run ops fs !! p = fs !! p.
Proof.
  induction 1 as [|op ops Hop _ IH]; intros fs; [done|].
  unfold fs_run in *. simpl. by rewrite IH, fs_step_untouched.
Qed.

Lemma fs_run_writes (p text : string) : forall fs,
  fs_run (WriteChar p <$> chars text) fs !! p = (fun s => s +:+ text) <$> fs !! p.
Proof.
  induction text as [|c text IH]; intros fs; simpl.
  - unfold fs_run. simpl. destruct (fs !! p) as [s|]; simpl; [|done].
    by rewrite append_empty_r.
  - unfold fs_run in *. simpl. rewrite IH, lookup_alter_eq.
    destruct (fs !! p) as [s|]; [|done].
    cbn [fmap option_fmap option_map]. by rewrite append_assoc.
Qed.

Section WriteFacts.
Context (h : host).

(** Every step before the final [os.replace] works on the temporary file. *)
Lemma atomic_write_ops_split (path : string) (payload : pydict) :
  exists pre,
    atomic_write_ops h path payload = pre ++ [Replace (path +:+ ".tmp") path] /\
    Forall (fun op => ~ touches op path) pre /\
    forall fs, fs_run pre fs !! (path +:+ ".tmp") = Some (json_dump h payload).
Proof.
  set (tmp := path +:+ ".tmp").
  assert (Hne : tmp <> path) by (apply append_neq; discriminate).
  exists ([MakeParentDirs path; OpenTrunc tmp]
          ++ (WriteChar tmp <$> chars (json_dump h payload))
          ++ [Flush tmp; Fsync tmp; Close tmp]).
  split; [|split].
  - unfold atomic_write_ops. fold tmp. by rewrite <-!app_assoc.
  - rewrite !Forall_app. repeat split.
    + repeat constructor; simpl; tauto.
    + apply Forall_fmap, Forall_true. intros c. simpl. tauto.
    + repeat constructor; simpl; tauto.
  - intros fs. rewrite !fs_run_app.
    rewrite fs_run_untouched by (repeat constructor; simpl; tauto).
    rewrite fs_run_writes. unfold fs_run. simpl. by rewrite lookup_insert_eq.
Qed.

(** The write cut after [k] steps: the target is untouched until the last
    step and holds the whole new text after it. *)
Lemma atomic_write_prefix (path : string) (payload : pydict)
    (fs : gmap string string) (k : nat) :
  ((k < length (atomic_write_ops h path payload))%nat ->
   fs_run (take k (atomic_write_ops h path payload)) fs !! path = fs !! path) /\
  ((length (atomic_write_ops h path payload) <= k)%nat ->
   fs_run (take k (atomic_write_ops h path payload)) fs !! path
   = Some (json_dump h payload)).
Proof.
  destruct (atomic_write_ops_split path payload) as (pre & -> & Hpre & Htmp).
  rewrite length_app. simpl. split; intros Hk.
  - rewrite take_app_le by lia. apply fs_run_untouched.
    by apply Forall_take.
  - rewrite take_ge by (rewrite length_app; simpl; lia).
    rewrite fs_run_app. unfold fs_run at 1. simpl.
    rewrite Htmp. by rewrite lookup_insert_eq.
Qed.

Lemma atomic_write_json_spec (fault : option nat) (path : string)
    (payload : pydict) (fs : gmap string string) :
  match _atomic_write_json h fault path payload fs with
  | (Ok _, fs') => fs' !! path = Some (json_dump h payload)
  | (Raise _, fs') => fs' !! path = fs !! path
  end.
Proof.
  unfold _atomic_write_json.
  pose proof (atomic_write_prefix path payload fs) as Hp.
  destruct fault as [k|].
  - destruct (Nat.ltb_spec k (length (atomic_write_ops h path payload))).
    + by apply Hp.
    + rewrite <-(take_ge (atomic_write_ops h path payload)
                   (length (atomic_write_ops h path payload))) at 1 by lia.
      by apply Hp.
  - rewrite <-(take_ge (atomic_write_ops h path payload)
                 (length (atomic_write_ops h path payload))) at 1 by lia.
    by apply Hp.
Qed.

End WriteFacts.

(** ** Cycles *)

Section CycleFacts.
Context (h : host) (cfg : Config).





End CycleFacts.



Example faulty_write_keeps_old :
  cycle_fails demo_host demo_cfg faulty_cycle = true /\
  (run_once demo_host demo_cfg faulty_cycle old_disk).2 !! "data.json"
  = Some "updated_at=2026-02-09 20:46:32" /\
  (run_once demo_host demo_cfg faulty_cycle old_disk).2 !! "data.json.tmp"
  = Some "upd" /\
  (run_once demo_host demo_cfg demo_cycle old_disk).2 !! "data.json"
  = Some "updated_at=2026-02-09 20:56:32" /\
  (run_once demo_host demo_cfg demo_cycle old_disk).2 !! "data.json.tmp" = None.
Proof. vm_compute. repeat split. Qed.

(** * Further properties *)

(** ** Configuration *)

Lemma isdecimal_not_sign (c : Ascii.ascii) :
  isdecimal c = true ->
  Ascii.eqb c "-"%char = false /\ Ascii.eqb c "+"%char = false /\
  Ascii.eqb c "_"%char = false.
Proof.
  destruct c as [[] [] [] [] [] [] [] []]; try discriminate; intros _; repeat split.
Qed.

Lemma literal_digits_decimal (s : string) :
  forall_chars isdecimal s = true -> literal_digits true s = Some s.
Proof.
  induction s as [|c s IH]; [done|].
  cbn [forall_chars literal_digits]. rewrite andb_true_iff. intros [Hc Hs].
  by rewrite Hc, (IH Hs).
Qed.

Lemma literal_digits_literal (s : string) :
  decimal_literal s = true -> literal_digits false s = Some s.
Proof.
  unfold decimal_literal. rewrite !andb_true_iff. intros [[Hne Hall] _].
  destruct s as [|c s]; [discriminate|].
  cbn [forall_chars literal_digits] in *. apply andb_true_iff in Hall as [Hc Hs].
  by rewrite Hc, (literal_digits_decimal _ Hs).
Qed.

Lemma decimal_literal_length (s : string) :
  decimal_literal s = true -> (int_max_str_digits <? String.length s)%nat = false.
Proof.
  unfold decimal_literal. rewrite !andb_true_iff. intros [_ Hlen].
  apply Nat.leb_le in Hlen. apply Nat.ltb_ge. lia.
Qed.

Lemma decimal_literal_head (s : string) :
  decimal_literal s = true -> exists c r, s = String c r /\ isdecimal c = true.
Proof.
  unfold decimal_literal. rewrite !andb_true_iff. intros [[Hne Hall] _].
  destruct s as [|c r]; [discriminate|].
  cbn [forall_chars] in Hall. apply andb_true_iff in Hall as [Hc _]. eauto.
Qed.

Lemma int_of_literal_plain (ds : string) :
  decimal_literal ds = true -> int_of_literal ds = Ok (parse_decimal 0 ds).
Proof.
  intros Hd. destruct (decimal_literal_head _ Hd) as (c & r & -> & Hc).
  destruct (isdecimal_not_sign c Hc) as (Hm & Hp & _).
  unfold int_of_literal. rewrite Hm, Hp.
  by rewrite (literal_digits_literal _ Hd), (decimal_literal_length _ Hd).
Qed.

Lemma int_of_literal_minus (ds : string) :
  decimal_literal ds = true ->
  int_of_literal (String "-" ds) = Ok (- parse_decimal 0 ds).
Proof.
  intros Hd. unfold int_of_literal. cbn [Ascii.eqb Bool.eqb].
  by rewrite (literal_digits_literal _ Hd), (decimal_literal_length _ Hd).
Qed.

Lemma int_of_literal_plus (ds : string) :
  decimal_literal ds = true ->
  int_of_literal (String "+" ds) = Ok (parse_decimal 0 ds).
Proof.
  intros Hd. unfold int_of_literal. cbn [Ascii.eqb Bool.eqb].
  by rewrite (literal_digits_literal _ Hd), (decimal_literal_length _ Hd).
Qed.

(** [int] of a string fails with [ValueError] only. *)
Lemma int_of_literal_cases (s : string) :
  (exists n, int_of_literal s = Ok n) \/
  (exists msg, int_of_literal s = Raise (ValueError msg)).
Proof.
  unfold int_of_literal.
  destruct (match s with String c r => _ | EmptyString => _ end) as [negative body].
  destruct (literal_digits false body) as [ds|]; [|eauto].
  destruct (_ <? _)%nat; eauto.
Qed.

Lemma env_int_literal (env : environ) (name : string) (default n : Z) :
  strip (getenv env name "") <> "" ->
  int_of_literal (strip (getenv env name "")) = Ok n ->
  _env_int env name default = Ok n.
Proof.
  intros Hne Hn. unfold _env_int.
  destruct (String.eqb_spec (strip (getenv env name "")) ""); [done|].
  by rewrite Hn.
Qed.

Lemma env_int_total (env : environ) (name : string) (default : Z) :
  exists n, _env_int env name default = Ok n /\
    (n = default \/ int_of_literal (strip (getenv env name "")) = Ok n).
Proof.
  unfold _env_int. destruct (String.eqb _ ""); [eauto|].
  destruct (int_of_literal_cases (strip (getenv env name ""))) as [[n Hn]|[msg Hn]];
    rewrite Hn; eauto.
Qed.

(** X1: [_env_int] never raises.  It answers the default when the variable
    is unset, blank or no integer literal, and otherwise the integer the
    trimmed text denotes: decimal digits with an optional sign. *)
Theorem X1_env_int (env : environ) (name : string) (default : Z) :
  (exists n, _env_int env name default = Ok n /\
     (n = default \/ int_of_literal (strip (getenv env name "")) = Ok n)) /\
  (env !! name = None -> _env_int env name default = Ok default) /\
  (strip (getenv env name "") = "" -> _env_int env name default = Ok default) /\
  (forall ds, decimal_literal ds = true ->
     (strip (getenv env name "") = ds ->
      _env_int env name default = Ok (parse_decimal 0 ds)) /\
     (strip (getenv env name "") = String "+" ds ->
      _env_int env name default = Ok (parse_decimal 0 ds)) /\
     (strip (getenv env name "") = String "-" ds ->
      _env_int env name default = Ok (- parse_decimal 0 ds))).
Proof.
  split; [apply env_int_total|]. split; [|split].
  - intros Hn. unfold _env_int, getenv. by rewrite Hn.
  - intros Hs. unfold _env_int. by rewrite Hs.
  - intros ds Hd. repeat split; intros Hs; apply env_int_literal; rewrite Hs.
    + destruct (decimal_literal_head _ Hd) as (c & r & -> & _). discriminate.
    + by apply int_of_literal_plain.
    + discriminate.
    + by apply int_of_literal_plus.
    + discriminate.
    + by apply int_of_literal_minus.
Qed.

(** Padded, underscored and signed values, and no literal at all. *)
Lemma X1_env_int_witness :
  _env_int demo_environ "UPDATE_INTERVAL_SEC" 600 = Ok 2 /\
  _env_int demo_environ "MAX_ITEMS" 50 = Ok 100 /\
  _env_int demo_environ "MAX_CONCURRENCY" 6 = Ok (-3) /\
  _env_int demo_environ "SESSDATA" 7 = Ok 7 /\
  _env_int demo_environ "MISSING" 7 = Ok 7.
Proof.
  destruct (X1_env_int demo_environ "UPDATE_INTERVAL_SEC" 600) as (_ & _ & _ & H1).
  destruct (X1_env_int demo_environ "MAX_CONCURRENCY" 6) as (_ & _ & _ & H3).
  destruct (X1_env_int demo_environ "SESSDATA" 7) as (_ & _ & H4 & _).
  destruct (X1_env_int demo_environ "MISSING" 7) as (_ & H5 & _).
  split; [exact (proj1 (H1 "2" eq_refl) eq_refl)|].
  split; [reflexivity|].
  split; [exact (proj2 (proj2 (H3 "3" eq_refl)) eq_refl)|].
  split; [exact (H4 eq_refl) | exact (H5 eq_refl)].
Defined.

(** X2: whatever the environment holds, [load_config] returns a
    configuration whose interval is at least 5 and whose item and
    concurrency limits are at least 1; unset variables give 600, 50 and 6,
    and the default output path. *)
Theorem X2_load_config_bounds (env : environ) :
  exists cfg, load_config env = Ok cfg /\
    5 <= update_interval_sec cfg /\ 1 <= max_items cfg /\ 1 <= max_concurrency cfg /\
    (env !! "UPDATE_INTERVAL_SEC" = None -> update_interval_sec cfg = 600) /\
    (env !! "MAX_ITEMS" = None -> max_items cfg = 50) /\
    (env !! "MAX_CONCURRENCY" = None -> max_concurrency cfg = 6) /\
    (env !! "OUTPUT_PATH" = None -> output_path cfg = "../data/data.json") /\
    sessdata cfg = strip (getenv env "SESSDATA" "") /\
    http_proxy cfg = strip (getenv env "HTTP_PROXY" "").
Proof.
  unfold load_config.
  destruct (env_int_total env "UPDATE_INTERVAL_SEC" 600) as (a & Ha & _).
  destruct (env_int_total env "MAX_ITEMS" 50) as (b & Hb & _).
  destruct (env_int_total env "MAX_CONCURRENCY" 6) as (c & Hc & _).
  rewrite Ha, bind_ok, Hb, bind_ok, Hc, bind_ok.
  eexists. split; [reflexivity|]. cbn [update_interval_sec max_items max_concurrency
    output_path sessdata http_proxy].
  repeat split; try lia.
  - intros Hn. unfold _env_int, getenv in Ha. rewrite Hn in Ha.
    injection Ha as <-. reflexivity.
  - intros Hn. unfold _env_int, getenv in Hb. rewrite Hn in Hb.
    injection Hb as <-. reflexivity.
  - intros Hn. unfold _env_int, getenv in Hc. rewrite Hn in Hc.
    injection Hc as <-. reflexivity.
  - intros Hn. unfold getenv. by rewrite Hn.
Qed.

(** The empty environment gives the defaults. *)
Lemma X2_load_config_bounds_witness :
  exists cfg, load_config ∅ = Ok cfg /\
    update_interval_sec cfg = 600 /\ max_items cfg = 50 /\ max_concurrency cfg = 6 /\
    output_path cfg = "../data/data.json".
Proof.
  destruct (X2_load_config_bounds ∅)
    as (cfg & H & _ & _ & _ & H1 & H2 & H3 & H4 & _).
  exists cfg. split; [exact H|].
  split; [apply H1; reflexivity|]. split; [apply H2; reflexivity|].
  split; [apply H3; reflexivity | apply H4; reflexivity].
Defined.

Example load_config_clamps :
  (fun r => match r with
            | Ok cfg => Some (update_interval_sec cfg, max_items cfg, max_concurrency cfg)
            | Raise _ => None
            end) (load_config demo_environ) = Some (5, 100, 1).
Proof. reflexivity. Qed.

Lemma lstrip_empty_iff (s : string) :
  lstrip s = "" <-> forall_chars isspace s = true.
Proof.
  induction s as [|c s IH]; [done|]. cbn [lstrip forall_chars].
  destruct (isspace c); [exact IH|]. split; discriminate.
Qed.

Lemma lstrip_head (s : string) (c : Ascii.ascii) (r : string) :
  lstrip s = String c r -> isspace c = false.
Proof.
  induction s as [|c' s IH]; [discriminate|]. cbn [lstrip].
  destruct (isspace c') eqn:Hc'; [exact IH|]. by intros [= <- _].
Qed.

Lemma rstrip_keeps_head (c : Ascii.ascii) (r : string) :
  isspace c = false -> rstrip (String c r) <> "".
Proof.
  intros Hc. cbn [rstrip]. destruct (rstrip r); [by rewrite Hc | done].
Qed.

Lemma strip_empty_iff (s : string) :
  strip s = "" <-> forall_chars isspace s = true.
Proof.
  rewrite <-lstrip_empty_iff. unfold strip. split.
  - destruct (lstrip s) as [|c r] eqn:Hl; [done|].
    intros Hr. by destruct (rstrip_keeps_head c r (lstrip_head _ _ _ Hl)).
  - by intros ->.
Qed.

(** X3: the cookie jar built from a loaded configuration holds the SESSDATA
    cookie, trimmed and non-empty, exactly when the variable has a
    character that is no white space, and never another cookie. *)
Theorem X3_cookies_of_environment (env : environ) (cfg : Config) :
  load_config env = Ok cfg ->
  (build_cookies cfg !! "SESSDATA" = None <->
   forall_chars isspace (getenv env "SESSDATA" "") = true) /\
  (forall v, build_cookies cfg !! "SESSDATA" = Some v ->
     v = strip (getenv env "SESSDATA" "") /\ v <> "") /\
  (forall k, k <> "SESSDATA" -> build_cookies cfg !! k = None).
Proof.
  intros Hcfg.
  assert (Hs : sessdata cfg = strip (getenv env "SESSDATA" "")).
  { unfold load_config in Hcfg.
    destruct (_env_int env "UPDATE_INTERVAL_SEC" 600); [|done].
    destruct (_env_int env "MAX_ITEMS" 50); [|done].
    destruct (_env_int env "MAX_CONCURRENCY" 6); [|done].
    rewrite !bind_ok in Hcfg. by injection Hcfg as <-. }
  unfold build_cookies. rewrite Hs, <-strip_empty_iff.
  destruct (String.eqb_spec (strip (getenv env "SESSDATA" "")) "") as [He|Hne];
    cbn [negb].
  - rewrite He. repeat split; try done.
  - split; [|split].
    + rewrite lookup_insert_eq. split; [discriminate | done].
    + intros v. rewrite lookup_insert_eq. by intros [= <-].
    + intros k Hk. by rewrite lookup_insert_ne.
Qed.

Lemma X3_cookies_of_environment_witness :
  forall_chars isspace (getenv demo_environ "SESSDATA" "") = true /\
  exists cfg, load_config demo_environ = Ok cfg /\
    build_cookies cfg !! "SESSDATA" = None.
Proof.
  split; [reflexivity|].
  destruct (load_config demo_environ) as [cfg|e] eqn:Hcfg; [|discriminate].
  exists cfg. split; [reflexivity|].
  destruct (X3_cookies_of_environment demo_environ cfg Hcfg) as [[_ H] _].
  apply H. reflexivity.
Defined.

(** ** The rate limiter *)

Section Limiter.
Context (wake : Q -> Q -> Q).
Hypothesis wake_punctual : forall now d, (now + d <= wake now d)%Q.

Lemma Qle_bool_false (a b : Q) : Qle_bool a b = false -> (b < a)%Q.
Proof.
  intros H. apply Qnot_le_lt. intros Hle. apply Qle_bool_iff in Hle. congruence.
Qed.

(** A caller is let through no earlier than it arrived and no earlier than
    the limiter's cursor; the cursor then stands one interval later. *)
Lemma RateLimiter_wait_spec (self : RateLimiter) (now : Q) :
  (0 < _min_interval_sec self)%Q ->
  let '(self', slept, granted) := RateLimiter_wait wake self now in
  _min_interval_sec self' = _min_interval_sec self /\
  _next_at self' = (granted + _min_interval_sec self)%Q /\
  (now <= granted)%Q /\ (_next_at self <= granted)%Q.
Proof.
  intros HT. unfold RateLimiter_wait.
  destruct (Qle_bool (_min_interval_sec self) 0) eqn:H0.
  { apply Qle_bool_iff in H0. lra. }
  destruct (Qle_bool (_next_at self) now) eqn:Hn; cbn [negb fst snd].
  - apply Qle_bool_iff in Hn. repeat split; [lra | done].
  - apply Qle_bool_false in Hn.
    pose proof (wake_punctual now (_next_at self - now)) as Hw.
    repeat split; lra.
Qed.

Lemma RateLimiter_run_lower (arrivals : list Q) : forall self : RateLimiter,
  (0 < _min_interval_sec self)%Q ->
  Forall (fun g => (_next_at self <= g)%Q) (RateLimiter_run wake self arrivals).
Proof.
  induction arrivals as [|now arrivals IH]; intros self HT; [constructor|].
  cbn [RateLimiter_run].
  pose proof (RateLimiter_wait_spec self now HT) as Hw.
  destruct (RateLimiter_wait wake self now) as [[self' slept] granted].
  destruct Hw as (HT' & Hnext & _ & Hg).
  constructor; [done|].
  eapply Forall_impl; [apply IH; by rewrite HT'|].
  intros g Hle. cbn beta in Hle. rewrite Hnext in Hle. lra.
Qed.

Lemma RateLimiter_run_spaced (arrivals : list Q) : forall self : RateLimiter,
  (0 < _min_interval_sec self)%Q ->
  forall i j a b, (i < j)%nat ->
    RateLimiter_run wake self arrivals !! i = Some a ->
    RateLimiter_run wake self arrivals !! j = Some b ->
    (a + _min_interval_sec self <= b)%Q.
Proof.
  induction arrivals as [|now arrivals IH]; intros self HT i j a b Hij Ha Hb; [done|].
  cbn [RateLimiter_run] in Ha, Hb.
  pose proof (RateLimiter_wait_spec self now HT) as Hw.
  destruct (RateLimiter_wait wake self now) as [[self' slept] granted].
  destruct Hw as (HT' & Hnext & _ & _).
  destruct j as [|j]; [lia|]. cbn in Hb.
  destruct i as [|i]; cbn in Ha.
  - injection Ha as <-.
    pose proof (RateLimiter_run_lower arrivals self' ltac:(by rewrite HT')) as Hl.
    rewrite Forall_forall in Hl.
    specialize (Hl b (list_elem_of_lookup_2 _ _ _ Hb)). cbn beta in Hl.
    rewrite Hnext in Hl. lra.
  - rewrite <-HT'. apply (IH self' ltac:(by rewrite HT') i j); [lia | done | done].
Qed.

Lemma RateLimiter_run_arrivals (arrivals : list Q) : forall self : RateLimiter,
  (0 < _min_interval_sec self)%Q ->
  Forall2 Qle arrivals (RateLimiter_run wake self arrivals).
Proof.
  induction arrivals as [|now arrivals IH]; intros self HT; [constructor|].
  cbn [RateLimiter_run].
  pose proof (RateLimiter_wait_spec self now HT) as Hw.
  destruct (RateLimiter_wait wake self now) as [[self' slept] granted].
  destruct Hw as (HT' & _ & Hnow & _).
  constructor; [done | apply IH; by rewrite HT'].
Qed.

End Limiter.

Lemma RateLimiter_run_disabled (wake : Q -> Q -> Q) (arrivals : list Q) :
  forall self : RateLimiter,
    (_min_interval_sec self <= 0)%Q ->
    RateLimiter_run wake self arrivals = arrivals.
Proof.
  induction arrivals as [|now arrivals IH]; intros self HT; [done|].
  cbn [RateLimiter_run]. unfold RateLimiter_wait.
  apply Qle_bool_iff in HT as HT'. rewrite HT'. f_equal. by apply IH.
Qed.

(** X4: with a positive minimum interval and sleeps that never return
    early, the callers of one rate limiter are let through at clock
    readings that lie at least the interval apart, pairwise, and no caller
    is let through before it arrived; a limiter built with an interval of
    zero or less lets every caller through at once. *)
Theorem X4_rate_limiter_spacing (wake : Q -> Q -> Q) (min_interval_sec : Q)
    (arrivals : list Q) :
  (forall now d, (now + d <= wake now d)%Q) ->
  ((0 < min_interval_sec)%Q ->
     Forall2 Qle arrivals
       (RateLimiter_run wake (RateLimiter_init min_interval_sec) arrivals) /\
     forall i j a b, (i < j)%nat ->
       RateLimiter_run wake (RateLimiter_init min_interval_sec) arrivals !! i = Some a ->
       RateLimiter_run wake (RateLimiter_init min_interval_sec) arrivals !! j = Some b ->
       (a + min_interval_sec <= b)%Q) /\
  ((min_interval_sec <= 0)%Q ->
     RateLimiter_run wake (RateLimiter_init min_interval_sec) arrivals = arrivals).
Proof.
  intros Hw. split.
  - intros HT.
    assert (Hinit : _min_interval_sec (RateLimiter_init min_interval_sec) = min_interval_sec).
    { unfold RateLimiter_init. cbn [_min_interval_sec].
      destruct (Qle_bool 0 min_interval_sec) eqn:H0; [done|].
      apply Qle_bool_false in H0. lra. }
    split.
    + apply RateLimiter_run_arrivals; [done | by rewrite Hinit].
    + intros i j a b Hij Ha Hb.
      pose proof (RateLimiter_run_spaced wake Hw arrivals
                    (RateLimiter_init min_interval_sec) ltac:(by rewrite Hinit)
                    i j a b Hij Ha Hb) as H.
      by rewrite Hinit in H.
  - intros HT. apply RateLimiter_run_disabled.
    unfold RateLimiter_init. cbn [_min_interval_sec].
    destruct (Qle_bool 0 min_interval_sec); [done | lra].
Qed.

(** Three callers that arrive together at the limiter of [build_payload]
    (800 ms) are let through 0.8 apart. *)
Lemma X4_rate_limiter_spacing_witness :
  length (RateLimiter_run (fun now d => (now + d)%Q) (RateLimiter_init (8 # 10))
            [1; 1; 1]%Q) = 3%nat /\
  forall i j a b, (i < j)%nat ->
    RateLimiter_run (fun now d => (now + d)%Q) (RateLimiter_init (8 # 10)) [1; 1; 1]%Q
      !! i = Some a ->
    RateLimiter_run (fun now d => (now + d)%Q) (RateLimiter_init (8 # 10)) [1; 1; 1]%Q
      !! j = Some b ->
    (a + (8 # 10) <= b)%Q.
Proof.
  split; [reflexivity|].
  apply (X4_rate_limiter_spacing (fun now d => (now + d)%Q) (8 # 10) [1; 1; 1]%Q).
  - intros now d. lra.
  - reflexivity.
Defined.

(** ** The request budget of the retrying fetcher *)

Lemma limiter_waits_app (t1 t2 : list event) :
  limiter_waits (t1 ++ t2) = (limiter_waits t1 + limiter_waits t2)%nat.
Proof. unfold limiter_waits. by rewrite omap_app, length_app. Qed.

Section RetryShape.
Context (url : string) (params : pydict) (limiter : bool) (retries : Z)
        (base : Q) (env : call_env).

Local Abbreviation loop := (retry_loop url params limiter retries base env).
Local Abbreviation bo := (fun i => backoff base i (rand53 env i)).

(** Every run of the loop is a number of failed rounds, closed by a
    successful round or by the final raise. *)
Lemma retry_loop_shape (todo : nat) : forall (a : nat) (last : option exn),
  (exists k d, (k < todo)%nat /\ (loop todo a last).1 = Ok d /\
     gets (loop todo a last).2 = replicate (S k) (url, params) /\
     sleeps (loop todo a last).2 = bo <$> seq a k /\
     limiter_waits (loop todo a last).2 = if limiter then S k else 0%nat) \/
  ((exists e, (loop todo a last).1 = Raise e) /\
     gets (loop todo a last).2 = replicate todo (url, params) /\
     sleeps (loop todo a last).2 = bo <$> seq a todo /\
     limiter_waits (loop todo a last).2 = if limiter then todo else 0%nat).
Proof.
  induction todo as [|todo IH]; intros a last.
  - right. simpl. destruct last; simpl; (split; [eauto|]); by destruct limiter.
  - destruct (attempt_once (answer env a)) as [d|e] eqn:Hat.
    + left. exists 0%nat, d. rewrite (retry_loop_ok _ _ _ _ _ _ _ _ _ _ Hat).
      unfold good_round. split; [lia|]. by destruct limiter.
    + rewrite (retry_loop_fail _ _ _ _ _ _ _ _ _ _ Hat). cbn [fst snd].
      rewrite sleeps_app, gets_app, limiter_waits_app,
        sleeps_failed_round, gets_failed_round.
      assert (Hw : limiter_waits (failed_round url params limiter retries base env a e)
                   = if limiter then 1%nat else 0%nat).
      { unfold failed_round. by destruct limiter. }
      rewrite Hw.
      destruct (IH (S a) (Some e))
        as [(k & d & Hk & H1 & H2 & H3 & H4)|(H1 & H2 & H3 & H4)].
      * left. exists (S k), d. rewrite H1, H2, H3, H4.
        split; [lia|]. by destruct limiter.
      * right. rewrite H2, H3, H4. split; [done|]. by destruct limiter.
Qed.

End RetryShape.

Section WaitOrder.
Context (url : string) (params : pydict) (retries : Z) (base : Q) (env : call_env).

(** With a limiter, each round of the loop waits on it and then issues its
    GET, with nothing in between. *)
Lemma retry_loop_waits_before_gets (todo : nat) :
  forall (a : nat) (last : option exn) (rest : list event),
    waits_before_gets
      ((retry_loop url params true retries base env todo a last).2 ++ rest)
    = waits_before_gets rest.
Proof.
  induction todo as [|todo IH]; intros a last rest.
  - by destruct last.
  - destruct (attempt_once (answer env a)) as [d|e] eqn:Hat.
    + by rewrite (retry_loop_ok _ _ _ _ _ _ _ _ _ _ Hat).
    + rewrite (retry_loop_fail _ _ _ _ _ _ _ _ _ _ Hat). cbn [snd].
      rewrite <-app_assoc. unfold failed_round.
      cbn [app waits_before_gets]. apply IH.
Qed.

(** Without a limiter a GET is preceded by no wait. *)
Lemma retry_loop_no_limiter (todo : nat) :
  forall (a : nat) (last : option exn),
    waits_before_gets (retry_loop url params false retries base env todo a last).2
    = Nat.eqb (length (gets (retry_loop url params false retries base env
                               todo a last).2)) 0.
Proof.
  destruct todo as [|todo]; intros a last.
  - by destruct last.
  - destruct (attempt_once (answer env a)) as [d|e] eqn:Hat.
    + by rewrite (retry_loop_ok _ _ _ _ _ _ _ _ _ _ Hat).
    + by rewrite (retry_loop_fail _ _ _ _ _ _ _ _ _ _ Hat).
Qed.

End WaitOrder.

(** X5: a call of the retrying fetcher issues at most [retries] GETs, all
    with its own url and parameters; with a limiter it waits on it exactly
    once before each GET, the wait directly before the GET, and without one
    never; it sleeps once per failed attempt; and a successful call has
    issued at least one GET. *)
Theorem X5_request_budget (url : string) (params : pydict) (limiter : bool)
    (retries : Z) (base : Q) (env : call_env) :
  exists k, (k <= Z.to_nat retries)%nat /\
    gets (_get_json_with_retry url params limiter retries base env).2
    = replicate k (url, params) /\
    limiter_waits (_get_json_with_retry url params limiter retries base env).2
    = (if limiter then k else 0%nat) /\
    waits_before_gets (_get_json_with_retry url params limiter retries base env).2
    = limiter || Nat.eqb k 0 /\
    length (sleeps (_get_json_with_retry url params limiter retries base env).2)
    = (if is_ok (_get_json_with_retry url params limiter retries base env).1
       then k - 1 else k)%nat /\
    (if is_ok (_get_json_with_retry url params limiter retries base env).1
     then 1 <= k else k = Z.to_nat retries)%nat.
Proof.
  assert (Hord : waits_before_gets
                   (_get_json_with_retry url params limiter retries base env).2
                 = limiter
                   || Nat.eqb (length (gets (_get_json_with_retry url params limiter
                                               retries base env).2)) 0).
  { unfold _get_json_with_retry. destruct limiter.
    - rewrite <-(app_nil_r (retry_loop _ _ _ _ _ _ _ _ _).2).
      by rewrite retry_loop_waits_before_gets.
    - apply retry_loop_no_limiter. }
  rewrite Hord. clear Hord. unfold _get_json_with_retry.
  destruct (retry_loop_shape url params limiter retries base env
              (Z.to_nat retries) 0 None)
    as [(k & d & Hk & H1 & H2 & H3 & H4)|((e & H1) & H2 & H3 & H4)].
  - exists (S k). rewrite H1, H2, H3, H4. cbn [is_ok].
    rewrite length_fmap, length_seq, length_replicate. repeat split; lia.
  - exists (Z.to_nat retries). rewrite H1, H2, H3, H4. cbn [is_ok].
    rewrite length_fmap, length_seq, length_replicate. repeat split; lia.
Qed.

(** A call with the limiter of [build_payload] whose first two attempts
    fail, and a call without a limiter. *)
Lemma X5_request_budget_witness :
  waits_before_gets (_get_json_with_retry VIEW_API ∅ true 3 default_backoff flaky).2 = true /\
  limiter_waits (_get_json_with_retry VIEW_API ∅ true 3 default_backoff flaky).2 = 3%nat /\
  waits_before_gets (_get_json_with_retry VIEW_API ∅ false 3 default_backoff flaky).2 = false.
Proof.
  destruct (X5_request_budget VIEW_API ∅ true 3 default_backoff flaky)
    as (k & _ & Hg & Hw & Ho & _).
  destruct (X5_request_budget VIEW_API ∅ false 3 default_backoff flaky)
    as (k' & _ & Hg' & _ & Ho' & _).
  assert (Hk : k = 3%nat).
  { apply (f_equal length) in Hg. rewrite length_replicate in Hg. by rewrite <-Hg. }
  assert (Hk' : k' = 3%nat).
  { apply (f_equal length) in Hg'. rewrite length_replicate in Hg'. by rewrite <-Hg'. }
  rewrite Ho, Hw, Ho', Hk, Hk'. repeat split.
Defined.

(** ** The time a call spends backing off *)

Lemma pow2_succ (a : nat) :
  (inject_Z (2 ^ Z.of_nat (S a)) == 2 * inject_Z (2 ^ Z.of_nat a))%Q.
Proof.
  rewrite Nat2Z.inj_succ, Z.pow_succ_r by lia. by rewrite inject_Z_mult.
Qed.

Lemma pow2_ge_1 (a : nat) : (1 <= inject_Z (2 ^ Z.of_nat a))%Q.
Proof.
  change 1%Q with (inject_Z 1). rewrite <-Zle_Qle.
  pose proof (Z.pow_pos_nonneg 2 (Z.of_nat a)). lia.
Qed.

Lemma pow2_mono (k n : nat) :
  (k <= n)%nat -> (inject_Z (2 ^ Z.of_nat k) <= inject_Z (2 ^ Z.of_nat n))%Q.
Proof. intros H. rewrite <-Zle_Qle. apply Z.pow_le_mono_r; lia. Qed.

Lemma total_backoffs (base : Q) (bits : nat -> N) (k : nat) : forall a : nat,
  (base * (inject_Z (2 ^ Z.of_nat (a + k)) - inject_Z (2 ^ Z.of_nat a))
   <= total ((fun i => backoff base i (bits i)) <$> seq a k))%Q /\
  (total ((fun i => backoff base i (bits i)) <$> seq a k)
   <= base * (inject_Z (2 ^ Z.of_nat (a + k)) - inject_Z (2 ^ Z.of_nat a))
      + (2 # 10) * inject_Z (Z.of_nat k))%Q.
Proof.
  induction k as [|k IH]; intros a.
  - rewrite Nat.add_0_r. cbn [seq fmap list_fmap total foldr].
    change (inject_Z (Z.of_nat 0)) with 0%Q.
    set (X := inject_Z _).
    assert (H : (base * (X - X) == 0)%Q) by ring.
    rewrite H. split; lra.
  - cbn [seq fmap list_fmap total foldr].
    fold (total ((fun i => backoff base i (bits i)) <$> seq (S a) k)).
    destruct (IH (S a)) as [Hlo Hhi].
    replace (a + S k)%nat with (S a + k)%nat by lia.
    pose proof (pow2_succ a) as Hp.
    destruct (backoff_range base a (bits a)) as [Hb1 Hb2].
    rewrite Nat2Z.inj_succ. unfold Z.succ. rewrite inject_Z_plus.
    set (X := inject_Z (2 ^ Z.of_nat (S a + k))) in *.
    set (Y := inject_Z (2 ^ Z.of_nat (S a))) in *.
    set (W := inject_Z (2 ^ Z.of_nat a)) in *.
    set (T := total _) in *. set (B := backoff base a (bits a)) in *.
    set (K := inject_Z (Z.of_nat k)) in *.
    change (inject_Z 1) with 1%Q.
    assert (HY : (base * Y == 2 * (base * W))%Q) by (rewrite Hp; ring).
    split; lra.
Qed.

(** X6: with a base backoff that is not negative, all the sleeps of one
    call add up to at most [base * (2^retries - 1) + 0.2 * retries]; a call
    that fails has slept at least [base * (2^retries - 1)]. *)
Theorem X6_backoff_total (url : string) (params : pydict) (limiter : bool)
    (retries : Z) (base : Q) (env : call_env) :
  (0 <= base)%Q ->
  (total (sleeps (_get_json_with_retry url params limiter retries base env).2)
   <= base * (inject_Z (2 ^ Z.of_nat (Z.to_nat retries)) - 1)
      + (2 # 10) * inject_Z (Z.of_nat (Z.to_nat retries)))%Q /\
  (is_ok (_get_json_with_retry url params limiter retries base env).1 = false ->
   (base * (inject_Z (2 ^ Z.of_nat (Z.to_nat retries)) - 1)
    <= total (sleeps (_get_json_with_retry url params limiter retries base env).2))%Q).
Proof.
  intros Hbase. unfold _get_json_with_retry.
  set (n := Z.to_nat retries).
  destruct (retry_loop_shape url params limiter retries base env n 0 None)
    as [(k & d & Hk & H1 & _ & H3 & _)|((e & H1) & _ & H3 & _)];
    rewrite H1, H3; cbn [is_ok].
  - destruct (total_backoffs base (rand53 env) k 0) as [_ Hhi].
    cbn [Nat.add] in Hhi. change (inject_Z (2 ^ Z.of_nat 0)) with 1%Q in Hhi.
    split; [|discriminate].
    pose proof (pow2_mono k n ltac:(lia)) as Hp.
    assert (Hkn : (inject_Z (Z.of_nat k) <= inject_Z (Z.of_nat n))%Q)
      by (rewrite <-Zle_Qle; lia).
    assert (Hm : (base * inject_Z (2 ^ Z.of_nat k) <= base * inject_Z (2 ^ Z.of_nat n))%Q).
    { rewrite !(Qmult_comm base). by apply Qmult_le_compat_r. }
    set (X := inject_Z (2 ^ Z.of_nat k)) in *.
    set (Y := inject_Z (2 ^ Z.of_nat n)) in *.
    set (T := total _) in *. lra.
  - destruct (total_backoffs base (rand53 env) n 0) as [Hlo Hhi].
    cbn [Nat.add] in Hlo, Hhi.
    change (inject_Z (2 ^ Z.of_nat 0)) with 1%Q in Hlo, Hhi.
    split; [exact Hhi | intros _; exact Hlo].
Qed.

(** With the defaults a call that fails has slept between 4.2 and 4.8. *)
Lemma X6_backoff_total_witness :
  (total (sleeps (_get_json_with_retry VIEW_API ∅ true 3 default_backoff down).2)
   <= 48 # 10)%Q /\
  (42 # 10
   <= total (sleeps (_get_json_with_retry VIEW_API ∅ true 3 default_backoff down).2))%Q.
Proof.
  destruct (X6_backoff_total VIEW_API ∅ true 3 default_backoff down) as [Hhi Hlo].
  - discriminate.
  - split.
    + eapply Qle_trans; [exact Hhi | discriminate].
    + eapply Qle_trans; [|exact (Hlo eq_refl)]. discriminate.
Defined.

(** ** The events of an enrichment *)

Lemma snd_bind {A B} (m : M A) (k : A -> M B) :
  (m ≫= k).2 = m.2 ++ match m.1 with Ok a => (k a).2 | Raise _ => [] end.
Proof.
  destruct m as [[a|e] t]; simpl; [by destruct (k a) | by rewrite app_nil_r].
Qed.

Lemma snd_with_sem {A} (m : M A) :
  (with_sem m).2 = [EvAcquire] ++ m.2 ++ [EvRelease].
Proof. by destruct m. Qed.

Lemma snd_lift_bind {A B} (r : result A) (k : A -> M B) :
  (lift r ≫= k).2 = match r with Ok a => (k a).2 | Raise _ => [] end.
Proof. by rewrite snd_bind. Qed.

Section EnrichTrace.
Context (h : host).

(** The events of an enrichment are those of the detail call, between
    taking and giving back a permit, and then those of the online call,
    again between taking and giving back a permit, when that call is
    made. *)
Lemma enrich_video_trace (env : enrich_env) (raw : pydict) (bvid : string) :
  py_get raw "bvid" = PStr bvid -> bvid <> "" ->
  (enrich_video h env raw).2
  = [EvAcquire] ++ view_trace env bvid ++ [EvRelease]
    ++ match online_cid h env raw bvid with
       | Some c => [EvAcquire] ++ online_trace env bvid c ++ [EvRelease]
       | None => []
       end.
Proof.
  intros Hb Hne. unfold enrich_video, online_cid, view_result, view_trace.
  rewrite Hb. cbn [as_str]. destruct (String.eqb_spec bvid ""); [done|].
  rewrite snd_bind, snd_with_sem, fst_with_sem, <-!app_assoc.
  do 3 f_equal.
  destruct (_get_json_with_retry VIEW_API _ _ _ _ _).1 as [view_raw|e];
    [|by rewrite bind_raise].
  rewrite bind_ok, snd_lift_bind.
  destruct (get_attr _) as [vd|e]; [|by rewrite bind_raise].
  rewrite bind_ok, snd_lift_bind.
  destruct (_safe_int (py_get vd "cid")) as [cid|e]; [|by rewrite bind_raise].
  rewrite bind_ok, snd_bind.
  fold (resolved_stat raw vd).
  match goal with
  | |- ?m.2 ++ _ = _ =>
      assert (Hc : m = lift (counts_of (resolved_stat raw vd)))
  end.
  { unfold counts_of. destruct (as_dict _) as [stat|]; [|done].
    destruct (_safe_int (py_get stat "view")) as [view|e]; [|done].
    by destruct (_safe_int (py_get stat "danmaku")). }
  rewrite Hc. cbn [lift fst snd app].
  destruct (counts_of _) as [[view danmaku]|e]; [|by rewrite bind_raise].
  rewrite bind_ok. cbv beta iota. rewrite snd_lift_bind.
  fold (resolved_pubdate raw vd).
  destruct (strftime_local h _) as [pubdate|e]; [|by rewrite bind_raise].
  rewrite bind_ok, snd_bind.
  destruct cid as [c|]; [|done].
  destruct (c =? 0); [done|].
  rewrite snd_bind, snd_with_sem, fst_bind, fst_with_sem. unfold online_trace.
  destruct (_get_json_with_retry ONLINE_API _ _ _ _ _) as [[online_raw|e] t];
    cbn [fst snd].
  2:{ rewrite bind_raise. cbv iota. by rewrite !app_nil_r. }
  rewrite bind_ok.
  match goal with
  | |- (_ ++ ?m.2) ++ match ?m.1 with _ => _ end = _ =>
      assert (Ho : m.2 = []); [|rewrite Ho; destruct m.1 as [[ot oc]|e']]
  end.
  - destruct (py_eq_zero _); [|done].
    destruct (or_empty_dict _) as [| | | | | |d]; try done.
    by destruct (_safe_int (py_get d "count")).
  - cbn [mret M_ret snd]. by rewrite !app_nil_r.
  - by rewrite !app_nil_r.
Qed.

End EnrichTrace.

Section CallEvents.
Context (url : string) (params : pydict) (limiter : bool) (retries : Z)
        (base : Q) (env : call_env).

(** A call made while a permit is held neither takes nor gives back one. *)
Lemma retry_loop_under_permit (todo : nat) :
  forall (a : nat) (last : option exn) (rest : list event),
    under_permit true
      ((retry_loop url params limiter retries base env todo a last).2 ++ rest)
    = under_permit true rest.
Proof.
  induction todo as [|todo IH]; intros a last rest.
  - by destruct last.
  - destruct (attempt_once (answer env a)) as [d|e] eqn:Hat.
    + rewrite (retry_loop_ok _ _ _ _ _ _ _ _ _ _ Hat).
      unfold good_round. by destruct limiter.
    + rewrite (retry_loop_fail _ _ _ _ _ _ _ _ _ _ Hat). cbn [snd].
      rewrite <-app_assoc. unfold failed_round.
      destruct limiter; simpl; apply IH.
Qed.

Lemma get_json_budget :
  exists k, (k <= Z.to_nat retries)%nat /\
    gets (_get_json_with_retry url params limiter retries base env).2
    = replicate k (url, params) /\
    limiter_waits (_get_json_with_retry url params limiter retries base env).2
    = if limiter then k else 0%nat.
Proof.
  unfold _get_json_with_retry.
  destruct (retry_loop_shape url params limiter retries base env
              (Z.to_nat retries) 0 None)
    as [(k & d & Hk & _ & H2 & _ & H4)|(_ & H2 & _ & H4)].
  - exists (S k). rewrite H2, H4. split; [lia | done].
  - exists (Z.to_nat retries). rewrite H2, H4. split; [lia | done].
Qed.

End CallEvents.

Lemma under_permit_call (url : string) (params : pydict) (env : call_env)
    (rest : list event) :
  under_permit false
    ([EvAcquire]
     ++ (_get_json_with_retry url params true default_retries default_backoff env).2
     ++ [EvRelease] ++ rest)
  = under_permit false rest.
Proof.
  cbn [app under_permit negb andb]. unfold _get_json_with_retry.
  by rewrite retry_loop_under_permit.
Qed.

(** The events of one enrichment, whatever it meets. *)
Lemma enrich_video_events (h : host) (env : enrich_env) (raw : pydict) :
  under_permit false (enrich_video h env raw).2 = true /\
  (length (gets (enrich_video h env raw).2) <= 6)%nat /\
  limiter_waits (enrich_video h env raw).2
  = length (gets (enrich_video h env raw).2) /\
  forall url params, (url, params) ∈ gets (enrich_video h env raw).2 ->
    url = VIEW_API \/ url = ONLINE_API.
Proof.
  destruct (valid_bvid raw) eqn:Hv.
  2:{ rewrite (enrich_video_invalid h env raw Hv). cbn.
      repeat split; [lia|]. intros url params H. by apply elem_of_nil in H. }
  destruct (valid_bvid_inv _ Hv) as (bvid & Hb & Hne).
  rewrite (enrich_video_trace h env raw bvid Hb Hne).
  unfold view_trace, online_trace.
  destruct (get_json_budget VIEW_API {["bvid" := PStr bvid]} true default_retries
              default_backoff (view_call env)) as (k & Hk & Hg & Hw).
  change (Z.to_nat default_retries) with 3%nat in Hk.
  split; [|].
  - rewrite under_permit_call. destruct (online_cid _ _ _ _) as [c|]; [|done].
    rewrite <-(app_nil_r [EvRelease]). by rewrite under_permit_call.
  - rewrite !gets_app, !limiter_waits_app, Hg, Hw.
    destruct (online_cid _ _ _ _) as [c|].
    + destruct (get_json_budget ONLINE_API (<["bvid" := PStr bvid]> {["cid" := PInt c]})
                  true default_retries default_backoff (online_call env))
        as (k' & Hk' & Hg' & Hw').
      change (Z.to_nat default_retries) with 3%nat in Hk'.
      rewrite !gets_app, !limiter_waits_app, Hg', Hw'. cbn [gets omap list_omap app].
      change (limiter_waits [EvAcquire]) with 0%nat.
      change (limiter_waits [EvRelease]) with 0%nat.
      rewrite !app_nil_r, !length_app, !length_replicate.
      split; [lia|]. split; [lia|].
      intros url params H. apply elem_of_app in H as [H|H];
        apply elem_of_replicate in H as [H _]; injection H as -> _; auto.
    + cbn [gets omap list_omap app].
      change (limiter_waits [EvAcquire]) with 0%nat.
      change (limiter_waits [EvRelease]) with 0%nat.
      change (limiter_waits []) with 0%nat.
      rewrite !app_nil_r, !length_replicate.
      split; [lia|]. split; [lia|].
      intros url params H. apply elem_of_replicate in H as [H _].
      injection H as -> _. auto.
Qed.

Lemma waits_before_gets_call (url : string) (params : pydict) (env : call_env)
    (rest : list event) :
  waits_before_gets
    ([EvAcquire]
     ++ (_get_json_with_retry url params true default_retries default_backoff env).2
     ++ [EvRelease] ++ rest)
  = waits_before_gets rest.
Proof.
  cbn [app waits_before_gets]. unfold _get_json_with_retry.
  by rewrite retry_loop_waits_before_gets.
Qed.

Lemma online_cid_nonzero (h : host) (env : enrich_env) (raw : pydict)
    (bvid : string) (c : Z) :
  online_cid h env raw bvid = Some c -> c <> 0.
Proof.
  unfold online_cid. destruct (_ ≫= _) as [[c'|]|e]; try done.
  destruct (Z.eqb_spec c' 0); [done|]. by intros [= <-].
Qed.

(** X7: whatever the entry and whatever the network answers, the events
    of an enrichment are: nothing for an entry without a valid identifier;
    otherwise a permit taken, the events of the one detail call, the permit
    given back, and then, when the online call is made, a second permit
    taken, the events of that one call, the permit given back.  So each
    call has a permit of its own, given back also when the call fails, and
    every GET, limiter wait and backoff sleep happens while a permit is
    held; every GET comes directly after a limiter wait of its own; there
    are at most six GETs, and they go to the detail and the online endpoint
    only. *)
Theorem X7_permit_discipline (h : host) (env : enrich_env) (raw : pydict) :
  ((valid_bvid raw = false /\ (enrich_video h env raw).2 = []) \/
   exists bvid, py_get raw "bvid" = PStr bvid /\ bvid <> "" /\
     ((enrich_video h env raw).2
      = [EvAcquire] ++ view_trace env bvid ++ [EvRelease] \/
      exists c, c <> 0 /\
        (enrich_video h env raw).2
        = [EvAcquire] ++ view_trace env bvid ++ [EvRelease]
          ++ [EvAcquire] ++ online_trace env bvid c ++ [EvRelease])) /\
  under_permit false (enrich_video h env raw).2 = true /\
  waits_before_gets (enrich_video h env raw).2 = true /\
  (length (gets (enrich_video h env raw).2) <= 6)%nat /\
  limiter_waits (enrich_video h env raw).2
  = length (gets (enrich_video h env raw).2) /\
  forall url params, (url, params) ∈ gets (enrich_video h env raw).2 ->
    url = VIEW_API \/ url = ONLINE_API.
Proof.
  destruct (enrich_video_events h env raw) as (Hp & H6 & Hw & Hu).
  assert (Hshape :
    (valid_bvid raw = false /\ (enrich_video h env raw).2 = []) \/
    exists bvid, py_get raw "bvid" = PStr bvid /\ bvid <> "" /\
      ((enrich_video h env raw).2
       = [EvAcquire] ++ view_trace env bvid ++ [EvRelease] \/
       exists c, c <> 0 /\
         (enrich_video h env raw).2
         = [EvAcquire] ++ view_trace env bvid ++ [EvRelease]
           ++ [EvAcquire] ++ online_trace env bvid c ++ [EvRelease])).
  { destruct (valid_bvid raw) eqn:Hv.
    - right. destruct (valid_bvid_inv _ Hv) as (bvid & Hb & Hne).
      exists bvid. split; [done|]. split; [done|].
      rewrite (enrich_video_trace h env raw bvid Hb Hne).
      destruct (online_cid h env raw bvid) as [c|] eqn:Hc.
      + right. exists c. split; [by eapply online_cid_nonzero | done].
      + left. by rewrite app_nil_r.
    - left. by rewrite (enrich_video_invalid h env raw Hv). }
  split; [exact Hshape|]. split; [exact Hp|]. split; [|by repeat split].
  destruct Hshape as [[_ ->]|(bvid & _ & _ & [->|(c & _ & ->)])]; [done| |].
  - rewrite <-(app_nil_r [EvRelease]). unfold view_trace.
    by rewrite waits_before_gets_call.
  - unfold view_trace, online_trace. rewrite waits_before_gets_call.
    rewrite <-(app_nil_r [EvRelease]). by rewrite waits_before_gets_call.
Qed.

(** An entry whose detail call fails twice before it answers and whose
    online call answers at once. *)
Lemma X7_permit_discipline_witness :
  (enrich_video demo_host
     {| view_call := flaky; online_call := ok_json (online_json "5" 5) |}
     (raw_bare "BV1")).2
  = [EvAcquire]
    ++ view_trace {| view_call := flaky; online_call := ok_json (online_json "5" 5) |} "BV1"
    ++ [EvRelease] /\
  waits_before_gets
    (enrich_video demo_host
       {| view_call := flaky; online_call := ok_json (online_json "5" 5) |}
       (raw_bare "BV1")).2 = true /\
  length (gets (enrich_video demo_host
                  {| view_call := flaky; online_call := ok_json (online_json "5" 5) |}
                  (raw_bare "BV1")).2) = 3%nat.
Proof.
  destruct (X7_permit_discipline demo_host
              {| view_call := flaky; online_call := ok_json (online_json "5" 5) |}
              (raw_bare "BV1")) as (_ & _ & Hw & _).
  split; [reflexivity|]. split; [exact Hw | reflexivity].
Defined.

Section NoCid.
Context (h : host).

Lemma online_cid_none (env : enrich_env) (raw : pydict) (bvid : string)
    (view_raw vd : pydict) (cid : option Z) :
  view_result env bvid = Ok view_raw ->
  or_empty_dict (py_get view_raw "data") = PDict vd ->
  _safe_int (py_get vd "cid") = Ok cid ->
  cid = None \/ cid = Some 0 ->
  online_cid h env raw bvid = None.
Proof.
  intros Hview Hvd Hcid Hc. unfold online_cid.
  rewrite Hview, bind_ok, Hvd. cbn [get_attr]. rewrite bind_ok, Hcid, bind_ok.
  destruct (counts_of _); [|done]. rewrite bind_ok.
  destruct (strftime_local _ _); [|done]. rewrite bind_ok.
  by destruct Hc as [->| ->].
Qed.

End NoCid.

(** X8: when the detail data carries no usable channel id (none, null,
    text that is no number, or zero), the enrichment makes the detail call
    and nothing else: the online endpoint is not asked, and an item that is
    returned has null online fields. *)
Theorem X8_no_cid (h : host) (env : enrich_env) (raw : pydict) (bvid : string)
    (view_raw vd : pydict) :
  py_get raw "bvid" = PStr bvid -> bvid <> "" ->
  view_result env bvid = Ok view_raw ->
  or_empty_dict (py_get view_raw "data") = PDict vd ->
  _safe_int (py_get vd "cid") = Ok None \/ _safe_int (py_get vd "cid") = Ok (Some 0) ->
  (enrich_video h env raw).2 = [EvAcquire] ++ view_trace env bvid ++ [EvRelease] /\
  (forall params, (ONLINE_API, params) ∉ gets (enrich_video h env raw).2) /\
  (forall item, (enrich_video h env raw).1 = Ok item ->
     item !! "online_total" = Some PNone /\ item !! "online_count" = Some PNone).
Proof.
  intros Hb Hne Hview Hvd Hcid.
  assert (Hnone : online_cid h env raw bvid = None).
  { destruct Hcid as [Hcid|Hcid];
      eapply (online_cid_none h env raw bvid view_raw vd _ Hview Hvd Hcid); auto. }
  assert (Ht : (enrich_video h env raw).2
               = [EvAcquire] ++ view_trace env bvid ++ [EvRelease]).
  { by rewrite (enrich_video_trace h env raw bvid Hb Hne), Hnone, app_nil_r. }
  split; [exact Ht|]. split.
  - intros params. rewrite Ht, !gets_app. cbn [gets omap list_omap app].
    rewrite app_nil_r. unfold view_trace.
    destruct (get_json_budget VIEW_API {["bvid" := PStr bvid]} true default_retries
                default_backoff (view_call env)) as (k & _ & -> & _).
    intros H. apply elem_of_replicate in H as [H _]. discriminate.
  - intros item Hok.
    destruct (enrich_video_ok_inv h env raw item Hok)
      as (bvid' & view_raw' & vd' & cid & counts & pubdate & online
          & Hb' & _ & Hview' & Hvd' & Hcid' & _ & _ & Hon & ->).
    rewrite Hb in Hb'. injection Hb' as <-.
    rewrite Hview in Hview'. injection Hview' as <-.
    rewrite Hvd in Hvd'. injection Hvd' as <-.
    assert (Hon' : online = (PNone, None)).
    { destruct Hcid as [Hcid|Hcid]; rewrite Hcid in Hcid'; injection Hcid' as <-;
        simpl in Hon; congruence. }
    subst online.
    pose proof (item_of_lookup bvid (resolved_title raw vd bvid) (resolved_pic raw vd)
                  (resolved_owner raw vd) PNone None counts.1 counts.2 pubdate) as Hl.
    cbv zeta in Hl. tauto.
Qed.

(** An entry whose detail data has channel id 0. *)
Lemma X8_no_cid_witness :
  gets (enrich_video demo_host (env_ok 0 "one" 100 7 "5" 5) (raw_bare "BV1")).2
  = [(VIEW_API, {["bvid" := PStr "BV1"]})] /\
  (forall params,
     (ONLINE_API, params)
     ∉ gets (enrich_video demo_host (env_ok 0 "one" 100 7 "5" 5) (raw_bare "BV1")).2).
Proof.
  destruct (X8_no_cid demo_host (env_ok 0 "one" 100 7 "5" 5) (raw_bare "BV1") "BV1"
              (view_json 0 "one" 100 7) (view_data 0 "one" 100 7))
    as (Ht & Hn & _).
  - reflexivity.
  - discriminate.
  - reflexivity.
  - reflexivity.
  - right. reflexivity.
  - split; [|exact Hn]. rewrite Ht. reflexivity.
Defined.

(** ** Numbers out of text *)

Lemma parse_decimal_nonneg (s : string) : forall acc,
  0 <= acc -> forall_chars isdecimal s = true -> 0 <= parse_decimal acc s.
Proof.
  induction s as [|c s IH]; intros acc Hacc; simpl; [done|].
  rewrite andb_true_iff. intros [Hc Hs]. apply IH; [|done].
  unfold isdecimal in Hc. apply andb_true_iff in Hc as [Hlo _].
  apply N.leb_le in Hlo. lia.
Qed.

(** X9: a number [_safe_int] reads out of text is never negative: it is
    the value of the decimal digits left when the surrounding whitespace
    is stripped, the same number [int] gives for that text.  Signed text
    is answered with null. *)
Theorem X9_safe_int_text (s : string) (n : Z) :
  _safe_int (PStr s) = Ok (Some n) ->
  0 <= n /\ n = parse_decimal 0 (strip s) /\ int_of_literal (strip s) = Ok n /\
  forall c r, strip s = String c r -> c <> "-"%char /\ c <> "+"%char.
Proof.
  unfold _safe_int. destruct (isdigit (strip s)) eqn:Hd; [|discriminate].
  destruct (int_of_str (strip s)) as [m|e] eqn:Hi; [|discriminate].
  rewrite bind_ok. intros [= <-].
  pose proof (int_of_str_inv _ _ Hd Hi) as Hlit.
  rewrite (int_of_str_literal _ Hlit) in Hi. injection Hi as <-.
  split; [|split; [done|split]].
  - apply parse_decimal_nonneg; [done|].
    unfold decimal_literal in Hlit. rewrite !andb_true_iff in Hlit. tauto.
  - by apply int_of_literal_plain.
  - intros c r Hs. destruct (decimal_literal_head _ Hlit) as (c' & r' & Hs' & Hc).
    rewrite Hs in Hs'. injection Hs' as <- _.
    split; intros ->; discriminate.
Qed.

Lemma X9_safe_int_text_witness :
  0 <= 12 /\ 12 = parse_decimal 0 (strip " 12 ") /\
  _safe_int (PStr "-12") = Ok None.
Proof.
  destruct (X9_safe_int_text " 12 " 12 eq_refl) as (H1 & H2 & _).
  split; [exact H1|]. split; [exact H2 | reflexivity].
Defined.

(** ** The catalog fetch and the cycle *)

Lemma as_completed_nil {B} (choices : list nat) : as_completed choices (@nil B) = [].
Proof. by destruct choices. Qed.

Lemma delete_error_payload (updated_at : string) (items : list pyval) :
  delete "error" (<["updated_at" := PStr updated_at]> ({["items" := PList items]} : pydict))
  = <["updated_at" := PStr updated_at]> {["items" := PList items]}.
Proof. apply delete_id. by simplify_map_eq. Qed.

Section CatalogFacts.
Context (h : host) (cfg : Config).

(** A cycle whose catalog fetch fails stops there. *)
Lemma build_payload_fetch_failed (w : cycle_env) (e : exn) :
  (fetch_popular_videos cfg (popular_call w)).1 = Raise e ->
  build_payload h cfg w = (Raise e, (fetch_popular_videos cfg (popular_call w)).2).
Proof.
  unfold build_payload.
  destruct (fetch_popular_videos cfg (popular_call w)) as [[entries|e'] t]; simpl; congruence.
Qed.

(** A cycle whose catalog names no entry awaits no enrichment. *)
Lemma build_payload_no_entries (w : cycle_env) (entries : list pyval) :
  (fetch_popular_videos cfg (popular_call w)).1 = Ok entries ->
  omap as_dict entries = [] ->
  build_payload h cfg w
  = (Ok (<["updated_at" := PStr (now w)]> {["items" := PList []]}),
     (fetch_popular_videos cfg (popular_call w)).2).
Proof.
  unfold build_payload.
  destruct (fetch_popular_videos cfg (popular_call w)) as [[entries'|e'] t];
    simpl; [|discriminate].
  intros [= ->] ->. cbn [imap]. rewrite as_completed_nil. simpl.
  by rewrite app_nil_r.
Qed.

(** The catalog fetch issues the GETs of its one call and no other. *)
Lemma gets_fetch_popular_videos (env : call_env) :
  gets (fetch_popular_videos cfg env).2
  = gets (_get_json_with_retry POPULAR_API
            (<["pn" := PInt 1]> {["ps" := PInt (max_items cfg)]}) true
            default_retries default_backoff env).2.
Proof.
  unfold fetch_popular_videos. rewrite snd_bind, gets_app.
  match goal with
  | |- _ ++ gets ?m = _ => assert (Hrest : gets m = []); [|by rewrite Hrest, app_nil_r]
  end.
  destruct (_get_json_with_retry _ _ _ _ _ _).1 as [raw|e']; [|done].
  destruct (negb _); [done|].
  rewrite snd_lift_bind. destruct (get_attr _) as [data|e']; [|done].
  by destruct (if py_truthy _ then _ else _).
Qed.

End CatalogFacts.

(** X10: a catalog that names no entry is no failure.  The cycle awaits no
    enrichment, builds a snapshot with an empty item list and writes it
    over the one on the disk: the items of the earlier snapshot are not
    kept. *)
Theorem X10_empty_catalog (h : host) (cfg : Config) (w : cycle_env)
    (fs : gmap string string) (entries : list pyval) :
  (fetch_popular_videos cfg (popular_call w)).1 = Ok entries ->
  omap as_dict entries = [] ->
  readable h cfg fs = true ->
  write_fault w = None ->
  (run_once h cfg w fs).1
  = (Ok (), (fetch_popular_videos cfg (popular_call w)).2
            ++ [EvUpdated (output_path cfg) 0]) /\
  (run_once h cfg w fs).2 !! output_path cfg
  = Some (json_dump h (<["updated_at" := PStr (now w)]> {["items" := PList []]})).
Proof.
  intros Hf He Hr Hw.
  pose proof (atomic_write_json_spec h None (output_path cfg)
                (<["updated_at" := PStr (now w)]> {["items" := PList []]}) fs) as Hs.
  unfold readable in Hr. unfold run_once.
  destruct (_read_existing _ _ _ ≫= _) as [existing|e]; [|done].
  rewrite (build_payload_no_entries h cfg w entries Hf He), Hw.
  rewrite delete_error_payload.
  destruct (_atomic_write_json h None _ _ _) as [[[]|e] fs'] eqn:Hwr.
  - split; [|exact Hs]. by simplify_map_eq.
  - unfold _atomic_write_json in Hwr. discriminate.
Qed.

(** The catalog answers with code 0 and no data: the earlier snapshot is
    replaced by an empty one. *)
Lemma X10_empty_catalog_witness :
  old_disk !! "data.json" = Some "updated_at=2026-02-09 20:46:32" /\
  (run_once demo_host demo_cfg empty_catalog old_disk).2 !! "data.json"
  = Some "updated_at=2026-02-09 21:16:32" /\
  (run_once demo_host demo_cfg empty_catalog old_disk).1
  = (Ok (), [EvLimiterWait;
             EvGet POPULAR_API (<["pn" := PInt 1]> {["ps" := PInt 50]});
             EvFetched 0; EvUpdated "data.json" 0]).
Proof.
  destruct (X10_empty_catalog demo_host demo_cfg empty_catalog old_disk [])
    as [H1 H2]; [reflexivity..|].
  split; [reflexivity|]. split; [exact H2 | exact H1].
Defined.

(** X11: when the catalog fetch fails, for whatever reason, the cycle ends
    there: no enrichment is started, the failure is logged, the cycle
    returns normally and the disk is left exactly as it was, with no
    temporary file. *)
Theorem X11_catalog_failure (h : host) (cfg : Config) (w : cycle_env)
    (fs : gmap string string) (e : exn) :
  (fetch_popular_videos cfg (popular_call w)).1 = Raise e ->
  readable h cfg fs = true ->
  run_once h cfg w fs
  = ((Ok (), (fetch_popular_videos cfg (popular_call w)).2 ++ [EvCycleFailed e]), fs) /\
  (forall url params,
     (url, params) ∈ gets (run_once h cfg w fs).1.2 -> url = POPULAR_API) /\
  (length (gets (run_once h cfg w fs).1.2) <= 3)%nat.
Proof.
  intros Hf Hr.
  assert (Hrun : run_once h cfg w fs
    = ((Ok (), (fetch_popular_videos cfg (popular_call w)).2 ++ [EvCycleFailed e]), fs)).
  { unfold readable in Hr. unfold run_once.
    destruct (_read_existing _ _ _ ≫= _) as [existing|e']; [|done].
    by rewrite (build_payload_fetch_failed h cfg w e Hf). }
  split; [exact Hrun|]. rewrite Hrun. cbn [fst snd].
  rewrite gets_app. cbn [gets omap list_omap]. rewrite app_nil_r.
  rewrite gets_fetch_popular_videos.
  destruct (get_json_budget POPULAR_API
              (<["pn" := PInt 1]> {["ps" := PInt (max_items cfg)]}) true
              default_retries default_backoff (popular_call w)) as (k & Hk & Hg & _).
  change (Z.to_nat default_retries) with 3%nat in Hk.
  rewrite Hg. split.
  - intros url params H. apply elem_of_replicate in H as [H _]. by injection H.
  - by rewrite length_replicate.
Qed.

(** The catalog endpoint is down: three GETs, then the failure is logged
    and the disk is as before. *)
Lemma X11_catalog_failure_witness :
  (run_once demo_host demo_cfg blackout_cycle old_disk).2 = old_disk /\
  (length (gets (run_once demo_host demo_cfg blackout_cycle old_disk).1.2) <= 3)%nat.
Proof.
  destruct (X11_catalog_failure demo_host demo_cfg blackout_cycle old_disk
              (GetFailed POPULAR_API 3 (HTTPStatusError 500)))
    as (H1 & _ & H3); [reflexivity..|].
  split; [by rewrite H1 | exact H3].
Defined.

(** X12: an answer of the catalog endpoint that carries a code other than
    zero is an error of the cycle and is not retried: after that one GET
    the fetch raises, without a backoff sleep. *)
Theorem X12_api_error_not_retried (cfg : Config) (env : call_env) (raw : pydict) :
  attempt_once (answer env 0) = Ok raw ->
  py_eq_zero (py_get raw "code") = false ->
  fetch_popular_videos cfg env
  = (Raise (PopularApiError (py_get raw "code") (py_get raw "message")),
     [EvLimiterWait;
      EvGet POPULAR_API (<["pn" := PInt 1]> {["ps" := PInt (max_items cfg)]})]).
Proof.
  intros Hok Hcode. unfold fetch_popular_videos, _get_json_with_retry.
  change (Z.to_nat default_retries) with 3%nat.
  rewrite (retry_loop_ok _ _ _ _ _ _ _ _ _ _ Hok).
  cbn [mbind M_bind]. by rewrite Hcode.
Qed.

Lemma X12_api_error_not_retried_witness :
  fetch_popular_videos demo_cfg (popular_call refused_catalog)
  = (Raise (PopularApiError (PInt (-352)) (PStr "risk control")),
     [EvLimiterWait; EvGet POPULAR_API (<["pn" := PInt 1]> {["ps" := PInt 50]})]).
Proof.
  exact (X12_api_error_not_retried demo_cfg (popular_call refused_catalog)
           (<["code" := PInt (-352)]> {["message" := PStr "risk control"]})
           eq_refl eq_refl).
Defined.

(** ** The order of the items *)

Lemma key_le_antisym (p q : Z * Z) :
  key_le (fun k : Z * Z => k) p q -> key_le (fun k : Z * Z => k) q p -> p = q.
Proof.
  rewrite !key_le_spec. destruct p as [p1 p2], q as [q1 q2]. simpl.
  intros H1 H2. f_equal; lia.
Qed.

(** Sorting two arrangements of the same items gives the same sequence of
    keys. *)
Lemma list_sort_keys {A} (key : A -> Z * Z) (l1 l2 : list A) :
  l1 ≡ₚ l2 -> key <$> list_sort key l1 = key <$> list_sort key l2.
Proof.
  intros Hp.
  apply (StronglySorted_unique_strong (key_le (fun k : Z * Z => k))).
  - intros p q _ _. apply key_le_antisym.
  - apply (StronglySorted_fmap key (key_le key)); [done | apply list_sort_sorted].
  - apply (StronglySorted_fmap key (key_le key)); [done | apply list_sort_sorted].
  - by rewrite !list_sort_Permutation, Hp.
Qed.

Section OrderFacts.
Context (h : host) (cfg : Config).

Lemma build_payload_sorted_successes (w : cycle_env) (payload : pydict) :
  (build_payload h cfg w).1 = Ok payload ->
  exists entries,
    (fetch_popular_videos cfg (popular_call w)).1 = Ok entries /\
    items_of payload
    = PDict <$> list_sort sort_key
        (successes (as_completed (completion w) (tasks_of h w entries))).
Proof.
  rewrite build_payload_fst. intros H.
  apply bind_ok_inv in H as (entries & Hf & H). injection H as <-.
  exists entries. split; [done|]. unfold items_of. by simplify_map_eq.
Qed.

End OrderFacts.

(** X13: the order in which the enrichments finish decides nothing but the
    order among items of equal rank.  Two cycles that meet the same answers
    and differ in that order only both succeed, with the same items and the
    same sequence of sort keys. *)
Theorem X13_completion_order (h : host) (cfg : Config) (w1 w2 : cycle_env)
    (p1 : pydict) :
  popular_call w1 = popular_call w2 ->
  item_env w1 = item_env w2 ->
  (build_payload h cfg w1).1 = Ok p1 ->
  exists p2 items1 items2,
    (build_payload h cfg w2).1 = Ok p2 /\
    items_of p1 = PDict <$> items1 /\
    items_of p2 = PDict <$> items2 /\
    items1 ≡ₚ items2 /\
    sort_key <$> items1 = sort_key <$> items2.
Proof.
  intros Hpop Henv H1.
  destruct (build_payload_sorted_successes h cfg w1 p1 H1) as (entries & Hf & Hi).
  assert (Ht : tasks_of h w1 entries = tasks_of h w2 entries).
  { unfold tasks_of. by rewrite Henv. }
  assert (Hperm : successes (as_completed (completion w1) (tasks_of h w1 entries))
                  ≡ₚ successes (as_completed (completion w2) (tasks_of h w2 entries))).
  { unfold successes. by rewrite !as_completed_Permutation, Ht. }
  eexists _, _, _. split; [|split; [exact Hi|split; [|split]]].
  - rewrite build_payload_fst, <-Hpop, Hf. reflexivity.
  - unfold items_of. by simplify_map_eq.
  - by rewrite !list_sort_Permutation.
  - by apply list_sort_keys.
Qed.

(** The three-entry cycle, with the third enrichment finishing first and
    with the enrichments finishing in submission order. *)
Lemma X13_completion_order_witness :
  exists p2 items1 items2,
    (build_payload demo_host demo_cfg demo_cycle_in_order).1 = Ok p2 /\
    items_of (ok_of (build_payload demo_host demo_cfg demo_cycle)) = PDict <$> items1 /\
    items_of p2 = PDict <$> items2 /\
    items1 ≡ₚ items2 /\
    sort_key <$> items1 = sort_key <$> items2.
Proof.
  apply (X13_completion_order demo_host demo_cfg demo_cycle demo_cycle_in_order).
  - reflexivity.
  - reflexivity.
  - apply ok_of_eq. vm_compute. reflexivity.
Defined.

(** X14: items of equal rank stand in the snapshot in the order in which
    their enrichments finished; in particular the items without a usable
    online count, which all have the same rank, close the list in that
    order. *)
Theorem X14_ties_in_completion_order (h : host) (cfg : Config) (w : cycle_env)
    (payload : pydict) :
  (build_payload h cfg w).1 = Ok payload ->
  exists entries items,
    (fetch_popular_videos cfg (popular_call w)).1 = Ok entries /\
    items_of payload = PDict <$> items /\
    forall k : Z * Z,
      filter (fun x => sort_key x = k) items
      = filter (fun x => sort_key x = k)
          (successes (as_completed (completion w) (tasks_of h w entries))).
Proof.
  intros Hp.
  destruct (build_payload_sorted_successes h cfg w payload Hp) as (entries & Hf & Hi).
  eexists entries, _. split; [done|]. split; [exact Hi|].
  intros k. apply list_sort_stable.
Qed.

Lemma X14_ties_in_completion_order_witness :
  exists entries items,
    (fetch_popular_videos demo_cfg (popular_call demo_cycle)).1 = Ok entries /\
    items_of (ok_of (build_payload demo_host demo_cfg demo_cycle)) = PDict <$> items /\
    forall k : Z * Z,
      filter (fun x => sort_key x = k) items
      = filter (fun x => sort_key x = k)
          (successes (as_completed (completion demo_cycle)
                        (tasks_of demo_host demo_cycle entries))).
Proof.
  apply (X14_ties_in_completion_order demo_host demo_cfg demo_cycle).
  apply ok_of_eq. vm_compute. reflexivity.
Defined.

(** ** What a write touches *)

Lemma chars_take (text : string) : forall j,
  exists part rest, text = part +:+ rest /\ take j (chars text) = chars part.
Proof.
  induction text as [|c text IH]; intros j.
  - exists "", "". by destruct j.
  - destruct j as [|j].
    + by exists "", (String c text).
    + destruct (IH j) as (part & rest & -> & Ht).
      exists (String c part), rest. simpl. by rewrite Ht.
Qed.

Section FrameFacts.
Context (h : host).

Lemma atomic_write_ops_frame (path : string) (payload : pydict) (p : string) :
  p <> path -> p <> path +:+ ".tmp" ->
  Forall (fun op => ~ touches op p) (atomic_write_ops h path payload).
Proof.
  intros H1 H2. unfold atomic_write_ops. rewrite !Forall_app. repeat split.
  - repeat constructor; simpl; congruence.
  - apply Forall_fmap, Forall_true. intros c. simpl. congruence.
  - repeat constructor; simpl; intuition congruence.
Qed.

(** A write cut after its second step and before its last has left a
    part of the text in the temporary file. *)
Lemma atomic_write_partial (path : string) (payload : pydict)
    (fs : gmap string string) (k : nat) :
  (2 <= k < length (atomic_write_ops h path payload))%nat ->
  exists part rest,
    json_dump h payload = part +:+ rest /\
    fs_run (take k (atomic_write_ops h path payload)) fs !! (path +:+ ".tmp")
    = Some part.
Proof.
  unfold atomic_write_ops. set (tmp := path +:+ ".tmp").
  set (text := json_dump h payload).
  rewrite !length_app, length_fmap. cbn [length]. intros Hk.
  rewrite (take_app_ge [MakeParentDirs path; OpenTrunc tmp]) by (simpl; lia).
  cbn [length]. rewrite take_app, length_fmap, <-fmap_take.
  destruct (chars_take text (k - 2)) as (part & rest & Htext & ->).
  exists part, rest. split; [done|].
  rewrite !fs_run_app.
  assert (Hfs : forall fs0,
    fs_run (take (k - 2 - length (chars text))
              [Flush tmp; Fsync tmp; Close tmp; Replace tmp path]) fs0 = fs0).
  { intros fs0.
    destruct (k - 2 - length (chars text))%nat as [|[|[|[|m]]]] eqn:Hm;
      [done..|lia]. }
  rewrite Hfs, fs_run_writes. unfold fs_run. simpl. by rewrite lookup_insert_eq.
Qed.

End FrameFacts.

(** X15: [_atomic_write_json] touches the target and its temporary file
    and nothing else on the disk.  After a write that went through the
    temporary file is gone and reading the target back decodes the text
    that was dumped (or raises what reading a file with that text raises
    on the host).  A write that breaks after the temporary file
    was opened leaves that file behind with a part of the text. *)
Theorem X15_write_frame (h : host) (fault : option nat) (path : string)
    (payload : pydict) (fs : gmap string string) :
  (forall p, p <> path -> p <> path +:+ ".tmp" ->
     (_atomic_write_json h fault path payload fs).2 !! p = fs !! p) /\
  (is_ok (_atomic_write_json h fault path payload fs).1 = true ->
     (_atomic_write_json h fault path payload fs).2 !! (path +:+ ".tmp") = None /\
     _read_existing h path (_atomic_write_json h fault path payload fs).2
     = match read_error h path (Some (json_dump h payload)) with
       | Some e => Raise e
       | None => Ok (json_load h (json_dump h payload))
       end) /\
  (forall k, fault = Some k ->
     (2 <= k < length (atomic_write_ops h path payload))%nat ->
     exists part rest,
       json_dump h payload = part +:+ rest /\
       (_atomic_write_json h fault path payload fs).2 !! (path +:+ ".tmp")
       = Some part).
Proof.
  assert (Hne : path +:+ ".tmp" <> path) by (apply append_neq; discriminate).
  assert (Hdone : fs_run (atomic_write_ops h path payload) fs !! (path +:+ ".tmp") = None /\
                  fs_run (atomic_write_ops h path payload) fs !! path
                  = Some (json_dump h payload)).
  { destruct (atomic_write_ops_split h path payload) as (pre & -> & _ & Htmp).
    rewrite fs_run_app. unfold fs_run at 1 3. simpl. rewrite Htmp.
    rewrite lookup_insert_ne, lookup_delete_eq, lookup_insert_eq by done. done. }
  split; [|split].
  - intros p H1 H2.
    pose proof (atomic_write_ops_frame h path payload p H1 H2) as Hf.
    unfold _atomic_write_json.
    destruct fault as [k|]; [destruct (k <? _)%nat|]; cbn [snd];
      apply fs_run_untouched; [by apply Forall_take | done | done].
  - unfold _atomic_write_json, _read_existing.
    destruct fault as [k|]; [destruct (k <? _)%nat|]; cbn [fst snd is_ok];
      [discriminate| |]; intros _; destruct Hdone as [-> ->]; done.
  - intros k -> Hk. unfold _atomic_write_json.
    destruct (Nat.ltb_spec k (length (atomic_write_ops h path payload))); [|lia].
    cbn [snd]. by apply atomic_write_partial.
Qed.

(** The write of the three-entry cycle, whole and broken at its sixth
    step, on a disk that holds another file. *)
Lemma X15_write_frame_witness :
  (_atomic_write_json demo_host None "data.json"
     (ok_of (build_payload demo_host demo_cfg demo_cycle))
     (<["notes.txt" := "keep"]> old_disk)).2 !! "notes.txt"
  = Some "keep" /\
  (_atomic_write_json demo_host None "data.json"
     (ok_of (build_payload demo_host demo_cfg demo_cycle))
     (<["notes.txt" := "keep"]> old_disk)).2 !! "data.json.tmp"
  = None /\
  exists part rest,
    json_dump demo_host (ok_of (build_payload demo_host demo_cfg demo_cycle))
    = part +:+ rest /\
    (_atomic_write_json demo_host (Some 5%nat) "data.json"
       (ok_of (build_payload demo_host demo_cfg demo_cycle))
       (<["notes.txt" := "keep"]> old_disk)).2 !! "data.json.tmp" = Some part.
Proof.
  destruct (X15_write_frame demo_host None "data.json"
              (ok_of (build_payload demo_host demo_cfg demo_cycle))
              (<["notes.txt" := "keep"]> old_disk)) as (H1 & H2 & _).
  destruct (X15_write_frame demo_host (Some 5%nat) "data.json"
              (ok_of (build_payload demo_host demo_cfg demo_cycle))
              (<["notes.txt" := "keep"]> old_disk)) as (_ & _ & H3).
  split; [|split].
  - rewrite H1; [reflexivity | discriminate | discriminate].
  - apply H2. reflexivity.
  - apply (H3 5%nat eq_refl). vm_compute. split; lia.
Defined.

(** ** The worker as a whole *)



Section SchedulerFacts.
Context (h : host) (cfg : Config).






End SchedulerFacts.



(** The ways a run ends in an error: a snapshot that may not be read, one
    that is no UTF-8, and an event loop without signal support. *)
Example main_snapshot_locked :
  (main locked_host ∅ [demo_cycle] {["../data/data.json" := "updated_at=x"]}).1
  = (Raise (OSError "Permission denied"), [EvStarting]).
Proof. reflexivity. Qed.

Example main_snapshot_no_utf8 :
  (main strict_host ∅ [demo_cycle]
     {["../data/data.json" := String (Ascii.ascii_of_N 255) ""]}).1
  = (Raise UnicodeDecodeError, [EvStarting]).
Proof. reflexivity. Qed.

Example main_no_signal_support :
  (main signalless_host ∅ [demo_cycle] ∅).1 = (Raise NotImplementedError, []).
Proof. reflexivity. Qed.

(** ** The shape of a snapshot *)

Lemma dom_item_of (bvid title pic : string) (owner online_total : pyval)
    (online_count view danmaku : option Z) (pubdate : string) :
  dom (item_of bvid title pic owner online_total online_count view danmaku pubdate)
  = ({["bvid"; "title"; "pic"; "owner"; "online_total"; "online_count";
       "view"; "danmaku"; "pubdate"]} : gset string).
Proof. unfold item_of. rewrite !dom_insert_L, dom_singleton_L. set_solver. Qed.

(** X17: every snapshot that is built has the keys [updated_at] and
    [items] and no other, in particular no [error] key, so that removing
    that key before the write changes nothing; [updated_at] is the time the
    payload was built, and every item is a dict with exactly the nine keys
    bvid, title, pic, owner, online_total, online_count, view, danmaku and
    pubdate, of which bvid, title, pic and pubdate hold text. *)
Theorem X17_snapshot_schema (h : host) (cfg : Config) (w : cycle_env)
    (payload : pydict) :
  (build_payload h cfg w).1 = Ok payload ->
  dom payload = ({["updated_at"; "items"]} : gset string) /\
  payload !! "updated_at" = Some (PStr (now w)) /\
  delete "error" payload = payload /\
  exists items, payload !! "items" = Some (PList (PDict <$> items)) /\
    forall item, item ∈ items ->
      dom item = ({["bvid"; "title"; "pic"; "owner"; "online_total"; "online_count";
                    "view"; "danmaku"; "pubdate"]} : gset string) /\
      forall k, k ∈ ["bvid"; "title"; "pic"; "pubdate"] ->
        exists text, item !! k = Some (PStr text).
Proof.
  intros Hp. pose proof Hp as Hp'. rewrite build_payload_fst in Hp'.
  apply bind_ok_inv in Hp' as (entries & Hf & Hp'). injection Hp' as <-.
  split; [by rewrite dom_insert_L, dom_singleton_L|].
  split; [by simplify_map_eq|].
  split; [apply delete_id; by simplify_map_eq|].
  eexists. split; [by simplify_map_eq|].
  intros item Hitem.
  assert (Hitem' : item ∈ successes (tasks_of h w entries)).
  { rewrite list_sort_Permutation in Hitem. unfold successes in *.
    by rewrite as_completed_Permutation in Hitem. }
  apply elem_of_successes in Hitem' as (m & Hm & Hok).
  apply list_elem_of_lookup in Hm as [i Hm].
  unfold tasks_of in Hm. rewrite list_lookup_imap in Hm.
  destruct (omap as_dict entries !! i) as [raw|]; [|done].
  injection Hm as <-.
  destruct (enrich_video_ok_inv h _ _ _ Hok)
    as (bvid & ? & vd & ? & counts & pubdate & online & _ & _ & _ & _ & _ & _ & _ & _ & ->).
  split; [apply dom_item_of|].
  intros k Hk.
  pose proof (item_of_lookup bvid (resolved_title raw vd bvid) (resolved_pic raw vd)
                (resolved_owner raw vd) online.1 online.2 counts.1 counts.2 pubdate) as Hl.
  cbv zeta in Hl. destruct Hl as (H1 & H2 & H3 & _ & _ & _ & _ & _ & H9).
  repeat (apply elem_of_cons in Hk as [->|Hk]; [eauto|]).
  by apply elem_of_nil in Hk.
Qed.

Lemma X17_snapshot_schema_witness :
  dom (ok_of (build_payload demo_host demo_cfg demo_cycle))
  = ({["updated_at"; "items"]} : gset string) /\
  ok_of (build_payload demo_host demo_cfg demo_cycle) !! "updated_at"
  = Some (PStr "2026-02-09 20:56:32").
Proof.
  destruct (X17_snapshot_schema demo_host demo_cfg demo_cycle
              (ok_of (build_payload demo_host demo_cfg demo_cycle)))
    as (H1 & H2 & _).
  - apply ok_of_eq. vm_compute. reflexivity.
  - split; [exact H1 | exact H2].
Defined.

(** ** The requests of a cycle *)

Lemma collect_loop_gets (coros : list (M pydict)) : forall total i enriched,
  length (gets (collect_loop total i coros enriched).2)
  = sum_list_with (fun m : M pydict => length (gets m.2)) coros.
Proof.
  induction coros as [|[[item|e] t] coros IH]; intros total i enriched; [done| |].
  - cbn [collect_loop sum_list_with snd]. specialize (IH total (S i) (enriched ++ [item])).
    destruct (collect_loop _ _ _ _) as [out t']. cbn [snd] in *.
    rewrite !gets_app, !length_app, IH.
    by destruct ((i mod 10 =? 0) || (i =? total))%nat.
  - cbn [collect_loop sum_list_with snd]. specialize (IH total (S i) enriched).
    destruct (collect_loop _ _ _ _) as [out t']. cbn [snd] in *.
    by rewrite !gets_app, !length_app, IH.
Qed.

Lemma tasks_gets_bound (h : host) (l : list pydict) :
  forall g : nat -> enrich_env,
    (sum_list_with (fun m : M pydict => length (gets m.2))
       (imap (fun i it => enrich_video h (g i) it) l)
     <= 6 * length (filter (fun r => valid_bvid r = true) l))%nat.
Proof.
  induction l as [|raw l IH]; intros g; [done|].
  rewrite imap_cons, filter_cons. specialize (IH (g ∘ S)).
  change (imap ((fun i it => enrich_video h (g i) it) ∘ S) l)
    with (imap (fun i it => enrich_video h ((g ∘ S) i) it) l).
  set (rest := imap _ l) in *. cbn [sum_list_with].
  destruct (decide (valid_bvid raw = true)) as [Hv|Hv].
  - destruct (enrich_video_events h (g 0%nat) raw) as (_ & H6 & _).
    cbn [length]. lia.
  - apply not_true_is_false in Hv.
    rewrite (enrich_video_invalid h (g 0%nat) raw Hv). cbn [snd gets omap list_omap length].
    lia.
Qed.

(** X18: a cycle issues at most three GETs for the catalog and at most six
    for every catalog entry that is a dict with a valid identifier, and
    none for the other entries, in whatever order the enrichments
    finish. *)
Theorem X18_cycle_request_budget (h : host) (cfg : Config) (w : cycle_env)
    (entries : list pyval) :
  (fetch_popular_videos cfg (popular_call w)).1 = Ok entries ->
  (length (gets (build_payload h cfg w).2)
   <= 3 + 6 * length (filter (fun r => valid_bvid r = true) (omap as_dict entries)))%nat.
Proof.
  intros Hf. unfold build_payload. rewrite snd_bind, Hf, gets_app, length_app.
  rewrite (gets_fetch_popular_videos cfg).
  destruct (get_json_budget POPULAR_API
              (<["pn" := PInt 1]> {["ps" := PInt (max_items cfg)]}) true
              default_retries default_backoff (popular_call w)) as (k & Hk & Hg & _).
  change (Z.to_nat default_retries) with 3%nat in Hk.
  rewrite Hg, length_replicate.
  fold (tasks_of h w entries).
  pose proof (collect_loop_gets (as_completed (completion w) (tasks_of h w entries))
                (length (tasks_of h w entries)) 1 []) as Hc.
  destruct (collect_loop _ _ _ _) as [enriched t]. cbn [snd] in *.
  rewrite Hc, as_completed_Permutation.
  pose proof (tasks_gets_bound h (omap as_dict entries) (item_env w)) as Hb.
  unfold tasks_of. lia.
Qed.

(** The three-entry cycle: one GET for the catalog, two for each of the
    two entries with an identifier. *)
Lemma X18_cycle_request_budget_witness :
  length (gets (build_payload demo_host demo_cfg demo_cycle).2) = 5%nat /\
  (length (gets (build_payload demo_host demo_cfg demo_cycle).2) <= 3 + 6 * 2)%nat.
Proof.
  split; [vm_compute; reflexivity|].
  apply (X18_cycle_request_budget demo_host demo_cfg demo_cycle
           [PDict (raw_bare "BV1"); PDict raw_no_bvid; PDict (raw_bare "BV3")]).
  reflexivity.
Defined.

(** ** A failing online call *)

(** X19: the online call is as fatal to an entry as the detail call.  When
    the detail data names a channel and every attempt of the online call
    fails, the enrichment raises the aggregated error of that call, after
    the GETs of the detail call and three more, and returns no item, though
    the detail call had answered all the other fields. *)
Theorem X19_online_failure (h : host) (env : enrich_env) (raw : pydict)
    (bvid : string) (view_raw vd : pydict) (c : Z) :
  py_get raw "bvid" = PStr bvid -> bvid <> "" ->
  view_result env bvid = Ok view_raw ->
  or_empty_dict (py_get view_raw "data") = PDict vd ->
  _safe_int (py_get vd "cid") = Ok (Some c) -> c <> 0 ->
  is_ok (counts_of (resolved_stat raw vd)) = true ->
  is_ok (strftime_local h (resolved_pubdate raw vd)) = true ->
  (forall k, (k < 3)%nat -> is_Some (cause (online_call env) k)) ->
  exists e, cause (online_call env) 2 = Some e /\
    (enrich_video h env raw).1 = Raise (GetFailed ONLINE_API 3 e) /\
    gets (enrich_video h env raw).2
    = gets (view_trace env bvid)
      ++ replicate 3 (ONLINE_API, <["bvid" := PStr bvid]> {["cid" := PInt c]}).
Proof.
  intros Hb Hne Hview Hvd Hcid Hc Hcounts Hdate Hfail.
  destruct (get_json_exhausted ONLINE_API (<["bvid" := PStr bvid]> {["cid" := PInt c]})
              true default_retries default_backoff (online_call env)
              ltac:(vm_compute; lia) Hfail)
    as (e & He & Hr & _ & Hg).
  exists e. split; [exact He|]. split.
  - rewrite (enrich_video_fst h env raw bvid Hb Hne). unfold enrich_result.
    rewrite Hview, bind_ok, Hvd. cbn [get_attr]. rewrite bind_ok, Hcid, bind_ok.
    destruct (counts_of _) as [counts|]; [|done]. rewrite bind_ok.
    destruct (strftime_local _ _) as [pubdate|]; [|done]. rewrite bind_ok.
    unfold online_result. destruct (Z.eqb_spec c 0); [done|].
    by rewrite Hr.
  - assert (Hon : online_cid h env raw bvid = Some c).
    { unfold online_cid.
      rewrite Hview, bind_ok, Hvd. cbn [get_attr]. rewrite bind_ok, Hcid, bind_ok.
      destruct (counts_of _) as [counts|]; [|done]. rewrite bind_ok.
      destruct (strftime_local _ _) as [pubdate|]; [|done]. rewrite bind_ok.
      by destruct (Z.eqb_spec c 0). }
    rewrite (enrich_video_trace h env raw bvid Hb Hne), Hon.
    rewrite !gets_app. unfold online_trace. rewrite Hg.
    cbn [gets omap list_omap app]. by rewrite app_nil_r.
Qed.

(** The detail call answers and the online endpoint is down. *)
Lemma X19_online_failure_witness :
  exists e,
    (enrich_video demo_host
       {| view_call := ok_json (view_json 7 "B" 100 7); online_call := down |}
       (raw_bare "BV1")).1
    = Raise (GetFailed ONLINE_API 3 e).
Proof.
  destruct (X19_online_failure demo_host
              {| view_call := ok_json (view_json 7 "B" 100 7); online_call := down |}
              (raw_bare "BV1") "BV1" (view_json 7 "B" 100 7) (view_data 7 "B" 100 7) 7)
    as (e & _ & H & _).
  - reflexivity.
  - discriminate.
  - reflexivity.
  - reflexivity.
  - reflexivity.
  - discriminate.
  - reflexivity.
  - reflexivity.
  - intros k _. by eexists.
  - by exists e.
Defined.

(** ** Callers the limiter does not hold up *)

Lemma RateLimiter_run_idle (wake : Q -> Q -> Q) (arrivals : list Q) :
  forall self : RateLimiter,
    (0 < _min_interval_sec self)%Q ->
    (forall a, head arrivals = Some a -> (_next_at self <= a)%Q) ->
    (forall i a b, arrivals !! i = Some a -> arrivals !! S i = Some b ->
       (a + _min_interval_sec self <= b)%Q) ->
    RateLimiter_run wake self arrivals = arrivals.
Proof.
  induction arrivals as [|now arrivals IH]; intros self HT Hhead Hsp; [done|].
  cbn [RateLimiter_run]. unfold RateLimiter_wait.
  destruct (Qle_bool (_min_interval_sec self) 0) eqn:H0.
  { apply Qle_bool_iff in H0. lra. }
  assert (Hn : Qle_bool (_next_at self) now = true).
  { apply Qle_bool_iff, Hhead. reflexivity. }
  rewrite Hn. cbn [negb]. f_equal. apply IH; cbn [_min_interval_sec _next_at].
  - done.
  - intros a Ha. destruct arrivals as [|b arrivals]; [done|].
    injection Ha as <-. by apply (Hsp 0%nat now b).
  - intros i a b Ha Hb. by apply (Hsp (S i) a b).
Qed.

(** X20: callers that reach the limiter at least the minimum interval
    apart, the first of them not before the clock reads zero, are not held
    up: each is let through at the clock reading at which it arrived. *)
Theorem X20_rate_limiter_idle (wake : Q -> Q -> Q) (min_interval_sec : Q)
    (arrivals : list Q) :
  (0 < min_interval_sec)%Q ->
  (forall a, head arrivals = Some a -> (0 <= a)%Q) ->
  (forall i a b, arrivals !! i = Some a -> arrivals !! S i = Some b ->
     (a + min_interval_sec <= b)%Q) ->
  RateLimiter_run wake (RateLimiter_init min_interval_sec) arrivals = arrivals.
Proof.
  intros HT Hhead Hsp.
  assert (Hinit : _min_interval_sec (RateLimiter_init min_interval_sec) = min_interval_sec).
  { unfold RateLimiter_init. cbn [_min_interval_sec].
    destruct (Qle_bool 0 min_interval_sec) eqn:H0; [done|].
    apply Qle_bool_false in H0. lra. }
  apply RateLimiter_run_idle.
  - by rewrite Hinit.
  - exact Hhead.
  - by rewrite Hinit.
Qed.

(** Three callers one second apart at the limiter of [build_payload]. *)
Lemma X20_rate_limiter_idle_witness :
  RateLimiter_run (fun now d => (now + d)%Q) (RateLimiter_init (8 # 10)) [1; 2; 3]%Q
  = [1; 2; 3]%Q.
Proof.
  apply (X20_rate_limiter_idle (fun now d => (now + d)%Q) (8 # 10) [1; 2; 3]%Q).
  - reflexivity.
  - intros a [= <-]. discriminate.
  - intros [|[|[|i]]] a b Ha Hb; try discriminate;
      injection Ha as <-; injection Hb as <-; discriminate.
Defined.
